(** * MarketingStrategy-AI: validation and metrics pipeline

    A shallow embedding of [src/MarketingStrategy-AI.py] (class
    [MarketingStrategyAI]) and the properties of its parser, type coercer,
    validator and metrics engine.

    Python values are an inductive type, Python [float]s are the kernel's
    binary64 floats, Python [int]s are [Z], dictionaries are association
    lists in insertion order, and raised exceptions are the [Raise] side of
    an error monad.

    Scope of the embedding:
    - strings are byte strings and the text-level functions ([strip],
      [float(str)]) follow Python on ASCII text;
    - dictionary keys are strings, so the entry [csv.DictReader] files under
      the key [None] for a row longer than its header is not represented;
    - [json.loads] and [csv.DictReader] are parameters of the pipeline;
    - [analyze_campaigns] is represented by the values its text is made
      of, the rendering of floats as text being left out;
    - memory limits are not. *)

From Stdlib Require Import ZArith List String Ascii Bool Lia Floats DecimalString.
Import ListNotations.

#[local] Set Warnings "-register-all,-inexact-float".

Local Open Scope string_scope.
Local Open Scope Z_scope.

(** ** Exceptions and the error monad *)

Inductive exn : Type :=
| ValueError
| TypeError
| OverflowError
| ZeroDivisionError
| KeyError
| IndexError
| AttributeError
| JSONDecodeError
| RecursionError
| CsvError.

Inductive result (A : Type) : Type :=
| Ok (a : A)
| Raise (e : exn).
Arguments Ok {A} a.
Arguments Raise {A} e.

Definition bind {A B : Type} (r : result A) (k : A -> result B) : result B :=
  match r with
  | Ok a => k a
  | Raise e => Raise e
  end.

Notation "x <- c ;; k" := (bind c (fun x => k))
  (at level 61, c at next level, right associativity).

(** ** Binary64 arithmetic that Python performs outside the FPU

    Conversions between [int], decimal text and [float] are correctly
    rounded (nearest, ties to even).  [SF_of_ratio s n d] is the binary64
    nearest to the rational [n/d] (with [0 <= n], [0 < d]) carrying sign [s]. *)

Module Binary64.

(** [(n/d) / 2^e] as a fraction of integers. *)
Definition scale (n d e : Z) : Z * Z :=
  if 0 <=? e then (n, d * 2 ^ e) else (n * 2 ^ (- e), d).

(** [floor (log2 (n/d))] for positive [n] and [d]. *)
Definition ratio_log2 (n d : Z) : Z :=
  let l := Z.log2 n - Z.log2 d in
  let '(n', d') := scale n d l in
  if d' <=? n' then l else l - 1.

(** Nearest integer to [n/d], ties to the even one. *)
Definition round_half_even (n d : Z) : Z :=
  let q := n / d in
  match 2 * (n mod d) ?= d with
  | Lt => q
  | Gt => q + 1
  | Eq => if Z.even q then q else q + 1
  end.

Definition max_exp : Z := 971.    (* emax - prec *)
Definition min_exp : Z := -1074.  (* emin *)

Definition SF_of_ratio (s : bool) (n d : Z) : spec_float :=
  if n =? 0 then S754_zero s else
  let e := Z.max (ratio_log2 n d - 52) min_exp in
  let '(n', d') := scale n d e in
  let m := round_half_even n' d' in
  if m =? 0 then S754_zero s
  else if m =? 2 ^ 53 then
    if e + 1 <=? max_exp then S754_finite s (Z.to_pos (2 ^ 52)) (e + 1)
    else S754_infinity s
  else if e <=? max_exp then S754_finite s (Z.to_pos m) e
  else S754_infinity s.

Definition of_ratio (s : bool) (n d : Z) : float := SF2Prim (SF_of_ratio s n d).

(** The exact value of a finite binary64, as a fraction of integers
    (numerator signed). *)
Definition exact (s : bool) (m : positive) (e : Z) : Z * Z :=
  scale (if s then Zneg m else Zpos m) 1 (- e).

(** Truncation toward zero of a finite value [m * 2^e]. *)
Definition trunc_finite (s : bool) (m : positive) (e : Z) : Z :=
  let v := if 0 <=? e then Zpos m * 2 ^ e else Zpos m / 2 ^ (- e) in
  if s then - v else v.

(** Exact comparison of a binary64 with an integer; [None] for NaN. *)
Definition SF_compare_Z (x : spec_float) (z : Z) : option comparison :=
  match x with
  | S754_nan => None
  | S754_infinity s => Some (if s then Lt else Gt)
  | S754_zero _ => Some (0 ?= z)
  | S754_finite s m e =>
      let '(n, d) := exact s m e in Some (n ?= z * d)
  end.

Definition largest_int : Z := (2 ^ 53 - 1) * 2 ^ 971.

(** The exponent and the rounded mantissa [SF_of_ratio] works with. *)
Definition exponent_of (n d : Z) : Z := Z.max (ratio_log2 n d - 52) min_exp.
Definition mantissa_of (n d : Z) : Z :=
  round_half_even (fst (scale n d (exponent_of n d)))
                  (snd (scale n d (exponent_of n d))).

(** The shape of a correctly rounded quotient. *)
Inductive rounded (s : bool) : spec_float -> Prop :=
| rounded_zero : rounded s (S754_zero s)
| rounded_inf : rounded s (S754_infinity s)
| rounded_finite m e :
    bounded prec emax m e = true -> rounded s (S754_finite s m e).

(** A binary64 that is not NaN and carries the sign [s]. *)
Definition sign_is (s : bool) (x : spec_float) : Prop :=
  match x with
  | S754_zero s' | S754_infinity s' | S754_finite s' _ _ => s' = s
  | S754_nan => False
  end.

End Binary64.

(** ** Python values *)

Inductive pyval : Type :=
| VNone
| VBool (b : bool)
| VInt (z : Z)
| VFloat (f : float)
| VStr (s : string)
| VList (l : list pyval)
| VDict (d : list (string * pyval)).

(** A [dict] with string keys, in insertion order. *)
Definition dict : Type := list (string * pyval).

Fixpoint dict_get (k : string) (d : dict) : option pyval :=
  match d with
  | [] => None
  | (k', v) :: d' => if String.eqb k k' then Some v else dict_get k d'
  end.

(** [d[k] = v]: overwrite in place, or append a new key. *)
Fixpoint dict_set (k : string) (v : pyval) (d : dict) : dict :=
  match d with
  | [] => [(k, v)]
  | (k', v') :: d' =>
      if String.eqb k k' then (k', v) :: d' else (k', v') :: dict_set k v d'
  end.

Definition dict_mem (k : string) (d : dict) : bool :=
  match dict_get k d with Some _ => true | None => false end.

(** [d[k]] as an expression. *)
Definition dict_item (k : string) (d : dict) : result pyval :=
  match dict_get k d with Some v => Ok v | None => Raise KeyError end.

(** ** [float(str)]

    [PyFloat_FromString] on an ASCII string: surrounding whitespace is
    stripped, underscores are allowed between digits only, and the rest is
    an optionally signed [inf], [infinity], [nan] or decimal literal. *)

Module FloatParse.

Import Binary64.

Definition code (c : ascii) : Z := Z.of_nat (nat_of_ascii c).

Definition is_digit (c : ascii) : bool := (48 <=? code c) && (code c <=? 57).

(** [Py_ISSPACE]: space, \t, \n, \v, \f, \r. *)
Definition is_space (c : ascii) : bool :=
  (code c =? 32) || ((9 <=? code c) && (code c <=? 13)).

Definition lower (c : ascii) : ascii :=
  if (65 <=? code c) && (code c <=? 90)
  then ascii_of_nat (nat_of_ascii c + 32) else c.

Fixpoint drop_spaces (l : list ascii) : list ascii :=
  match l with
  | c :: l' => if is_space c then drop_spaces l' else l
  | [] => []
  end.

(** Trailing whitespace goes, but at least one character stays. *)
Definition strip (l : list ascii) : list ascii :=
  match drop_spaces l with
  | [] => []
  | c :: l' => c :: rev (drop_spaces (rev l'))
  end.

(** Removal of underscores, each of which must sit between two digits. *)
Fixpoint remove_underscores (prev : option ascii) (l : list ascii)
  : option (list ascii) :=
  match l with
  | [] =>
      match prev with
      | Some "_"%char => None
      | _ => Some []
      end
  | c :: l' =>
      if Ascii.eqb c "_" then
        match prev with
        | Some p => if is_digit p then remove_underscores (Some c) l' else None
        | None => None
        end
      else
        let ok := match prev with
                  | Some "_"%char => is_digit c
                  | _ => true
                  end in
        if ok then option_map (cons c) (remove_underscores (Some c) l') else None
  end.

Fixpoint span_digits (l : list ascii) : list ascii * list ascii :=
  match l with
  | c :: l' =>
      if is_digit c then let '(ds, r) := span_digits l' in (c :: ds, r)
      else ([], l)
  | [] => ([], [])
  end.

Definition digits_value (ds : list ascii) : Z :=
  fold_left (fun acc c => 10 * acc + (code c - 48)) ds 0.

Definition split_sign (l : list ascii) : bool * list ascii :=
  match l with
  | "-"%char :: l' => (true, l')
  | "+"%char :: l' => (false, l')
  | _ => (false, l)
  end.

(** The decimal exponent: nothing, or [e]/[E], an optional sign and at least
    one digit, up to the end of the text. *)
Definition parse_exponent (l : list ascii) : option Z :=
  match l with
  | [] => Some 0
  | c :: l' =>
      if Ascii.eqb (lower c) "e" then
        let '(s, l'') := split_sign l' in
        match span_digits l'' with
        | ((_ :: _) as ds, []) =>
            Some (if s then - digits_value ds else digits_value ds)
        | _ => None
        end
      else None
  end.

(** [D * 10^x], correctly rounded. *)
Definition decimal (s : bool) (D x : Z) : float :=
  if 0 <=? x then of_ratio s (D * 10 ^ x) 1 else of_ratio s D (10 ^ (- x)).

Definition parse_number (s : bool) (l : list ascii) : option float :=
  let '(ip, r) := span_digits l in
  let '(fp, r') :=
    match r with
    | "."%char :: r1 => span_digits r1
    | _ => ([], r)
    end in
  match ip ++ fp with
  | [] => None
  | ds =>
      match parse_exponent r' with
      | Some x => Some (decimal s (digits_value ds) (x - Z.of_nat (List.length fp)))
      | None => None
      end
  end%list.

Definition parse_inf_or_nan (s : bool) (l : list ascii) : option float :=
  let w := string_of_list_ascii (map lower l) in
  if String.eqb w "inf" || String.eqb w "infinity"
  then Some (if s then neg_infinity else infinity)
  else if String.eqb w "nan" then Some nan
  else None.

Definition float_of_string (str : string) : option float :=
  match strip (list_ascii_of_string str) with
  | [] => None
  | l =>
      match remove_underscores None l with
      | None => None
      | Some l' =>
          let '(s, body) := split_sign l' in
          match parse_inf_or_nan s body with
          | Some f => Some f
          | None => parse_number s body
          end
      end
  end.

End FloatParse.

(** ** Python numbers: conversions, comparisons and arithmetic *)

Import Binary64.

(** [PyLong_AsDouble]: the nearest binary64, or [OverflowError]
    (int too large to convert to float). *)
Definition float_of_int (z : Z) : result float :=
  match SF_of_ratio (z <? 0) (Z.abs z) 1 with
  | S754_infinity _ => Raise OverflowError
  | x => Ok (SF2Prim x)
  end.

(** [float(v)]. *)
Definition py_float (v : pyval) : result float :=
  match v with
  | VFloat f => Ok f
  | VInt z => float_of_int z
  | VBool b => Ok (if b then 1%float else 0%float)
  | VStr s =>
      match FloatParse.float_of_string s with
      | Some f => Ok f
      | None => Raise ValueError
      end
  | VNone | VList _ | VDict _ => Raise TypeError
  end.

(** [int(f)] on a float: truncation toward zero; NaN is a [ValueError],
    an infinity an [OverflowError]. *)
Definition int_of_float (f : float) : result Z :=
  match Prim2SF f with
  | S754_nan => Raise ValueError
  | S754_infinity _ => Raise OverflowError
  | S754_zero _ => Ok 0
  | S754_finite s m e => Ok (trunc_finite s m e)
  end.

(** [round(f, 2)] on a float: the exact value is rounded to two decimals
    (ties to even) and the decimal result converted back to binary64. *)
Definition round2 (f : float) : float :=
  match Prim2SF f with
  | S754_finite s m e =>
      let '(n, d) := scale (Zpos m * 100) 1 (- e) in
      of_ratio s (round_half_even n d) 100
  | _ => f
  end.

Inductive num : Type :=
| NInt (z : Z)
| NFloat (f : float).

(** The numeric types: [bool] is a subclass of [int]. *)
Definition as_num (v : pyval) : option num :=
  match v with
  | VBool b => Some (NInt (Z.b2z b))
  | VInt z => Some (NInt z)
  | VFloat f => Some (NFloat f)
  | _ => None
  end.

Definition to_double (n : num) : result float :=
  match n with
  | NInt z => float_of_int z
  | NFloat f => Ok f
  end.

Definition float_compare (x y : float) : option comparison :=
  match (x ?= y)%float with
  | FEq => Some Eq
  | FLt => Some Lt
  | FGt => Some Gt
  | FNotComparable => None
  end.

(** Ordering of two numbers; mixed comparisons are exact, and NaN is
    unordered ([None]). *)
Definition num_compare (a b : num) : option comparison :=
  match a, b with
  | NInt x, NInt y => Some (x ?= y)
  | NFloat x, NFloat y => float_compare x y
  | NFloat x, NInt y => SF_compare_Z (Prim2SF x) y
  | NInt x, NFloat y => option_map CompOpp (SF_compare_Z (Prim2SF y) x)
  end.

(** [v ? n] for an ordering comparison of any value with a number: the
    other operand must be a number too, else [TypeError]. *)
Definition compare_with (v : pyval) (n : num) : result (option comparison) :=
  match as_num v with
  | Some x => Ok (num_compare x n)
  | None => Raise TypeError
  end.

Definition is_gt (c : option comparison) : bool :=
  match c with Some Gt => true | _ => false end.
Definition is_ge (c : option comparison) : bool :=
  match c with Some Gt | Some Eq => true | _ => false end.
Definition is_lt (c : option comparison) : bool :=
  match c with Some Lt => true | _ => false end.
Definition is_le (c : option comparison) : bool :=
  match c with Some Lt | Some Eq => true | _ => false end.

(** [int / int]: the correctly rounded quotient. *)
Definition int_truediv (a b : Z) : result float :=
  if b =? 0 then Raise ZeroDivisionError
  else match SF_of_ratio (xorb (a <? 0) (b <? 0)) (Z.abs a) (Z.abs b) with
       | S754_infinity _ => Raise OverflowError
       | x => Ok (SF2Prim x)
       end.

Definition num_truediv (a b : num) : result float :=
  match a, b with
  | NInt x, NInt y => int_truediv x y
  | _, _ =>
      x <- to_double a ;;
      y <- to_double b ;;
      if (y =? 0)%float then Raise ZeroDivisionError else Ok (x / y)%float
  end.

Definition num_sub (a b : num) : result num :=
  match a, b with
  | NInt x, NInt y => Ok (NInt (x - y))
  | _, _ =>
      x <- to_double a ;;
      y <- to_double b ;;
      Ok (NFloat (x - y)%float)
  end.

Definition py_sub (a b : pyval) : result num :=
  match as_num a, as_num b with
  | Some x, Some y => num_sub x y
  | _, _ => Raise TypeError
  end.

Definition py_truediv (a b : pyval) : result float :=
  match as_num a, as_num b with
  | Some x, Some y => num_truediv x y
  | _, _ => Raise TypeError
  end.

(** [v * c] with a float [c]. *)
Definition mul_float (v : pyval) (c : float) : result float :=
  match as_num v with
  | Some n => x <- to_double n ;; Ok (x * c)%float
  | None => Raise TypeError
  end.

Fixpoint repeat_string (s : string) (n : nat) : string :=
  match n with
  | O => ""
  | S n' => s ++ repeat_string s n'
  end.

(** [v * k] with an int [k]; a string or a list is repeated. *)
Definition mul_int (v : pyval) (k : Z) : result pyval :=
  match v with
  | VBool b => Ok (VInt (Z.b2z b * k))
  | VInt z => Ok (VInt (z * k))
  | VFloat f => y <- float_of_int k ;; Ok (VFloat (f * y)%float)
  | VStr s => Ok (VStr (repeat_string s (Z.to_nat k)))
  | VList l => Ok (VList (List.concat (repeat l (Z.to_nat k))))
  | VNone | VDict _ => Raise TypeError
  end.

(** Truth value of an object. *)
Definition truthy (v : pyval) : bool :=
  match v with
  | VNone => false
  | VBool b => b
  | VInt z => negb (z =? 0)
  | VFloat f => negb (f =? 0)%float
  | VStr s => negb (String.eqb s "")
  | VList l => match l with [] => false | _ => true end
  | VDict d => match d with [] => false | _ => true end
  end.

Definition isinstance_int (v : pyval) : bool :=
  match v with
  | VInt _ | VBool _ => true
  | _ => false
  end.

Definition str_of_Z (z : Z) : string := NilZero.string_of_int (Z.to_int z).

Definition py_len (v : pyval) : result Z :=
  match v with
  | VStr s => Ok (Z.of_nat (String.length s))
  | VList l => Ok (Z.of_nat (List.length l))
  | VDict d => Ok (Z.of_nat (List.length d))
  | _ => Raise TypeError
  end.

(** [", ".join(l)] and the like. *)
Fixpoint join (sep : string) (l : list string) : string :=
  match l with
  | [] => ""
  | [s] => s
  | s :: l' => s ++ sep ++ join sep l'
  end.

(** ** Strings *)

Definition nl : string := String "010"%char "".

(** Whitespace of [str.strip()] among the ASCII characters. *)
Definition is_strip_space (c : ascii) : bool :=
  let n := FloatParse.code c in
  (n =? 32) || ((9 <=? n) && (n <=? 13)) || ((28 <=? n) && (n <=? 31)).

Fixpoint lstrip (s : string) : string :=
  match s with
  | String c s' => if is_strip_space c then lstrip s' else s
  | EmptyString => EmptyString
  end.

Fixpoint rstrip (s : string) : string :=
  match s with
  | String c s' =>
      match rstrip s' with
      | EmptyString => if is_strip_space c then EmptyString else String c EmptyString
      | r => String c r
      end
  | EmptyString => EmptyString
  end.

Definition py_strip (s : string) : string := rstrip (lstrip s).

Definition startswith (p s : string) : bool := String.prefix p s.

(** [sub in s] for strings. *)
Fixpoint str_contains (sub s : string) : bool :=
  String.prefix sub s ||
  match s with
  | String _ s' => str_contains sub s'
  | EmptyString => false
  end.

(** ** Class [MarketingStrategyAI]: the tables set up by [__init__] *)

Definition required_fields : list string :=
  [ "campaign_id"; "engagement_score"; "conversion_rate"; "predictive_roi";
    "budget_usd"; "total_campaign_spend"; "new_customers_acquired";
    "customers_start"; "customers_end"; "revenue_generated";
    "advertising_spend" ].

(** [lambda x: lo <= x <= hi] *)
Definition between (lo hi : Z) (x : pyval) : result bool :=
  c <- compare_with x (NInt lo) ;;
  if is_ge c then c' <- compare_with x (NInt hi) ;; Ok (is_le c')
  else Ok false.

(** [lambda x: x > 0] *)
Definition positive (x : pyval) : result bool :=
  c <- compare_with x (NInt 0) ;; Ok (is_gt c).

(** [lambda x: x > 0 and isinstance(x, int)] *)
Definition positive_int (x : pyval) : result bool :=
  c <- compare_with x (NInt 0) ;;
  if is_gt c then Ok (isinstance_int x) else Ok false.

Definition field_validations : list (string * (pyval -> result bool)) :=
  [ ("engagement_score", between 0 100);
    ("conversion_rate", between 0 1);
    ("predictive_roi", positive);
    ("budget_usd", positive);
    ("total_campaign_spend", positive);
    ("new_customers_acquired", positive_int);
    ("customers_start", positive_int);
    ("customers_end", positive_int);
    ("revenue_generated", positive);
    ("advertising_spend", positive) ].

Definition thresholds : dict :=
  [ ("composite_score", VInt 50);
    ("cac", VInt 50);
    ("retention_rate", VInt 90);
    ("roas", VInt 3) ].

(** ** [_convert_field_types] *)

Definition count_fields : list string :=
  [ "new_customers_acquired"; "customers_start"; "customers_end" ].

Definition mem_string (k : string) (l : list string) : bool :=
  existsb (String.eqb k) l.

(** [try: ... except (ValueError, TypeError): fallback] *)
Definition except_value_type {A : Type} (body : result A) (fallback : A)
  : result A :=
  match body with
  | Raise ValueError | Raise TypeError => Ok fallback
  | r => r
  end.

(** The value stored under [key] by one turn of the loop. *)
Definition convert_value (key : string) (value : pyval) : result pyval :=
  if mem_string key count_fields then
    except_value_type
      (f <- py_float value ;; z <- int_of_float f ;; Ok (VInt z)) value
  else if mem_string key (map fst field_validations)
          && negb (String.eqb key "campaign_id") then
    except_value_type (f <- py_float value ;; Ok (VFloat f)) value
  else Ok value.

Fixpoint convert_items (items converted : dict) : result dict :=
  match items with
  | [] => Ok converted
  | (key, value) :: rest =>
      v <- convert_value key value ;;
      convert_items rest (dict_set key v converted)
  end.

Definition _convert_field_types (record : pyval) : result dict :=
  match record with
  | VDict items => convert_items items []
  | _ => Raise AttributeError
  end.

(** ** [validate_data] *)

Record validation_result : Type := mk_validation_result {
  is_valid : bool;
  errors : list pyval;
  report : string;
  data : list dict
}.

Definition missing_fields (converted : dict) : list string :=
  filter (fun field => negb (dict_mem field converted)) required_fields.

(** One turn of the loop over [field_validations]: does the field join
    [invalid_fields]? *)
Definition field_invalid (converted : dict)
                         (fv : string * (pyval -> result bool)) : result bool :=
  v <- dict_item (fst fv) converted ;;
  except_value_type (b <- snd fv v ;; Ok (negb b)) true.

Fixpoint invalid_fields (converted : dict)
                        (fvs : list (string * (pyval -> result bool)))
  : result (list string) :=
  match fvs with
  | [] => Ok []
  | fv :: rest =>
      b <- field_invalid converted fv ;;
      l <- invalid_fields converted rest ;;
      Ok (if b then fst fv :: l else l)
  end.

Definition missing_msg (missing : list string) (idx : Z) : string :=
  "ERROR: Missing required field(s): " ++ join ", " missing
  ++ " in row " ++ str_of_Z (idx + 1) ++ ".".

Definition invalid_msg (invalid : list string) (idx : Z) : string :=
  "ERROR: Invalid value for the field(s): " ++ join ", " invalid
  ++ " in row " ++ str_of_Z (idx + 1) ++ ". Please correct and resubmit.".

(** The state the record loop updates: the [is_valid] flag and the
    [errors] list of [validation_result], and the local [validated_data]. *)
Record loop_state : Type := mk_loop_state {
  st_valid : bool;
  st_errors : list pyval;
  st_validated : list dict
}.

Definition fail_record (st : loop_state) (msg : string) : loop_state :=
  mk_loop_state false (st_errors st ++ [VStr msg]) (st_validated st).

(** The body of [for idx, record in enumerate(data)]. *)
Definition validate_record (st : loop_state) (idx : Z) (record : pyval)
  : result loop_state :=
  converted_record <- _convert_field_types record ;;
  match missing_fields converted_record with
  | (_ :: _) as missing => Ok (fail_record st (missing_msg missing idx))
  | [] =>
      invalid <- invalid_fields converted_record field_validations ;;
      match invalid with
      | _ :: _ => Ok (fail_record st (invalid_msg invalid idx))
      | [] =>
          Ok (mk_loop_state (st_valid st) (st_errors st)
                            (st_validated st ++ [converted_record]))
      end
  end.

Fixpoint validate_records (st : loop_state) (idx : Z) (records : list pyval)
  : result loop_state :=
  match records with
  | [] => Ok st
  | record :: rest =>
      st' <- validate_record st idx record ;;
      validate_records st' (idx + 1) rest
  end.

Definition field_range (field : string) : string :=
  if String.eqb field "engagement_score" then "(0 to 100)"
  else if String.eqb field "conversion_rate" then "(0 to 1)"
  else if mem_string field
            [ "predictive_roi"; "budget_usd"; "total_campaign_spend";
              "revenue_generated"; "advertising_spend" ]
  then "(positive number)"
  else if mem_string field count_fields then "(positive integer)"
  else "".

Definition str_of_error (v : pyval) : result string :=
  match v with
  | VStr s => Ok s
  | _ => Raise TypeError
  end.

Fixpoint errors_text (l : list pyval) : result (list string) :=
  match l with
  | [] => Ok []
  | v :: l' => s <- str_of_error v ;; r <- errors_text l' ;; Ok (s :: r)
  end.

(** The report text once the loop is over. *)
Definition build_report (n_campaigns n_fields : Z) (valid : bool)
                        (errs : list pyval) : result string :=
  let head :=
    "# Data Validation Report" ++ nl ++
    "## Data Structure Check:" ++ nl ++
    " - Number of campaigns: " ++ str_of_Z n_campaigns ++ nl ++
    " - Number of fields per record: " ++ str_of_Z n_fields ++ nl ++ nl ++
    "## Required Fields Check:" ++ nl in
  let present :=
    String.concat ""
      (map (fun field =>
              " - " ++ field ++ ": "
              ++ (if valid then "present" else "missing") ++ nl)
           required_fields) in
  let checked :=
    String.concat ""
      (map (fun fv =>
              " - " ++ fst fv ++ " " ++ field_range (fst fv) ++ ": "
              ++ (if valid then "validated" else "not valid") ++ nl)
           field_validations) in
  summary <-
    (if valid then Ok "Data validation is successful!"
     else l <- errors_text errs ;; Ok (join nl l)) ;;
  Ok (head ++ present ++ nl ++ "## Data Type and Value Validation:" ++ nl
      ++ checked ++ nl ++ "Validation Summary:" ++ nl ++ summary).

(** [data[0]] *)
Definition first_item (v : pyval) : result pyval :=
  match v with
  | VList (x :: _) => Ok x
  | VList [] => Raise IndexError
  | VStr (String c _) => Ok (VStr (String c ""))
  | VStr EmptyString => Raise IndexError
  | VDict _ => Raise KeyError
  | _ => Raise TypeError
  end.

Fixpoint chars (s : string) : list pyval :=
  match s with
  | String c s' => VStr (String c "") :: chars s'
  | EmptyString => []
  end.

(** The items [enumerate(data)] goes through. *)
Definition iterate (v : pyval) : result (list pyval) :=
  match v with
  | VList l => Ok l
  | VStr s => Ok (chars s)
  | VDict d => Ok (map (fun kv => VStr (fst kv)) d)
  | _ => Raise TypeError
  end.

Definition validate_data (parsed : pyval) : result validation_result :=
  if negb (truthy parsed) then
    Ok (mk_validation_result false [VStr "ERROR: No data provided."] "" [])
  else
    match (match parsed with
           | VDict d => dict_get "error" d
           | _ => None
           end) with
    | Some err => Ok (mk_validation_result false [err] "" [])
    | None =>
        n_campaigns <- py_len parsed ;;
        first_record <- first_item parsed ;;
        n_fields <- py_len first_record ;;
        records <- iterate parsed ;;
        st <- validate_records (mk_loop_state true [] []) 0 records ;;
        text <- build_report n_campaigns n_fields (st_valid st) (st_errors st) ;;
        Ok (mk_validation_result (st_valid st) (st_errors st) text
                                 (st_validated st))
    end.

(** ** [analyze_campaigns]

    The method renders a text; the embedding keeps the values the text is
    made of, one [campaign_analysis] per campaign, computed in the order of
    the source so that the first exception raised is the same.  The table
    [self.thresholds] is the argument [th]. *)

Record campaign_analysis : Type := mk_campaign_analysis {
  campaign_id : pyval;
  cac : float;
  retention_rate : float;
  roas : float;
  term1 : float;
  term2 : float;
  term3 : float;
  term4 : float;
  term5 : float;
  term6 : float;
  composite_score : float;
  cost_efficiency : float;
  budget_recommendation : string;
  meets_thresholds : bool;
  status : string;
  action : string
}.

(** [f ? v] for an ordering comparison of a float with any value. *)
Definition float_vs (f : float) (v : pyval) : result (option comparison) :=
  match as_num v with
  | Some n => Ok (num_compare (NFloat f) n)
  | None => Raise TypeError
  end.

(** [f * k] with an int [k]. *)
Definition float_mul_int (f : float) (k : Z) : result float :=
  y <- float_of_int k ;; Ok (f * y)%float.

(** The [and] chain of the final recommendation, left to right. *)
Definition eval_meets_thresholds (th : dict)
    (composite_score cac retention_rate roas : float) : result bool :=
  t1 <- dict_item "composite_score" th ;;
  c1 <- float_vs composite_score t1 ;;
  if is_ge c1 then
    t2 <- dict_item "cac" th ;;
    c2 <- float_vs cac t2 ;;
    if is_le c2 then
      t3 <- dict_item "retention_rate" th ;;
      c3 <- float_vs retention_rate t3 ;;
      if is_ge c3 then
        t4 <- dict_item "roas" th ;;
        c4 <- float_vs roas t4 ;;
        Ok (is_ge c4)
      else Ok false
    else Ok false
  else Ok false.

Definition cost_effective_text : string :=
  "The campaign is considered cost-effective.".
Definition reassess_text : string :=
  "Recommend a reassessment of the campaign budget.".
Definition scale_up_text : string := "Maintain or scale up the campaign.".
Definition remediation_text : string :=
  "Re-evaluate the campaign strategy by increasing customer engagement, "
  ++ "reducing campaign spend to lower CAC, implementing retention programs "
  ++ "to improve the Retention Rate, and optimizing advertising spend to "
  ++ "enhance ROAS.".

(** The body of [for campaign in validated_data]. *)
Definition analyze_campaign (th : dict) (campaign : dict)
  : result campaign_analysis :=
  campaign_id <- dict_item "campaign_id" campaign ;;
  engagement_score <- dict_item "engagement_score" campaign ;;
  conversion_rate <- dict_item "conversion_rate" campaign ;;
  predictive_roi <- dict_item "predictive_roi" campaign ;;
  budget_usd <- dict_item "budget_usd" campaign ;;
  total_campaign_spend <- dict_item "total_campaign_spend" campaign ;;
  new_customers_acquired <- dict_item "new_customers_acquired" campaign ;;
  customers_start <- dict_item "customers_start" campaign ;;
  customers_end <- dict_item "customers_end" campaign ;;
  revenue_generated <- dict_item "revenue_generated" campaign ;;
  advertising_spend <- dict_item "advertising_spend" campaign ;;
  (* basic metrics *)
  q_cac <- py_truediv total_campaign_spend new_customers_acquired ;;
  let cac := round2 q_cac in
  kept <- py_sub customers_end new_customers_acquired ;;
  start <- match as_num customers_start with
           | Some n => Ok n
           | None => Raise TypeError
           end ;;
  q_ret <- num_truediv kept start ;;
  pct <- float_mul_int q_ret 100 ;;
  let retention_rate := round2 pct in
  q_roas <- py_truediv revenue_generated advertising_spend ;;
  let roas := round2 q_roas in
  (* composite score; the percentage is first computed for the text *)
  _ <- mul_int conversion_rate 100 ;;
  t1 <- mul_float engagement_score 0.5 ;;
  let term1 := round2 t1 in
  conversion_percentage <- mul_int conversion_rate 100 ;;
  t2 <- mul_float conversion_percentage 0.3 ;;
  let term2 := round2 t2 in
  roi10 <- mul_int predictive_roi 10 ;;
  t3 <- mul_float roi10 0.2 ;;
  let term3 := round2 t3 in
  let term4 := round2 (cac * 0.05)%float in
  let term5 := round2 (retention_rate * 0.1)%float in
  let term6 := round2 (roas * 0.1)%float in
  let composite_score :=
    round2 ((term1 + term2 + term3) - term4 + term5 + term6)%float in
  _ <- dict_item "composite_score" th ;;
  (* budget efficiency *)
  q_eff <- py_truediv (VFloat composite_score) budget_usd ;;
  let cost_efficiency := round2 q_eff in
  let budget_recommendation :=
    if (0.05 <? cost_efficiency)%float then cost_effective_text
    else reassess_text in
  (* final recommendation *)
  meets_thresholds <-
    eval_meets_thresholds th composite_score cac retention_rate roas ;;
  Ok (mk_campaign_analysis campaign_id cac retention_rate roas
        term1 term2 term3 term4 term5 term6 composite_score cost_efficiency
        budget_recommendation meets_thresholds
        (if meets_thresholds then "Optimal" else "Needs Improvement")
        (if meets_thresholds then scale_up_text else remediation_text)).

Fixpoint analyze_campaigns (th : dict) (validated_data : list dict)
  : result (list campaign_analysis) :=
  match validated_data with
  | [] => Ok []
  | campaign :: rest =>
      a <- analyze_campaign th campaign ;;
      l <- analyze_campaigns th rest ;;
      Ok (a :: l)
  end.

(** ** [parse_data] and [process_data]

    [json.loads] and [csv.DictReader] are library code: the pipeline is
    parametric in them.  [json_loads] raises [JSONDecodeError] on malformed
    text; [csv_DictReader] yields the rows, each a [dict] keyed by the
    header. *)

Definition format_error : pyval :=
  VDict [("error",
          VStr "ERROR: Invalid data format. Please provide data in CSV or JSON format.")].

(** [k in v] *)
Definition contains_key (k : string) (v : pyval) : result bool :=
  match v with
  | VDict d => Ok (dict_mem k d)
  | VList l =>
      Ok (existsb (fun x => match x with
                            | VStr s => String.eqb s k
                            | _ => false
                            end) l)
  | VStr s => Ok (str_contains k s)
  | _ => Raise TypeError
  end.

(** [v[k]] with a string [k]. *)
Definition subscript (v : pyval) (k : string) : result pyval :=
  match v with
  | VDict d => dict_item k d
  | _ => Raise TypeError
  end.

(** What [process_data] returns: the validation report alone, or the
    validation report followed by the analysis. *)
Inductive output : Type :=
| ReportOnly (validation_report : string)
| WithAnalysis (validation_report : string)
               (analysis : list campaign_analysis).

Section Pipeline.

Variable json_loads : string -> result pyval.
Variable csv_DictReader : string -> result (list pyval).

Definition parse_data (data_str : string) : result pyval :=
  let data_str := py_strip data_str in
  if startswith "{" data_str then
    match json_loads data_str with
    | Ok json_data =>
        has <- contains_key "campaigns" json_data ;;
        if has then subscript json_data "campaigns"
        else Ok (VList [json_data])
    | Raise JSONDecodeError => Ok format_error
    | Raise e => Raise e
    end
  else if str_contains "," data_str then
    match csv_DictReader data_str with
    | Ok rows => Ok (VList rows)
    | Raise _ => Ok format_error
    end
  else Ok format_error.

Definition process_data (th : dict) (data_str : string) : result output :=
  parsed_data <- parse_data data_str ;;
  validation_result <- validate_data parsed_data ;;
  if negb (is_valid validation_result) then
    Ok (ReportOnly (report validation_result))
  else
    analysis <- analyze_campaigns th (data validation_result) ;;
    Ok (WithAnalysis (report validation_result) analysis).

End Pipeline.

(** ** Validated records

    [passes record converted]: the record went through the three stages of
    the loop body of [validate_data] and [converted] joined
    [validated_data]. *)

Definition passes (record : pyval) (converted : dict) : Prop :=
  _convert_field_types record = Ok converted
  /\ missing_fields converted = []
  /\ invalid_fields converted field_validations = Ok [].

Record CampaignRecord : Type := mk_CampaignRecord {
  r_campaign_id : pyval;
  r_engagement_score : float;
  r_conversion_rate : float;
  r_predictive_roi : float;
  r_budget_usd : float;
  r_total_campaign_spend : float;
  r_new_customers_acquired : Z;
  r_customers_start : Z;
  r_customers_end : Z;
  r_revenue_generated : float;
  r_advertising_spend : float
}.

Definition holds (d : dict) (r : CampaignRecord) : Prop :=
  dict_get "campaign_id" d = Some (r_campaign_id r)
  /\ dict_get "engagement_score" d = Some (VFloat (r_engagement_score r))
  /\ dict_get "conversion_rate" d = Some (VFloat (r_conversion_rate r))
  /\ dict_get "predictive_roi" d = Some (VFloat (r_predictive_roi r))
  /\ dict_get "budget_usd" d = Some (VFloat (r_budget_usd r))
  /\ dict_get "total_campaign_spend" d = Some (VFloat (r_total_campaign_spend r))
  /\ dict_get "new_customers_acquired" d = Some (VInt (r_new_customers_acquired r))
  /\ dict_get "customers_start" d = Some (VInt (r_customers_start r))
  /\ dict_get "customers_end" d = Some (VInt (r_customers_end r))
  /\ dict_get "revenue_generated" d = Some (VFloat (r_revenue_generated r))
  /\ dict_get "advertising_spend" d = Some (VFloat (r_advertising_spend r)).

Definition in_domain (r : CampaignRecord) : Prop :=
  between 0 100 (VFloat (r_engagement_score r)) = Ok true
  /\ between 0 1 (VFloat (r_conversion_rate r)) = Ok true
  /\ positive (VFloat (r_predictive_roi r)) = Ok true
  /\ positive (VFloat (r_budget_usd r)) = Ok true
  /\ positive (VFloat (r_total_campaign_spend r)) = Ok true
  /\ 0 < r_new_customers_acquired r <= largest_int
  /\ 0 < r_customers_start r <= largest_int
  /\ 0 < r_customers_end r <= largest_int
  /\ positive (VFloat (r_revenue_generated r)) = Ok true
  /\ positive (VFloat (r_advertising_spend r)) = Ok true.

(** The binary64 nearest to an int, and to a quotient of ints. *)
Definition Z2float (z : Z) : float := of_ratio (z <? 0) (Z.abs z) 1.
Definition Zdiv2float (a b : Z) : float :=
  of_ratio (xorb (a <? 0) (b <? 0)) (Z.abs a) (Z.abs b).

Definition ge_int (f : float) (k : Z) : bool :=
  is_ge (num_compare (NFloat f) (NInt k)).
Definition le_int (f : float) (k : Z) : bool :=
  is_le (num_compare (NFloat f) (NInt k)).

(** The formulas of the metrics engine on a typed record, with the
    thresholds 50, 50, 90, 3 and 0.05. *)
Definition metrics (r : CampaignRecord) : campaign_analysis :=
  let cac :=
    round2 (r_total_campaign_spend r / Z2float (r_new_customers_acquired r))%float in
  let retention_rate :=
    round2 (Zdiv2float (r_customers_end r - r_new_customers_acquired r)
                       (r_customers_start r) * 100)%float in
  let roas := round2 (r_revenue_generated r / r_advertising_spend r)%float in
  let term1 := round2 (r_engagement_score r * 0.5)%float in
  let term2 := round2 ((r_conversion_rate r * 100) * 0.3)%float in
  let term3 := round2 (r_predictive_roi r * 10 * 0.2)%float in
  let term4 := round2 (cac * 0.05)%float in
  let term5 := round2 (retention_rate * 0.1)%float in
  let term6 := round2 (roas * 0.1)%float in
  let composite_score :=
    round2 ((term1 + term2 + term3) - term4 + term5 + term6)%float in
  let cost_efficiency := round2 (composite_score / r_budget_usd r)%float in
  let meets :=
    ge_int composite_score 50 && le_int cac 50
    && ge_int retention_rate 90 && ge_int roas 3 in
  mk_campaign_analysis (r_campaign_id r) cac retention_rate roas
    term1 term2 term3 term4 term5 term6 composite_score cost_efficiency
    (if (0.05 <? cost_efficiency)%float then cost_effective_text
     else reassess_text)
    meets
    (if meets then "Optimal" else "Needs Improvement")
    (if meets then scale_up_text else remediation_text).

(** The verdict of the loop body on one record: [Some converted] when the
    record has every required field and every predicate holds, [None] when
    it is reported missing or invalid. *)
Definition check_record (record : pyval) : result (option dict) :=
  converted <- _convert_field_types record ;;
  match missing_fields converted with
  | _ :: _ => Ok None
  | [] =>
      invalid <- invalid_fields converted field_validations ;;
      match invalid with
      | _ :: _ => Ok None
      | [] => Ok (Some converted)
      end
  end.

Fixpoint check_records (records : list pyval) : result (list (option dict)) :=
  match records with
  | [] => Ok []
  | record :: rest =>
      v <- check_record record ;;
      l <- check_records rest ;;
      Ok (v :: l)
  end.

Definition is_some {A : Type} (o : option A) : bool :=
  match o with Some _ => true | None => false end.

Fixpoint somes {A : Type} (l : list (option A)) : list A :=
  match l with
  | [] => []
  | Some a :: l' => a :: somes l'
  | None :: l' => somes l'
  end.

(** ** Example inputs *)

Definition header : string :=
  "campaign_id,engagement_score,conversion_rate,predictive_roi,budget_usd,"
  ++ "total_campaign_spend,new_customers_acquired,customers_start,"
  ++ "customers_end,revenue_generated,advertising_spend".

(** A row as [csv.DictReader] yields it: every value is a string. *)
Definition csv_row (id e c roi b sp n s en rev adv : string) : pyval :=
  VDict [ ("campaign_id", VStr id); ("engagement_score", VStr e);
          ("conversion_rate", VStr c); ("predictive_roi", VStr roi);
          ("budget_usd", VStr b); ("total_campaign_spend", VStr sp);
          ("new_customers_acquired", VStr n); ("customers_start", VStr s);
          ("customers_end", VStr en); ("revenue_generated", VStr rev);
          ("advertising_spend", VStr adv) ].

Definition scenario_A_text : string :=
  header ++ nl ++ "CAMP601,80,0.25,7,1500,1400,30,300,330,2100,350".

Definition scenario_A_row : pyval :=
  csv_row "CAMP601" "80" "0.25" "7" "1500" "1400" "30" "300" "330" "2100" "350".

(** More customers acquired than present at the end. *)
Definition shrinking_row : pyval :=
  csv_row "CAMP777" "80" "0.25" "7" "1500" "1400" "2" "100000" "1" "2100" "350".

(** A record after coercion. *)
Definition typed_row (id : string) (e c roi b sp : float) (n s en : Z)
                     (rev adv : float) : dict :=
  [ ("campaign_id", VStr id); ("engagement_score", VFloat e);
    ("conversion_rate", VFloat c); ("predictive_roi", VFloat roi);
    ("budget_usd", VFloat b); ("total_campaign_spend", VFloat sp);
    ("new_customers_acquired", VInt n); ("customers_start", VInt s);
    ("customers_end", VInt en); ("revenue_generated", VFloat rev);
    ("advertising_spend", VFloat adv) ].

Definition scenario_A_converted : dict :=
  typed_row "CAMP601" 80 0.25 7 1500 1400 30 300 330 2100 350.

Definition shrinking_converted : dict :=
  typed_row "CAMP777" 80 0.25 7 1500 1400 2 100000 1 2100 350.

(** Scenario A followed by a row whose engagement score is out of range. *)
Definition mixed_text : string :=
  scenario_A_text ++ nl ++ "CAMP602,150,0.20,6,1400,1300,28,280,310,2000,340".

Definition out_of_range_row : pyval :=
  csv_row "CAMP602" "150" "0.20" "6" "1400" "1300" "28" "280" "310" "2000" "340".

(** [split(sep)] *)
Fixpoint split_on (sep : ascii) (s : string) : list string :=
  match s with
  | EmptyString => [""]
  | String c s' =>
      if Ascii.eqb c sep then "" :: split_on sep s'
      else match split_on sep s' with
           | w :: ws => String c w :: ws
           | [] => [String c ""]
           end
  end.

Fixpoint zip_row (fieldnames row : list string) (d : dict) : dict :=
  match fieldnames with
  | [] => d
  | k :: ks =>
      match row with
      | [] => zip_row ks [] (dict_set k VNone d)
      | v :: vs => zip_row ks vs (dict_set k (VStr v) d)
      end
  end.

(** [csv.DictReader] on text without quotes or carriage returns and no row
    longer than the header: the reader the examples run the pipeline with. *)
Definition plain_DictReader (text : string) : result (list pyval) :=
  match filter (fun l => negb (String.eqb l "")) (split_on "010" text) with
  | [] => Ok []
  | h :: rows =>
      Ok (map (fun l => VDict (zip_row (split_on "," h) (split_on "," l) []))
              rows)
  end.

(** A decoder that finds every text malformed; the CSV examples never
    reach it. *)
Definition no_json (text : string) : result pyval := Raise JSONDecodeError.

(** A count given as the text [inf]. *)
Definition inf_count_row : pyval :=
  csv_row "CAMP900" "80" "0.25" "7" "1500" "1400" "30" "inf" "330" "2100" "350".

(** Neither an infinity nor NaN. *)
Definition finite_float (f : float) : bool :=
  match Prim2SF f with
  | S754_zero _ | S754_finite _ _ _ => true
  | _ => false
  end.

(** Scenario A without the column [revenue_generated]. *)
Definition no_revenue_row : pyval :=
  VDict [ ("campaign_id", VStr "CAMP601"); ("engagement_score", VStr "80");
          ("conversion_rate", VStr "0.25"); ("predictive_roi", VStr "7");
          ("budget_usd", VStr "1500"); ("total_campaign_spend", VStr "1400");
          ("new_customers_acquired", VStr "30"); ("customers_start", VStr "300");
          ("customers_end", VStr "330"); ("advertising_spend", VStr "350") ].

(** The required fields a raw record does not have. *)
Definition absent_fields (items : dict) : list string :=
  filter (fun field => negb (dict_mem field items)) required_fields.

(** The double quote, and JSON payloads written with it. *)
Definition dq : string := String "034"%char "".

Definition quoted (s : string) : string := dq ++ s ++ dq.

(** [{"campaigns": [{"campaign_id": "CAMP601"}]}] *)
Definition json_batch_text : string :=
  "{" ++ quoted "campaigns" ++ ": [{" ++ quoted "campaign_id" ++ ": "
  ++ quoted "CAMP601" ++ "}]}".

(** [{"campaign_id": "CAMP601"}] *)
Definition json_single_text : string :=
  "{" ++ quoted "campaign_id" ++ ": " ++ quoted "CAMP601" ++ "}".

(** [{"campaigns": 5}] *)
Definition json_number_text : string := "{" ++ quoted "campaigns" ++ ": 5}".

(** [{"campaigns": [] with the braces left open. *)
Definition json_unbalanced_text : string := "{" ++ quoted "campaigns" ++ ": [".

(** [json.loads] at the payloads above; the examples decode no other
    text. *)
Definition example_json_loads (text : string) : result pyval :=
  if String.eqb text json_batch_text then
    Ok (VDict [("campaigns", VList [VDict [("campaign_id", VStr "CAMP601")]])])
  else if String.eqb text json_single_text then
    Ok (VDict [("campaign_id", VStr "CAMP601")])
  else if String.eqb text json_number_text then
    Ok (VDict [("campaigns", VInt 5)])
  else Raise JSONDecodeError.

(** A reader that fails; the JSON examples never reach it. *)
Definition no_csv (text : string) : result (list pyval) := Raise CsvError.

Definition format_error_text : string :=
  "ERROR: Invalid data format. Please provide data in CSV or JSON format.".

(** The table entry under [key] exists, compares with [f], and the
    comparison passes [test]. *)
Definition entry_meets (test : option comparison -> bool) (th : dict)
                       (key : string) (f : float) : Prop :=
  exists t c, dict_get key th = Some t /\ float_vs f t = Ok c /\ test c = true.

(** The coercer returns on the record. *)
Definition convertible (record : pyval) : Prop :=
  exists converted, _convert_field_types record = Ok converted.

Definition is_str (v : pyval) : Prop :=
  match v with VStr _ => True | _ => False end.

(** An object, as opposed to any other value a decoder can yield. *)
Definition is_dict (v : pyval) : Prop :=
  match v with VDict _ => True | _ => False end.

(** Scenario A followed by a row whose count [customers_start] is the text
    [inf]. *)
Definition inf_count_text : string :=
  scenario_A_text ++ nl ++ "CAMP900,80,0.25,7,1500,1400,30,inf,330,2100,350".

(** A brace followed by brackets nested deeper than the decoder recurses,
    and a decoder that gives up on it as [json.loads] does, with
    [RecursionError]. *)
Definition json_nested_text : string :=
  "{" ++ quoted "a" ++ ":" ++ repeat_string "[" 2000.

Definition deep_json_loads (text : string) : result pyval :=
  if String.eqb text json_nested_text then Raise RecursionError
  else Raise JSONDecodeError.


(** ** Notions used by the further properties *)

(** A text that is empty or starts with a character [strip] keeps. *)
Definition left_trimmed (s : string) : Prop :=
  match s with
  | EmptyString => True
  | String c _ => is_strip_space c = false
  end.

(** A text made of whitespace only. *)
Definition blank (w : string) : bool :=
  forallb is_strip_space (list_ascii_of_string w).

(** A CSV text with a header and no row. *)
Definition header_only_text : string := header ++ nl.

(** The predicate of a table entry does not return [True] on the value the
    record holds: it returns [False], or the comparison raises. *)
Definition rejects (converted : dict) (fv : string * (pyval -> result bool))
  : bool :=
  match dict_get (fst fv) converted with
  | Some v => match snd fv v with Ok true => false | _ => true end
  | None => true
  end.

(** The validated fields whose value is rejected, in the order of the
    table. *)
Definition failing_fields (converted : dict) : list string :=
  map fst (filter (rejects converted) field_validations).

(** What one record adds to [errors] when validated alone at [idx]. *)
Definition errors_of (idx : Z) (record : pyval) : list pyval :=
  match validate_record (mk_loop_state true [] []) idx record with
  | Ok st => st_errors st
  | Raise _ => []
  end.

Definition is_error_text (v : pyval) : Prop :=
  exists msg, v = VStr msg /\ startswith "ERROR: " msg = true.

Definition is_infinite (f : float) : bool :=
  match Prim2SF f with S754_infinity _ => true | _ => false end.

(** The key is one of the ten validated fields. *)
Definition validated_key (key : string) : bool :=
  mem_string key (map fst field_validations).

(** The conversion of the value under [key] leaves the [try] block of the
    coercer with [OverflowError]: [float(v)] overflows, or [v] is an
    infinity under a count key. *)
Definition overflows (key : string) (v : pyval) : Prop :=
  validated_key key = true
  /\ (py_float v = Raise OverflowError
      \/ (mem_string key count_fields = true
          /\ exists f, py_float v = Ok f /\ is_infinite f = true)).

(** NaN, or a binary64 with the sign bit clear. *)
Definition not_negative (x : spec_float) : Prop :=
  match x with
  | S754_nan => True
  | _ => sign_is false x
  end.

(** The example input of [main], after the first newline: the lines of the
    literal are indented. *)
Definition main_example_input : string :=
  nl ++ "    " ++ header ++ nl
  ++ "    CAMP601,80,0.25,7,1500,1400,30,300,330,2100,350" ++ nl
  ++ "    CAMP602,75,0.20,6,1400,1300,28,280,310,2000,340" ++ nl
  ++ "    CAMP603,85,0.27,8,1600,1500,32,320,350,2200,360" ++ nl
  ++ "    CAMP604,90,0.22,9,1700,1600,35,350,380,2300,370" ++ nl
  ++ "    CAMP605,70,0.15,5,1300,1200,25,250,270,1800,300" ++ nl
  ++ "    CAMP606,95,0.30,10,1800,1700,38,380,420,2500,400" ++ nl
  ++ "    CAMP607,65,0.18,6,1350,1250,27,270,300,1900,320" ++ nl
  ++ nl ++ "    ".

Definition success_text : string := "Data validation is successful!".

(** Scenario A with a column the schema does not know in front. *)
Definition annotated_row : pyval :=
  match scenario_A_row with
  | VDict items => VDict (("notes", VStr "spring sale") :: items)
  | v => v
  end.

(** The lines of the report under [## Required Fields Check:], and the
    lines under [## Data Type and Value Validation:]. *)
Definition present_block (valid : bool) : string :=
  String.concat ""
    (map (fun field =>
            " - " ++ field ++ ": "
            ++ (if valid then "present" else "missing") ++ nl)
         required_fields).

Definition checked_block (valid : bool) : string :=
  String.concat ""
    (map (fun fv : string * (pyval -> result bool) =>
            " - " ++ fst fv ++ " " ++ field_range (fst fv) ++ ": "
            ++ (if valid then "validated" else "not valid") ++ nl)
         field_validations).

(** * Proofs *)

(** ** Correct rounding: validity, range and sign *)

Module Binary64Facts.
Import Binary64.

Lemma pow2_pos e : 0 <= e -> 0 < 2 ^ e.
Proof. intros; apply Z.pow_pos_nonneg; lia. Qed.

Lemma pow2_split a b : 0 <= a -> 0 <= b -> 2 ^ (a + b) = 2 ^ a * 2 ^ b.
Proof. intros; apply Z.pow_add_r; lia. Qed.

Lemma scale_fst_pos n d e : 0 < n -> 0 < fst (scale n d e).
Proof.
  intros Hn. unfold scale. destruct (0 <=? e) eqn:He; cbn [fst snd]; [lia|].
  apply Z.leb_gt in He. pose proof (pow2_pos (- e)). nia.
Qed.

Lemma scale_snd_pos n d e : 0 < d -> 0 < snd (scale n d e).
Proof.
  intros Hd. unfold scale. destruct (0 <=? e) eqn:He; cbn [fst snd]; [|lia].
  apply Z.leb_le in He. pose proof (pow2_pos e). nia.
Qed.

(** Moving the binary point: [(n/d)/2^e2 = (n/d)/2^e1 * 2^(e1-e2)]. *)
Lemma scale_rel n d e1 e2 :
  e2 <= e1 ->
  fst (scale n d e2) * snd (scale n d e1)
  = fst (scale n d e1) * snd (scale n d e2) * 2 ^ (e1 - e2).
Proof.
  intros Hle. unfold scale.
  destruct (0 <=? e1) eqn:H1; destruct (0 <=? e2) eqn:H2; cbn [fst snd];
    try apply Z.leb_le in H1; try apply Z.leb_gt in H1;
    try apply Z.leb_le in H2; try apply Z.leb_gt in H2; try lia.
  - replace e1 with (e2 + (e1 - e2)) at 1 by lia.
    rewrite pow2_split by lia. ring.
  - replace (e1 - e2) with (e1 + - e2) by lia.
    rewrite pow2_split by lia. ring.
  - replace (- e2) with (- e1 + (e1 - e2)) at 1 by lia.
    rewrite pow2_split by lia. ring.
Qed.

Lemma log2_bounds n : 0 < n -> 2 ^ Z.log2 n <= n < 2 * 2 ^ Z.log2 n.
Proof.
  intros Hn. pose proof (Z.log2_spec n Hn) as H.
  rewrite Z.pow_succ_r in H by apply Z.log2_nonneg. lia.
Qed.

Lemma ratio_log2_spec n d :
  0 < n -> 0 < d ->
  snd (scale n d (ratio_log2 n d)) <= fst (scale n d (ratio_log2 n d))
  /\ fst (scale n d (ratio_log2 n d)) < 2 * snd (scale n d (ratio_log2 n d)).
Proof.
  intros Hn Hd.
  set (l := Z.log2 n - Z.log2 d).
  assert (Hl : snd (scale n d l) < 2 * fst (scale n d l)
               /\ fst (scale n d l) < 2 * snd (scale n d l)).
  { pose proof (log2_bounds n Hn) as Bn. pose proof (log2_bounds d Hd) as Bd.
    pose proof (Z.log2_nonneg n). pose proof (Z.log2_nonneg d).
    unfold scale. destruct (0 <=? l) eqn:Sg; cbn [fst snd].
    - apply Z.leb_le in Sg.
      assert (E : 2 ^ Z.log2 n = 2 ^ Z.log2 d * 2 ^ l).
      { rewrite <- pow2_split by lia. f_equal. unfold l. lia. }
      pose proof (pow2_pos l Sg) as Pl. rewrite E in Bn. clear E.
      generalize dependent (2 ^ l). generalize dependent (2 ^ Z.log2 d).
      intros a Ba b Bn Pb.
      assert (d * b < 2 * a * b) by nia. assert (a * b <= d * b) by nia. lia.
    - apply Z.leb_gt in Sg.
      assert (E : 2 ^ Z.log2 d = 2 ^ Z.log2 n * 2 ^ (- l)).
      { rewrite <- pow2_split by lia. f_equal. unfold l. lia. }
      assert (Pl : 0 < 2 ^ (- l)) by (apply pow2_pos; lia). rewrite E in Bd.
      clear E.
      generalize dependent (2 ^ (- l)). generalize dependent (2 ^ Z.log2 n).
      intros a Ba b Bd Pb.
      assert (n * b < 2 * a * b) by nia. assert (a * b <= n * b) by nia. lia. }
  unfold ratio_log2. fold l.
  destruct (scale n d l) as [nl dl] eqn:Sl. cbn [fst snd] in Hl.
  destruct (dl <=? nl) eqn:C.
  - apply Z.leb_le in C. rewrite Sl. cbn [fst snd]. lia.
  - apply Z.leb_gt in C.
    pose proof (scale_rel n d l (l - 1) ltac:(lia)) as R.
    rewrite Sl in R. cbn [fst snd] in R.
    replace (l - (l - 1)) with 1 in R by lia. change (2 ^ 1) with 2 in R.
    pose proof (scale_fst_pos n d (l - 1) Hn).
    pose proof (scale_snd_pos n d (l - 1) Hd).
    pose proof (scale_snd_pos n d l Hd) as Pd. rewrite Sl in Pd. cbn [fst snd] in Pd.
    split; nia.
Qed.

Lemma round_half_even_lower n d k :
  0 < d -> k * d <= n -> k <= round_half_even n d.
Proof.
  intros Hd H. unfold round_half_even.
  assert (k <= n / d) by (apply Z.div_le_lower_bound; lia).
  destruct (2 * (n mod d) ?= d); [destruct (Z.even (n / d))| |]; lia.
Qed.

Lemma round_half_even_upper n d k :
  0 < d -> n <= k * d -> round_half_even n d <= k.
Proof.
  intros Hd H. unfold round_half_even.
  destruct (Z.eq_dec n (k * d)) as [E|E].
  - subst n. rewrite Z.mod_mul, Z.div_mul by lia.
    replace (2 * 0) with 0 by lia.
    destruct (0 ?= d) eqn:C; try (apply Z.compare_eq in C); try lia.
    apply Z.compare_gt_iff in C. lia.
  - assert (n / d < k) by (apply Z.div_lt_upper_bound; lia).
    destruct (2 * (n mod d) ?= d); [destruct (Z.even (n / d))| |]; lia.
Qed.

Lemma normal_bounds n d :
  0 < n -> 0 < d ->
  let e := ratio_log2 n d - 52 in
  2 ^ 52 * snd (scale n d e) <= fst (scale n d e)
  /\ fst (scale n d e) < 2 ^ 53 * snd (scale n d e).
Proof.
  intros Hn Hd e.
  pose proof (ratio_log2_spec n d Hn Hd) as [L U].
  pose proof (scale_snd_pos n d (ratio_log2 n d) Hd) as PdE.
  pose proof (scale_snd_pos n d e Hd) as Pd.
  pose proof (scale_rel n d (ratio_log2 n d) e ltac:(unfold e; lia)) as R.
  replace (ratio_log2 n d - e) with 52 in R by (unfold e; lia).
  assert (K52 : 0 < 2 ^ 52) by reflexivity.
  change (2 ^ 53) with (2 * 2 ^ 52).
  revert L U PdE Pd R K52.
  generalize (2 ^ 52) (fst (scale n d (ratio_log2 n d)))
    (snd (scale n d (ratio_log2 n d))) (fst (scale n d e)) (snd (scale n d e)).
  intros K nE dE x y L U PdE Pd R K52. split.
  - apply Z.mul_le_mono_pos_r with dE; [lia|]. nia.
  - apply Z.mul_lt_mono_pos_r with dE; [lia|]. nia.
Qed.

Lemma scaled_bounds n d :
  0 < n -> 0 < d ->
  let e := exponent_of n d in
  fst (scale n d e) < 2 ^ 53 * snd (scale n d e)
  /\ (min_exp < e -> 2 ^ 52 * snd (scale n d e) <= fst (scale n d e)).
Proof.
  intros Hn Hd e.
  pose proof (normal_bounds n d Hn Hd) as [L U]. cbv zeta in L, U.
  split.
  - assert (He : ratio_log2 n d - 52 <= e) by (unfold e, exponent_of; lia).
    pose proof (scale_rel n d e _ He) as R.
    assert (P1 : 1 <= 2 ^ (e - (ratio_log2 n d - 52))).
    { pose proof (pow2_pos (e - (ratio_log2 n d - 52)) ltac:(lia)). lia. }
    pose proof (scale_fst_pos n d e Hn) as Pn.
    pose proof (scale_snd_pos n d e Hd) as Pd.
    pose proof (scale_snd_pos n d (ratio_log2 n d - 52) Hd) as Pd'.
    assert (K53 : 0 < 2 ^ 53) by reflexivity.
    revert U R P1 Pn Pd Pd' K53. clear L.
    generalize (2 ^ 53) (2 ^ (e - (ratio_log2 n d - 52)))
      (fst (scale n d (ratio_log2 n d - 52)))
      (snd (scale n d (ratio_log2 n d - 52)))
      (fst (scale n d e)) (snd (scale n d e)).
    intros K p n' d' x y U R P1 Pn Pd Pd' K53.
    apply Z.mul_lt_mono_pos_r with d'; [lia|].
    assert (x * d' <= x * d' * p) by nia. nia.
  - intros Hm.
    assert (E : e = ratio_log2 n d - 52) by (unfold e, exponent_of in *; lia).
    rewrite E. exact L.
Qed.

Lemma mantissa_bounds n d :
  0 < n -> 0 < d ->
  0 <= mantissa_of n d <= 2 ^ 53
  /\ (min_exp < exponent_of n d -> 2 ^ 52 <= mantissa_of n d).
Proof.
  intros Hn Hd. pose proof (scaled_bounds n d Hn Hd) as [U L].
  pose proof (scale_fst_pos n d (exponent_of n d) Hn) as Pn.
  pose proof (scale_snd_pos n d (exponent_of n d) Hd) as Pd.
  unfold mantissa_of. repeat split.
  - apply round_half_even_lower; lia.
  - apply round_half_even_upper; lia.
  - intros H. apply round_half_even_lower; auto. 
Qed.

Lemma SF_of_ratio_unfold s n d :
  SF_of_ratio s n d =
  if n =? 0 then S754_zero s else
  let e := exponent_of n d in
  let m := mantissa_of n d in
  if m =? 0 then S754_zero s
  else if m =? 2 ^ 53 then
    if e + 1 <=? max_exp then S754_finite s (Z.to_pos (2 ^ 52)) (e + 1)
    else S754_infinity s
  else if e <=? max_exp then S754_finite s (Z.to_pos m) e
  else S754_infinity s.
Proof.
  unfold SF_of_ratio, mantissa_of, exponent_of.
  destruct (n =? 0); [reflexivity|].
  destruct (scale n d (Z.max (ratio_log2 n d - 52) min_exp)); reflexivity.
Qed.


Lemma digits2_pos_spec m :
  2 ^ (Zpos (digits2_pos m) - 1) <= Zpos m < 2 ^ Zpos (digits2_pos m).
Proof.
  induction m as [m IH | m IH |]; cbn [digits2_pos].
  - rewrite Pos2Z.inj_succ. replace (Z.succ (Zpos (digits2_pos m)) - 1)
      with (Z.succ (Zpos (digits2_pos m) - 1)) by lia.
    rewrite !Z.pow_succ_r by lia. lia.
  - rewrite Pos2Z.inj_succ. replace (Z.succ (Zpos (digits2_pos m)) - 1)
      with (Z.succ (Zpos (digits2_pos m) - 1)) by lia.
    rewrite !Z.pow_succ_r by lia. lia.
  - cbn. lia.
Qed.

Lemma pow2_lt_inv a b : 0 <= b -> 2 ^ a < 2 ^ b -> a < b.
Proof. intros Hb H. apply (Z.pow_lt_mono_r_iff 2); lia. Qed.

Lemma digits2_pos_le m k : 0 <= k -> Zpos m < 2 ^ k -> Zpos (digits2_pos m) <= k.
Proof.
  intros Hk H. pose proof (digits2_pos_spec m) as [L _].
  assert (2 ^ (Zpos (digits2_pos m) - 1) < 2 ^ k) by lia.
  apply pow2_lt_inv in H0; lia.
Qed.

Lemma digits2_pos_ge m k : 2 ^ k <= Zpos m -> k < Zpos (digits2_pos m).
Proof.
  intros H. pose proof (digits2_pos_spec m) as [_ U].
  apply pow2_lt_inv; lia.
Qed.

Lemma bounded_intro m e :
  min_exp <= e <= max_exp -> 0 < m < 2 ^ 53 -> (min_exp < e -> 2 ^ 52 <= m) ->
  bounded prec emax (Z.to_pos m) e = true.
Proof.
  intros He Hm Hn. destruct m as [|p|p]; try lia. cbn [Z.to_pos].
  unfold bounded, canonical_mantissa, fexp, SpecFloat.emin, prec, emax,
    min_exp, max_exp in *.
  pose proof (digits2_pos_le p 53 ltac:(lia) ltac:(lia)).
  apply andb_true_intro; split; [apply Z.eqb_eq | apply Z.leb_le; lia].
  destruct (Z.eq_dec e (-1074)) as [->|Hne]; [lia|].
  pose proof (digits2_pos_ge p 52 ltac:(lia)). lia.
Qed.

Lemma bounded_elim m e :
  bounded prec emax m e = true -> Zpos m < 2 ^ 53 /\ e <= max_exp.
Proof.
  unfold bounded, canonical_mantissa, fexp, SpecFloat.emin, prec, emax, max_exp.
  intros H. apply andb_prop in H as [C B].
  apply Z.eqb_eq in C. apply Z.leb_le in B. split; [|lia].
  pose proof (digits2_pos_spec m) as [_ U].
  eapply Z.lt_le_trans; [exact U|]. apply Z.pow_le_mono_r; lia.
Qed.

Lemma SF_of_ratio_rounded s n d :
  0 <= n -> 0 < d -> rounded s (SF_of_ratio s n d).
Proof.
  intros Hn Hd. rewrite SF_of_ratio_unfold.
  destruct (n =? 0) eqn:N0; [constructor|]. apply Z.eqb_neq in N0.
  pose proof (mantissa_bounds n d ltac:(lia) Hd) as [[L U] Nm].
  cbv zeta.
  assert (Hmin : min_exp <= exponent_of n d) by (unfold exponent_of; lia).
  destruct (mantissa_of n d =? 0) eqn:M0; [constructor|]. apply Z.eqb_neq in M0.
  destruct (mantissa_of n d =? 2 ^ 53) eqn:M53.
  - destruct (exponent_of n d + 1 <=? max_exp) eqn:Ex; [|constructor].
    apply Z.leb_le in Ex. constructor.
    apply bounded_intro; [lia | split; reflexivity | intros; discriminate].
  - apply Z.eqb_neq in M53.
    destruct (exponent_of n d <=? max_exp) eqn:Ex; [|constructor].
    apply Z.leb_le in Ex. constructor. apply bounded_intro; [lia|lia|exact Nm].
Qed.

Lemma rounded_valid s x : rounded s x -> valid_binary x = true.
Proof. intros []; auto. Qed.

(** No overflow up to the largest binary64. *)
Lemma SF_of_ratio_finite s n d s' :
  0 <= n -> 0 < d -> n <= largest_int * d ->
  SF_of_ratio s n d <> S754_infinity s'.
Proof.
  intros Hn Hd Hb. rewrite SF_of_ratio_unfold.
  destruct (n =? 0) eqn:N0; [discriminate|]. apply Z.eqb_neq in N0.
  assert (Pn : 0 < n) by lia. cbv zeta.
  (* the exponent stays in range *)
  assert (He : exponent_of n d <= max_exp).
  { destruct (Z.le_gt_cases (exponent_of n d) max_exp) as [|G]; [assumption|].
    exfalso.
    pose proof (scaled_bounds n d Pn Hd) as [_ L]. cbv zeta in L.
    specialize (L ltac:(unfold min_exp, max_exp in *; lia)).
    pose proof (scale_rel n d (exponent_of n d) max_exp ltac:(lia)) as R.
    pose proof (scale_snd_pos n d (exponent_of n d) Hd) as Pd.
    assert (P1 : 2 <= 2 ^ (exponent_of n d - max_exp)).
    { change 2 with (2 ^ 1) at 1. apply Z.pow_le_mono_r; lia. }
    change (fst (scale n d max_exp)) with n in R.
    change (snd (scale n d max_exp)) with (d * 2 ^ 971) in R.
    unfold largest_int in Hb.
    assert (K971 : 0 < 2 ^ 971) by (apply pow2_pos; lia).
    assert (K52 : 2 * 2 ^ 52 = 2 ^ 53) by reflexivity.
    revert L R Pd P1 Hb K971 K52.
    generalize (2 ^ 971) (2 ^ 52) (2 ^ 53) (2 ^ (exponent_of n d - max_exp))
      (fst (scale n d (exponent_of n d))) (snd (scale n d (exponent_of n d))).
    intros K a b p x y L R Pd P1 Hb K971 K52.
    assert (A0 : 0 < d * K) by (apply Z.mul_pos_pos; lia).
    assert (A1 : 0 < d * K * y) by (apply Z.mul_pos_pos; lia).
    assert (A2 : n * y <= (b - 1) * K * d * y)
      by (apply Z.mul_le_mono_nonneg_r; lia).
    assert (A3 : a * y * (d * K) <= x * (d * K))
      by (apply Z.mul_le_mono_nonneg_r; lia).
    assert (A4 : x * (d * K) * 2 <= x * (d * K) * p).
    { apply Z.mul_le_mono_nonneg_l; [|lia]. apply Z.mul_nonneg_nonneg; lia. }
    lia. }
  destruct (mantissa_of n d =? 0); [discriminate|].
  destruct (mantissa_of n d =? 2 ^ 53) eqn:M53.
  - apply Z.eqb_eq in M53.
    destruct (exponent_of n d + 1 <=? max_exp) eqn:Ex; [discriminate|].
    apply Z.leb_gt in Ex. exfalso.
    assert (E : exponent_of n d = max_exp) by lia.
    unfold mantissa_of in M53. rewrite E in M53.
    change (fst (scale n d max_exp)) with n in M53.
    change (snd (scale n d max_exp)) with (d * 2 ^ 971) in M53.
    assert (K971 : 0 < 2 ^ 971) by (apply pow2_pos; lia).
    pose proof (round_half_even_upper n (d * 2 ^ 971) (2 ^ 53 - 1)
                  ltac:(nia) ltac:(unfold largest_int in Hb; nia)).
    lia.
  - apply Z.leb_le in He. rewrite He. discriminate.
Qed.

(** A quotient of at least one does not round to zero. *)
Lemma SF_of_ratio_nonzero s n d s' :
  0 < d -> d <= n -> SF_of_ratio s n d <> S754_zero s'.
Proof.
  intros Hd Hn. rewrite SF_of_ratio_unfold.
  assert (N0 : (n =? 0) = false) by (apply Z.eqb_neq; lia). rewrite N0.
  cbv zeta.
  assert (E0 : 0 <= ratio_log2 n d).
  { destruct (Z.le_gt_cases 0 (ratio_log2 n d)) as [|G]; [assumption|].
    exfalso. pose proof (ratio_log2_spec n d ltac:(lia) Hd) as [L U].
    unfold scale in L, U. 
    assert (S : (0 <=? ratio_log2 n d) = false) by (apply Z.leb_gt; lia).
    rewrite S in L, U. cbn [fst snd] in L, U.
    assert (2 <= 2 ^ (- ratio_log2 n d)).
    { change 2 with (2 ^ 1) at 1. apply Z.pow_le_mono_r; lia. }
    nia. }
  pose proof (mantissa_bounds n d ltac:(lia) Hd) as [_ Nm].
  assert (Hm : 2 ^ 52 <= mantissa_of n d).
  { apply Nm. unfold exponent_of, min_exp. lia. }
  assert (M0 : (mantissa_of n d =? 0) = false).
  { apply Z.eqb_neq. assert (0 < 2 ^ 52) by reflexivity. lia. }
  rewrite M0.
  destruct (mantissa_of n d =? 2 ^ 53);
    [destruct (exponent_of n d + 1 <=? max_exp)
    | destruct (exponent_of n d <=? max_exp)]; discriminate.
Qed.

Lemma trunc_finite_bound s m e :
  bounded prec emax m e = true -> Z.abs (trunc_finite s m e) <= largest_int.
Proof.
  intros B. apply bounded_elim in B as [Hm He]. unfold max_exp in He.
  unfold trunc_finite, largest_int.
  assert (V : 0 <= (if 0 <=? e then Zpos m * 2 ^ e else Zpos m / 2 ^ (- e))
              <= (2 ^ 53 - 1) * 2 ^ 971).
  { destruct (0 <=? e) eqn:S.
    - apply Z.leb_le in S.
      assert (2 ^ e <= 2 ^ 971) by (apply Z.pow_le_mono_r; lia).
      pose proof (pow2_pos e S). 
      assert (0 < 2 ^ 53 - 1) by reflexivity. nia.
    - apply Z.leb_gt in S.
      assert (P : 0 < 2 ^ (- e)) by (apply pow2_pos; lia).
      assert (0 <= Zpos m / 2 ^ (- e)) by (apply Z.div_pos; lia).
      pose proof (Pos2Z.is_pos m) as Pm.
      assert (Zpos m / 2 ^ (- e) <= Zpos m).
      { apply Z.div_le_upper_bound; [lia|].
        generalize dependent (2 ^ (- e)). generalize dependent (Zpos m).
        intros. nia. }
      assert (1 <= 2 ^ 971) by (pose proof (pow2_pos 971); lia).
      assert (0 < 2 ^ 53 - 1) by reflexivity. nia. }
  destruct s; lia.
Qed.

End Binary64Facts.

Import Binary64Facts.

(** ** Python numbers *)

Lemma Prim2SF_zero : Prim2SF 0%float = S754_zero false.
Proof. reflexivity. Qed.

Lemma Prim2SF_of_rounded s x : rounded s x -> Prim2SF (SF2Prim x) = x.
Proof. intros H. apply Prim2SF_SF2Prim. eapply rounded_valid; eauto. Qed.

Lemma eqb_zero_false x :
  match Prim2SF x with
  | S754_finite _ _ _ | S754_infinity _ => True
  | _ => False
  end -> (x =? 0)%float = false.
Proof.
  rewrite eqb_spec, Prim2SF_zero. destruct (Prim2SF x) as [s|s| |s m e]; try tauto;
    intros _; destruct s; reflexivity.
Qed.

Lemma float_of_int_finite z :
  Z.abs z <= largest_int ->
  float_of_int z = Ok (SF2Prim (SF_of_ratio (z <? 0) (Z.abs z) 1)).
Proof.
  intros H. unfold float_of_int.
  pose proof (SF_of_ratio_finite (z <? 0) (Z.abs z) 1) as F.
  destruct (SF_of_ratio (z <? 0) (Z.abs z) 1) eqn:E; try reflexivity.
  exfalso. eapply F; [lia | lia | lia | reflexivity].
Qed.

Lemma float_of_int_pos z :
  0 < z <= largest_int ->
  exists y, float_of_int z = Ok y /\ (y =? 0)%float = false.
Proof.
  intros H. rewrite float_of_int_finite by lia. eexists; split; [reflexivity|].
  apply eqb_zero_false.
  pose proof (SF_of_ratio_rounded (z <? 0) (Z.abs z) 1 ltac:(lia) ltac:(lia)) as R.
  rewrite (Prim2SF_of_rounded _ _ R).
  pose proof (SF_of_ratio_nonzero (z <? 0) (Z.abs z) 1) as NZ.
  destruct R; auto. eapply NZ; [lia | lia | reflexivity].
Qed.

Lemma float_of_int_not_nan z f :
  float_of_int z = Ok f -> Prim2SF f <> S754_nan.
Proof.
  unfold float_of_int.
  pose proof (SF_of_ratio_rounded (z <? 0) (Z.abs z) 1 ltac:(lia) ltac:(lia)) as R.
  intros H E.
  destruct R; try discriminate; injection H as <-.
  - destruct (z <? 0); vm_compute in E; discriminate.
  - change (Prim2SF (SF2Prim (S754_finite (z <? 0) m e)) = S754_nan) in E.
    rewrite (Prim2SF_of_rounded (z <? 0)) in E by (constructor; assumption).
    discriminate.
Qed.

Lemma float_of_int_100 : float_of_int 100 = Ok 100%float.
Proof. reflexivity. Qed.

Lemma float_of_int_10 : float_of_int 10 = Ok 10%float.
Proof. reflexivity. Qed.

Lemma dict_get_set k k' v d :
  dict_get k (dict_set k' v d)
  = if String.eqb k k' then Some v else dict_get k d.
Proof.
  induction d as [|[k0 v0] d IH]; cbn [dict_set dict_get].
  - reflexivity.
  - destruct (String.eqb_spec k' k0) as [->|N]; cbn [dict_get].
    + destruct (String.eqb k k0); reflexivity.
    + rewrite IH. destruct (String.eqb_spec k k0) as [->|N'].
      * destruct (String.eqb_spec k0 k'); [congruence | reflexivity].
      * reflexivity.
Qed.

Lemma convert_items_get items : forall acc conv k x,
  convert_items items acc = Ok conv -> dict_get k conv = Some x ->
  (exists v, In (k, v) items /\ convert_value k v = Ok x)
  \/ dict_get k acc = Some x.
Proof.
  induction items as [|[key value] rest IH]; intros acc conv k x H G;
    cbn [convert_items] in H.
  - injection H as <-. right. exact G.
  - destruct (convert_value key value) as [v'|] eqn:C; cbn [bind] in H;
      [|discriminate].
    destruct (IH _ _ _ _ H G) as [(v & I & Cv)|D].
    + left. exists v. split; [right; exact I | exact Cv].
    + rewrite dict_get_set in D. destruct (String.eqb_spec k key) as [->|N].
      * injection D as <-. left. exists value. split; [left; reflexivity | exact C].
      * right. exact D.
Qed.

Lemma positive_float_nonzero f :
  positive (VFloat f) = Ok true -> (f =? 0)%float = false.
Proof.
  unfold positive, compare_with. cbn [as_num bind num_compare].
  intros H. apply eqb_zero_false.
  destruct (Prim2SF f) as [s|s| |s m e]; cbn in H; try exact I; discriminate.
Qed.

Lemma float_of_int_raises z e : float_of_int z = Raise e -> e = OverflowError.
Proof.
  unfold float_of_int. destruct (SF_of_ratio _ _ _); intros H; try discriminate.
  injection H as <-. reflexivity.
Qed.

(** A schema float field that a predicate accepts was converted. *)
Lemma float_value_typed key v x :
  mem_string key count_fields = false ->
  mem_string key (map fst field_validations)
  && negb (String.eqb key "campaign_id") = true ->
  convert_value key v = Ok x -> as_num x <> None ->
  exists f, x = VFloat f.
Proof.
  intros K1 K2 C N. unfold convert_value in C. rewrite K1, K2 in C.
  destruct v as [|b|z|f|s|l|d]; cbn in C;
    try (injection C as <-; cbn in N; congruence);
    try (injection C as <-; eauto).
  - destruct (float_of_int z) as [f|e] eqn:F; cbn in C.
    + injection C as <-; eauto.
    + apply float_of_int_raises in F. subst e. discriminate.
  - destruct (FloatParse.float_of_string s); cbn in C; injection C as <-;
      [eauto | cbn in N; congruence].
Qed.

Lemma int_of_float_bound f z :
  int_of_float f = Ok z -> Z.abs z <= largest_int.
Proof.
  unfold int_of_float. pose proof (Prim2SF_valid f) as V.
  destruct (Prim2SF f) as [s|s| |s m e]; intros H; try discriminate;
    injection H as <-.
  - unfold largest_int. cbn. lia.
  - apply trunc_finite_bound. exact V.
Qed.

Lemma int_of_float_raises_value f :
  int_of_float f = Raise ValueError -> Prim2SF f = S754_nan.
Proof.
  unfold int_of_float. destruct (Prim2SF f); intros H; try discriminate; reflexivity.
Qed.

Lemma int_of_float_raises f e :
  int_of_float f = Raise e -> e = ValueError \/ e = OverflowError.
Proof.
  unfold int_of_float. destruct (Prim2SF f); intros H; try discriminate;
    injection H as <-; auto.
Qed.

(** A count field that its predicate accepts is a positive int in the range
    of binary64. *)
Lemma count_value_typed key v x :
  mem_string key count_fields = true ->
  convert_value key v = Ok x -> positive_int x = Ok true ->
  exists z, x = VInt z /\ 0 < z <= largest_int.
Proof.
  intros K C P. unfold convert_value in C. rewrite K in C.
  assert (Pz : forall z, positive_int (VInt z) = Ok true -> 0 < z).
  { intros z. unfold positive_int, compare_with. cbn.
    destruct (z ?= 0) eqn:Cz; cbn; try discriminate.
    intros _. apply Z.compare_gt_iff in Cz. lia. }
  destruct (py_float v) as [f|e] eqn:F; cbn [bind] in C.
  - destruct (int_of_float f) as [z|e] eqn:I; cbn [bind except_value_type] in C.
    + injection C as <-. exists z. split; [reflexivity|].
      apply int_of_float_bound in I. specialize (Pz z P). lia.
    + destruct (int_of_float_raises _ _ I) as [-> | ->]; [|discriminate].
      apply int_of_float_raises_value in I. cbn in C. injection C as <-.
      exfalso. destruct v as [|b|z|f'|s|l|d]; cbn in F; try discriminate.
      * injection F as <-. destruct b; vm_compute in I; discriminate.
      * eapply float_of_int_not_nan; eauto.
      * injection F as <-. unfold positive_int, compare_with in P.
        cbn in P. rewrite I in P. cbn in P. discriminate.
  - destruct v as [|b|z|f'|s|l|d]; cbn in F; try discriminate;
      try (injection F as <-; cbn in C; injection C as <-; cbn in P; discriminate).
    + apply float_of_int_raises in F. subst e. discriminate.
    + destruct (FloatParse.float_of_string s); [discriminate|].
      injection F as <-. cbn in C. injection C as <-. cbn in P. discriminate.
Qed.

Lemma filter_nil {A} (p : A -> bool) l :
  filter p l = [] -> Forall (fun x => p x = false) l.
Proof.
  induction l as [|a l IH]; cbn [filter]; intros H; [constructor|].
  destruct (p a) eqn:E; [discriminate|]. constructor; auto.
Qed.

Lemma field_invalid_false converted fv :
  field_invalid converted fv = Ok false ->
  exists v, dict_get (fst fv) converted = Some v /\ snd fv v = Ok true.
Proof.
  unfold field_invalid, dict_item.
  destruct (dict_get (fst fv) converted) as [v|]; cbn [bind]; [|discriminate].
  intros H. exists v. split; [reflexivity|].
  destruct (snd fv v) as [[|]|[]]; cbn in H; try discriminate; reflexivity.
Qed.

Lemma invalid_fields_nil converted fvs :
  invalid_fields converted fvs = Ok [] ->
  Forall (fun fv => exists v, dict_get (fst fv) converted = Some v
                              /\ snd fv v = Ok true) fvs.
Proof.
  induction fvs as [|fv rest IH]; cbn [invalid_fields]; intros H; [constructor|].
  destruct (field_invalid converted fv) as [b|] eqn:F; cbn [bind] in H;
    [|discriminate].
  destruct (invalid_fields converted rest) as [l|] eqn:R; cbn [bind] in H;
    [|discriminate].
  destruct b; [discriminate|]. injection H as ->.
  constructor; [apply field_invalid_false; exact F | apply IH; reflexivity].
Qed.

Lemma between_numeric lo hi x b : between lo hi x = Ok b -> as_num x <> None.
Proof.
  unfold between, compare_with. destruct (as_num x); [discriminate | cbn; discriminate].
Qed.

Lemma positive_numeric x b : positive x = Ok b -> as_num x <> None.
Proof.
  unfold positive, compare_with. destruct (as_num x); [discriminate | cbn; discriminate].
Qed.

Lemma typed_float items converted k v :
  convert_items items [] = Ok converted ->
  mem_string k count_fields = false ->
  mem_string k (map fst field_validations)
  && negb (String.eqb k "campaign_id") = true ->
  dict_get k converted = Some v -> as_num v <> None ->
  exists f, v = VFloat f.
Proof.
  intros C K1 K2 G N.
  destruct (convert_items_get _ _ _ _ _ C G) as [(w & _ & H)|H];
    [|discriminate H].
  eapply float_value_typed; eauto.
Qed.

Lemma typed_count items converted k v :
  convert_items items [] = Ok converted ->
  mem_string k count_fields = true ->
  dict_get k converted = Some v -> positive_int v = Ok true ->
  exists z, v = VInt z /\ 0 < z <= largest_int.
Proof.
  intros C K G P.
  destruct (convert_items_get _ _ _ _ _ C G) as [(w & _ & H)|H];
    [|discriminate H].
  eapply count_value_typed; eauto.
Qed.

Lemma passes_typed record converted :
  passes record converted ->
  exists r, holds converted r /\ in_domain r.
Proof.
  intros (C & M & V).
  destruct record as [| | | | | |items]; try discriminate C.
  cbn [_convert_field_types] in C.
  apply invalid_fields_nil in V. unfold field_validations in V.
  apply filter_nil in M. unfold required_fields in M.
  apply Forall_cons_iff in M as [Mid _].
  unfold dict_mem in Mid.
  destruct (dict_get "campaign_id" converted) as [cid|] eqn:Gid; [|discriminate].
  apply Forall_cons_iff in V as [(v1 & G1 & P1) V].
  apply Forall_cons_iff in V as [(v2 & G2 & P2) V].
  apply Forall_cons_iff in V as [(v3 & G3 & P3) V].
  apply Forall_cons_iff in V as [(v4 & G4 & P4) V].
  apply Forall_cons_iff in V as [(v5 & G5 & P5) V].
  apply Forall_cons_iff in V as [(v6 & G6 & P6) V].
  apply Forall_cons_iff in V as [(v7 & G7 & P7) V].
  apply Forall_cons_iff in V as [(v8 & G8 & P8) V].
  apply Forall_cons_iff in V as [(v9 & G9 & P9) V].
  apply Forall_cons_iff in V as [(v10 & G10 & P10) _].
  cbn [fst snd] in *.
  destruct (typed_float _ _ "engagement_score" _ C eq_refl eq_refl G1 (between_numeric _ _ _ _ P1))
    as [f1 ->].
  destruct (typed_float _ _ "conversion_rate" _ C eq_refl eq_refl G2 (between_numeric _ _ _ _ P2))
    as [f2 ->].
  destruct (typed_float _ _ "predictive_roi" _ C eq_refl eq_refl G3 (positive_numeric _ _ P3))
    as [f3 ->].
  destruct (typed_float _ _ "budget_usd" _ C eq_refl eq_refl G4 (positive_numeric _ _ P4))
    as [f4 ->].
  destruct (typed_float _ _ "total_campaign_spend" _ C eq_refl eq_refl G5 (positive_numeric _ _ P5))
    as [f5 ->].
  destruct (typed_count _ _ "new_customers_acquired" _ C eq_refl G6 P6) as (z6 & -> & B6).
  destruct (typed_count _ _ "customers_start" _ C eq_refl G7 P7) as (z7 & -> & B7).
  destruct (typed_count _ _ "customers_end" _ C eq_refl G8 P8) as (z8 & -> & B8).
  destruct (typed_float _ _ "revenue_generated" _ C eq_refl eq_refl G9 (positive_numeric _ _ P9))
    as [f9 ->].
  destruct (typed_float _ _ "advertising_spend" _ C eq_refl eq_refl G10 (positive_numeric _ _ P10))
    as [f10 ->].
  exists (mk_CampaignRecord cid f1 f2 f3 f4 f5 z6 z7 z8 f9 f10).
  unfold holds, in_domain; cbn [r_campaign_id r_engagement_score
    r_conversion_rate r_predictive_roi r_budget_usd r_total_campaign_spend
    r_new_customers_acquired r_customers_start r_customers_end
    r_revenue_generated r_advertising_spend].
  repeat split; assumption || lia.
Qed.

Lemma float_of_int_count z :
  0 < z <= largest_int ->
  float_of_int z = Ok (Z2float z) /\ (Z2float z =? 0)%float = false.
Proof.
  intros H. destruct (float_of_int_pos z H) as (y & F & N).
  rewrite float_of_int_finite in F by lia. injection F as <-.
  split; [apply float_of_int_finite; lia | exact N].
Qed.

Lemma py_truediv_float_int f z :
  0 < z <= largest_int ->
  py_truediv (VFloat f) (VInt z) = Ok (f / Z2float z)%float.
Proof.
  intros H. destruct (float_of_int_count z H) as [F N].
  unfold py_truediv, num_truediv, to_double. cbn [as_num bind].
  rewrite F. cbn [bind]. rewrite N. reflexivity.
Qed.

Lemma py_truediv_float_float f g :
  (g =? 0)%float = false -> py_truediv (VFloat f) (VFloat g) = Ok (f / g)%float.
Proof.
  intros N. unfold py_truediv, num_truediv, to_double. cbn [as_num bind].
  rewrite N. reflexivity.
Qed.

Lemma int_truediv_ok a b :
  b <> 0 -> Z.abs a <= largest_int * Z.abs b ->
  int_truediv a b = Ok (Zdiv2float a b).
Proof.
  intros Hb H. unfold int_truediv, Zdiv2float, of_ratio.
  destruct (Z.eqb_spec b 0) as [|_]; [contradiction|].
  pose proof (SF_of_ratio_finite (xorb (a <? 0) (b <? 0)) (Z.abs a) (Z.abs b)) as F.
  destruct (SF_of_ratio _ (Z.abs a) (Z.abs b)) eqn:E; try reflexivity.
  exfalso. eapply F; [lia | lia | exact H | reflexivity].
Qed.

Lemma eval_meets_default c k r o :
  eval_meets_thresholds thresholds c k r o
  = Ok (ge_int c 50 && le_int k 50 && ge_int r 90 && ge_int o 3).
Proof.
  unfold eval_meets_thresholds, ge_int, le_int.
  cbn [thresholds dict_item dict_get String.eqb Ascii.eqb Bool.eqb bind
       float_vs as_num].
  destruct (is_ge (num_compare (NFloat c) (NInt 50))); [|reflexivity].
  destruct (is_le (num_compare (NFloat k) (NInt 50))); [|reflexivity].
  destruct (is_ge (num_compare (NFloat r) (NInt 90))); reflexivity.
Qed.

Lemma analyze_metrics converted r :
  holds converted r -> in_domain r ->
  analyze_campaign thresholds converted = Ok (metrics r).
Proof.
  intros (G0 & G1 & G2 & G3 & G4 & G5 & G6 & G7 & G8 & G9 & G10)
         (D1 & D2 & D3 & D4 & D5 & D6 & D7 & D8 & D9 & D10).
  unfold analyze_campaign, dict_item.
  rewrite G0, G1, G2, G3, G4, G5, G6, G7, G8, G9, G10. cbn [bind].
  rewrite py_truediv_float_int by exact D6. cbn [bind].
  unfold py_sub. cbn [as_num num_sub bind].
  unfold num_truediv at 1. rewrite int_truediv_ok by nia. cbn [bind].
  unfold float_mul_int. rewrite float_of_int_100. cbn [bind].
  rewrite py_truediv_float_float by (apply positive_float_nonzero; exact D10).
  cbn [bind]. unfold mul_int, mul_float. cbn [as_num to_double bind].
  rewrite float_of_int_100, float_of_int_10. cbn [bind as_num to_double].
  change (dict_get "composite_score" thresholds) with (Some (VInt 50)).
  cbn [bind].
  rewrite py_truediv_float_float by (apply positive_float_nonzero; exact D4).
  cbn [bind]. rewrite eval_meets_default. cbn [bind].
  reflexivity.
Qed.

Lemma rounded_sign s x : rounded s x -> sign_is s x.
Proof. intros []; reflexivity. Qed.

Lemma shr_1_nonneg mrs : 0 <= shr_m mrs -> 0 <= shr_m (shr_1 mrs).
Proof.
  destruct mrs as [m r s]. cbn [shr_m].
  destruct m as [|[p|p|]|p]; cbn; lia.
Qed.

Lemma iter_pos_invariant {A} (P : A -> Prop) (f : A -> A) :
  (forall x, P x -> P (f x)) -> forall p x, P x -> P (iter_pos f p x).
Proof.
  intros Hf. induction p as [p IH|p IH|]; intros x Hx; cbn [iter_pos]; auto.
Qed.

Lemma shr_fexp_nonneg m e l :
  0 <= m -> 0 <= shr_m (fst (shr_fexp prec emax m e l)).
Proof.
  intros Hm. unfold shr_fexp, shr.
  assert (B : 0 <= shr_m (shr_record_of_loc m l)).
  { destruct l as [|[]]; cbn; exact Hm. }
  destruct (fexp prec emax (Zdigits2 m + e) - e) as [|p|p]; cbn [fst]; auto.
  apply (iter_pos_invariant (fun mrs => 0 <= shr_m mrs)); auto.
  apply shr_1_nonneg.
Qed.

Lemma round_nearest_even_nonneg m l : 0 <= m -> 0 <= round_nearest_even m l.
Proof.
  intros Hm. unfold round_nearest_even.
  destruct l as [|[]]; try destruct (Z.even m); lia.
Qed.

Lemma binary_round_aux_sign sx mx ex lx :
  0 <= mx -> sign_is sx (binary_round_aux prec emax sx mx ex lx).
Proof.
  intros Hm. unfold binary_round_aux.
  pose proof (shr_fexp_nonneg mx ex lx Hm) as H1.
  destruct (shr_fexp prec emax mx ex lx) as [mrs' e']. cbn [fst] in H1.
  pose proof (shr_fexp_nonneg _ e' loc_Exact
                (round_nearest_even_nonneg _ (loc_of_shr_record mrs') H1)) as H2.
  destruct (shr_fexp prec emax _ e' loc_Exact) as [mrs'' e'']. cbn [fst] in H2.
  destruct (shr_m mrs'') as [|p|p]; [reflexivity | | lia].
  destruct (e'' <=? emax - prec); reflexivity.
Qed.

Lemma SFmul_sign s x m e :
  sign_is s x -> sign_is s (SFmul prec emax x (S754_finite false m e)).
Proof.
  destruct x as [s'|s'| |s' m' e']; cbn [sign_is]; intros H; try contradiction;
    subst s'; cbn [SFmul]; rewrite ?xorb_false_r; try reflexivity.
  apply binary_round_aux_sign. lia.
Qed.

Lemma Prim2SF_of_ratio s n d :
  0 <= n -> 0 < d -> Prim2SF (of_ratio s n d) = SF_of_ratio s n d.
Proof.
  intros Hn Hd. apply (Prim2SF_of_rounded s). apply SF_of_ratio_rounded; assumption.
Qed.

Lemma round2_sign s f : sign_is s (Prim2SF f) -> sign_is s (Prim2SF (round2 f)).
Proof.
  unfold round2. destruct (Prim2SF f) as [s'|s'| |s' m e] eqn:E; intros H;
    rewrite ?E; try exact H.
  cbn [sign_is] in H. subst s'.
  destruct (scale (Zpos m * 100) 1 (- e)) as [n d] eqn:S.
  assert (Pn : 0 < n).
  { pose proof (scale_fst_pos (Zpos m * 100) 1 (- e) ltac:(lia)) as P.
    rewrite S in P. exact P. }
  assert (Pd : 0 < d).
  { pose proof (scale_snd_pos (Zpos m * 100) 1 (- e) ltac:(lia)) as P.
    rewrite S in P. exact P. }
  rewrite Prim2SF_of_ratio.
  - apply rounded_sign. apply SF_of_ratio_rounded; [|lia].
    apply round_half_even_lower with (k := 0); lia.
  - apply round_half_even_lower with (k := 0); lia.
  - lia.
Qed.

Lemma leb_zero_of_negative f :
  sign_is true (Prim2SF f) -> (f <=? 0)%float = true.
Proof.
  rewrite leb_spec, Prim2SF_zero.
  destruct (Prim2SF f) as [s|s| |s m e]; cbn [sign_is]; intros H;
    try contradiction; subst s; reflexivity.
Qed.


(** ** The record loop of [validate_data] *)

Lemma check_record_passes record converted :
  check_record record = Ok (Some converted) <-> passes record converted.
Proof.
  unfold check_record, passes. split.
  - destruct (_convert_field_types record) as [c|]; cbn [bind]; [|discriminate].
    destruct (missing_fields c) eqn:M; [|discriminate].
    destruct (invalid_fields c field_validations) as [[|]|] eqn:V; cbn [bind];
      try discriminate.
    intros H. injection H as <-. repeat split; assumption.
  - intros (-> & M & V). cbn [bind]. rewrite M, V. reflexivity.
Qed.

Lemma validate_record_check st idx record st' :
  validate_record st idx record = Ok st' ->
  exists v, check_record record = Ok v
            /\ st_valid st' = st_valid st && is_some v
            /\ st_validated st'
               = (st_validated st ++ match v with Some c => [c] | None => [] end)%list
            /\ (List.length (st_errors st')
                = List.length (st_errors st) + (if is_some v then 0 else 1))%nat.
Proof.
  unfold validate_record, check_record.
  destruct (_convert_field_types record) as [c|]; cbn [bind]; [|discriminate].
  destruct (missing_fields c) as [|m ms].
  - destruct (invalid_fields c field_validations) as [[|i0 i1]|]; cbn [bind];
      try discriminate; intros H; injection H as <-; eexists; split;
      try reflexivity; cbn [st_valid st_validated st_errors fail_record is_some].
    + rewrite andb_true_r. auto.
    + rewrite andb_false_r, app_nil_r, length_app. cbn. auto.
  - intros H; injection H as <-. eexists; split; [reflexivity|].
    cbn [st_valid st_validated st_errors fail_record is_some].
    rewrite andb_false_r, app_nil_r, length_app. cbn. auto.
Qed.

Lemma validate_records_check records : forall st idx st',
  validate_records st idx records = Ok st' ->
  exists verdicts,
    check_records records = Ok verdicts
    /\ st_valid st' = st_valid st && forallb is_some verdicts
    /\ st_validated st' = (st_validated st ++ somes verdicts)%list.
Proof.
  induction records as [|record rest IH]; intros st idx st' H;
    cbn [validate_records] in H.
  - injection H as <-. exists []. cbn. rewrite andb_true_r, app_nil_r. auto.
  - destruct (validate_record st idx record) as [st1|] eqn:R; cbn [bind] in H;
      [|discriminate].
    apply validate_record_check in R as (v & Cv & V1 & D1 & _).
    apply IH in H as (vs & Cvs & V2 & D2).
    exists (v :: vs). cbn [check_records]. rewrite Cv, Cvs. cbn [bind].
    split; [reflexivity|]. split.
    + rewrite V2, V1. cbn [forallb]. rewrite andb_assoc. reflexivity.
    + rewrite D2, D1. rewrite <- app_assoc. f_equal.
      destruct v; reflexivity.
Qed.

Lemma check_records_in records : forall verdicts converted,
  check_records records = Ok verdicts -> In converted (somes verdicts) ->
  exists record, In record records /\ passes record converted.
Proof.
  induction records as [|record rest IH]; intros verdicts c H I;
    cbn [check_records] in H.
  - injection H as <-. contradiction.
  - destruct (check_record record) as [v|] eqn:Cv; cbn [bind] in H; [|discriminate].
    destruct (check_records rest) as [vs|] eqn:Cvs; cbn [bind] in H; [|discriminate].
    injection H as <-.
    destruct v as [c'|]; cbn [somes] in I.
    + destruct I as [->|I].
      * exists record. split; [left; reflexivity|].
        apply check_record_passes. exact Cv.
      * destruct (IH _ _ eq_refl I) as (r & Ir & P). exists r. split; [right|]; auto.
    + destruct (IH _ _ eq_refl I) as (r & Ir & P). exists r. split; [right|]; auto.
Qed.

Lemma check_records_all records : forall verdicts,
  check_records records = Ok verdicts ->
  (forallb is_some verdicts = true
   <-> Forall (fun record => exists converted, passes record converted) records).
Proof.
  induction records as [|record rest IH]; intros verdicts H;
    cbn [check_records] in H.
  - injection H as <-. split; [constructor | reflexivity].
  - destruct (check_record record) as [v|] eqn:Cv; cbn [bind] in H; [|discriminate].
    destruct (check_records rest) as [vs|] eqn:Cvs; cbn [bind] in H; [|discriminate].
    injection H as <-. cbn [forallb]. rewrite andb_true_iff, (IH vs eq_refl).
    rewrite Forall_cons_iff. apply and_iff_compat_r.
    destruct v as [c|]; cbn [is_some]; split; intros H; try reflexivity.
    + exists c. apply check_record_passes. exact Cv.
    + discriminate.
    + destruct H as [c P]. apply check_record_passes in P. congruence.
Qed.

(** What [validate_data] returns on a non-empty list of records. *)
Lemma validate_data_list records vr :
  records <> [] -> validate_data (VList records) = Ok vr ->
  exists verdicts,
    check_records records = Ok verdicts
    /\ is_valid vr = forallb is_some verdicts
    /\ data vr = somes verdicts.
Proof.
  intros N H. unfold validate_data in H.
  destruct records as [|r0 rest]; [contradiction|].
  cbn [truthy negb py_len first_item iterate bind] in H.
  destruct (py_len r0) as [nf|]; cbn [bind] in H; [|discriminate].
  destruct (validate_records _ 0 (r0 :: rest)) as [st|] eqn:L; cbn [bind] in H;
    [|discriminate].
  destruct (build_report _ _ _ _) as [text|]; cbn [bind] in H; [|discriminate].
  injection H as <-. cbn [is_valid data].
  apply validate_records_check in L as (vs & C & V & D).
  exists vs. cbn [st_valid st_validated andb app] in V, D. auto.
Qed.

(** Every member of [valid_records] went through the loop body unreported. *)
Lemma validated_passes parsed vr converted :
  validate_data parsed = Ok vr -> In converted (data vr) ->
  exists record, passes record converted.
Proof.
  intros H I. unfold validate_data in H.
  destruct (negb (truthy parsed)); [injection H as <-; contradiction|].
  destruct (match parsed with VDict d => dict_get "error" d | _ => None end);
    [injection H as <-; contradiction|].
  destruct (py_len parsed) as [n|]; cbn [bind] in H; [|discriminate].
  destruct (first_item parsed) as [r0|]; cbn [bind] in H; [|discriminate].
  destruct (py_len r0) as [nf|]; cbn [bind] in H; [|discriminate].
  destruct (iterate parsed) as [records|]; cbn [bind] in H; [|discriminate].
  destruct (validate_records _ 0 records) as [st|] eqn:L; cbn [bind] in H;
    [|discriminate].
  destruct (build_report _ _ _ _) as [text|]; cbn [bind] in H; [|discriminate].
  injection H as <-. cbn [data] in I.
  apply validate_records_check in L as (vs & C & _ & D).
  cbn [st_validated app] in D. rewrite D in I.
  destruct (check_records_in _ _ _ C I) as (r & _ & P). eauto.
Qed.

(** ** Exceptions of the coercer and of the validator *)

Lemma py_float_raises v e :
  py_float v = Raise e -> e = ValueError \/ e = TypeError \/ e = OverflowError.
Proof.
  destruct v as [|b|z|f|s|l|d]; cbn; intros H; try discriminate;
    try (injection H as <-; auto).
  - apply float_of_int_raises in H. auto.
  - destruct (FloatParse.float_of_string s); [discriminate|].
    injection H as <-. auto.
Qed.

(** The only exception that leaves the coercer on a [dict] is
    [OverflowError]. *)
Lemma convert_value_raises key v e :
  convert_value key v = Raise e -> e = OverflowError.
Proof.
  unfold convert_value.
  destruct (mem_string key count_fields).
  - destruct (py_float v) as [f|e1] eqn:F; cbn [bind].
    + destruct (int_of_float f) as [z|e2] eqn:I; cbn; [discriminate|].
      destruct (int_of_float_raises _ _ I) as [-> | ->]; cbn; intros H;
        [discriminate | injection H as <-; reflexivity].
    + destruct (py_float_raises _ _ F) as [-> | [-> | ->]]; cbn; intros H;
        try discriminate. injection H as <-; reflexivity.
  - destruct (_ && _); [|discriminate].
    destruct (py_float v) as [f|e1] eqn:F; cbn [bind]; [discriminate|].
    destruct (py_float_raises _ _ F) as [-> | [-> | ->]]; cbn; intros H;
      try discriminate. injection H as <-; reflexivity.
Qed.

Lemma convert_items_raises items : forall acc e,
  convert_items items acc = Raise e -> e = OverflowError.
Proof.
  induction items as [|[key value] rest IH]; intros acc e H;
    cbn [convert_items] in H; [discriminate|].
  destruct (convert_value key value) as [v|e1] eqn:C; cbn [bind] in H.
  - eapply IH; eauto.
  - injection H as <-. eapply convert_value_raises; eauto.
Qed.

Lemma compare_with_raises v n e : compare_with v n = Raise e -> e = TypeError.
Proof.
  unfold compare_with. destruct (as_num v); intros H; [discriminate|].
  injection H as <-. reflexivity.
Qed.

Lemma between_raises lo hi v e : between lo hi v = Raise e -> e = TypeError.
Proof.
  unfold between.
  destruct (compare_with v (NInt lo)) as [c|e1] eqn:C; cbn [bind].
  - destruct (is_ge c); [|discriminate].
    destruct (compare_with v (NInt hi)) as [c'|e2] eqn:C'; cbn [bind];
      [discriminate|].
    intros H; injection H as <-. eapply compare_with_raises; eauto.
  - intros H; injection H as <-. eapply compare_with_raises; eauto.
Qed.

Lemma positive_raises v e : positive v = Raise e -> e = TypeError.
Proof.
  unfold positive.
  destruct (compare_with v (NInt 0)) as [c|e1] eqn:C; cbn [bind]; [discriminate|].
  intros H; injection H as <-. eapply compare_with_raises; eauto.
Qed.

Lemma positive_int_raises v e : positive_int v = Raise e -> e = TypeError.
Proof.
  unfold positive_int.
  destruct (compare_with v (NInt 0)) as [c|e1] eqn:C; cbn [bind].
  - destruct (is_gt c); discriminate.
  - intros H; injection H as <-. eapply compare_with_raises; eauto.
Qed.

Lemma field_invalid_total converted field pred :
  (forall v e, pred v = Raise e -> e = TypeError) ->
  dict_mem field converted = true ->
  exists b, field_invalid converted (field, pred) = Ok b.
Proof.
  intros P M. unfold field_invalid, dict_item, dict_mem in *. cbn [fst snd].
  destruct (dict_get field converted) as [v|]; [|discriminate]. cbn [bind].
  destruct (pred v) as [b|e] eqn:E; cbn [bind except_value_type]; [eauto|].
  rewrite (P _ _ E). eauto.
Qed.

(** With every required field present, the predicate loop returns. *)
Lemma invalid_fields_total converted :
  missing_fields converted = [] ->
  exists l, invalid_fields converted field_validations = Ok l.
Proof.
  intros M. apply filter_nil in M. unfold required_fields in M.
  repeat match type of M with
         | Forall _ (_ :: _) =>
             let H := fresh "M" in
             apply Forall_cons_iff in M as [H M];
             apply negb_false_iff in H
         end.
  unfold field_validations. cbn [invalid_fields].
  repeat match goal with
         | |- context [field_invalid converted (?f, between ?lo ?hi)] =>
             let b := fresh "b" in
             let E := fresh "E" in
             destruct (field_invalid_total converted f (between lo hi)
                         (between_raises lo hi) ltac:(assumption)) as [b E];
             rewrite E; cbn [bind]
         | |- context [field_invalid converted (?f, positive)] =>
             let b := fresh "b" in
             let E := fresh "E" in
             destruct (field_invalid_total converted f positive
                         positive_raises ltac:(assumption)) as [b E];
             rewrite E; cbn [bind]
         | |- context [field_invalid converted (?f, positive_int)] =>
             let b := fresh "b" in
             let E := fresh "E" in
             destruct (field_invalid_total converted f positive_int
                         positive_int_raises ltac:(assumption)) as [b E];
             rewrite E; cbn [bind]
         end.
  eauto.
Qed.

Lemma validate_record_total st idx record :
  convertible record -> Forall is_str (st_errors st) ->
  exists st', validate_record st idx record = Ok st'
              /\ Forall is_str (st_errors st').
Proof.
  intros [c C] S. unfold validate_record. rewrite C. cbn [bind].
  destruct (missing_fields c) eqn:M.
  - destruct (invalid_fields_total c M) as [l ->]. cbn [bind].
    destruct l; eexists; (split; [reflexivity|]); cbn [st_errors fail_record];
      auto.
    apply Forall_app. split; [exact S|]. repeat constructor.
  - eexists. split; [reflexivity|]. cbn [st_errors fail_record].
    apply Forall_app. split; [exact S|]. repeat constructor.
Qed.

Lemma validate_records_total records : forall st idx,
  Forall convertible records -> Forall is_str (st_errors st) ->
  exists st', validate_records st idx records = Ok st'
              /\ Forall is_str (st_errors st').
Proof.
  induction records as [|r rest IH]; intros st idx F S; cbn [validate_records].
  - eauto.
  - apply Forall_cons_iff in F as [Fr F].
    destruct (validate_record_total st idx r Fr S) as (st1 & -> & S1).
    cbn [bind]. apply IH; assumption.
Qed.

Lemma errors_text_total errs :
  Forall is_str errs -> exists l, errors_text errs = Ok l.
Proof.
  induction 1 as [|v errs Hv _ [l IH]]; cbn [errors_text]; [eauto|].
  destruct v; try contradiction. cbn [str_of_error bind]. rewrite IH.
  cbn [bind]. eauto.
Qed.

Lemma build_report_total n m valid errs :
  Forall is_str errs -> exists text, build_report n m valid errs = Ok text.
Proof.
  intros S. unfold build_report. destruct valid; cbn [bind]; [eauto|].
  destruct (errors_text_total errs S) as [l ->]. cbn [bind]. eauto.
Qed.

Lemma convertible_dict record : convertible record -> exists items, record = VDict items.
Proof.
  intros [c C]. destruct record; try discriminate. eauto.
Qed.

(** [validate_data] returns on a non-empty list of records the coercer
    returns on. *)
Lemma validate_data_returns records :
  records <> [] -> Forall convertible records ->
  exists vr, validate_data (VList records) = Ok vr.
Proof.
  intros N F. destruct records as [|r0 rest]; [contradiction|].
  unfold validate_data. cbn [truthy negb py_len first_item iterate bind].
  pose proof F as F0. apply Forall_cons_iff in F0 as [F0 _].
  destruct (convertible_dict _ F0) as [items ->]. cbn [py_len bind].
  destruct (validate_records_total (VDict items :: rest)
              (mk_loop_state true [] []) 0 F ltac:(constructor))
    as (st & -> & S).
  cbn [bind].
  destruct (build_report_total (Z.of_nat (List.length (VDict items :: rest)))
              (Z.of_nat (List.length items)) (st_valid st) (st_errors st) S)
    as [text ->].
  cbn [bind]. eauto.
Qed.

Lemma validate_data_convertible records vr :
  records <> [] -> validate_data (VList records) = Ok vr ->
  Forall convertible records.
Proof.
  intros N V. destruct (validate_data_list _ _ N V) as (vs & C & _).
  clear V N. revert vs C.
  induction records as [|r rest IH]; intros vs C; [constructor|].
  cbn [check_records] in C.
  destruct (check_record r) as [v|] eqn:Cr; cbn [bind] in C; [|discriminate].
  destruct (check_records rest) as [l|] eqn:Cl; cbn [bind] in C; [|discriminate].
  constructor; [|eapply IH; eauto].
  unfold check_record in Cr. unfold convertible.
  destruct (_convert_field_types r); [eauto | discriminate].
Qed.

(** The loop body raises nothing but [OverflowError] on an object. *)
Lemma validate_record_raises st idx items e :
  validate_record st idx (VDict items) = Raise e -> e = OverflowError.
Proof.
  unfold validate_record. cbn [_convert_field_types].
  destruct (convert_items items []) as [c|e1] eqn:C; cbn [bind].
  - destruct (missing_fields c) eqn:M; [|discriminate].
    destruct (invalid_fields_total c M) as [l ->]. cbn [bind].
    destruct l; discriminate.
  - intros H. injection H as <-. eapply convert_items_raises; eauto.
Qed.

Lemma validate_records_raises records : forall st idx e,
  Forall is_dict records ->
  validate_records st idx records = Raise e -> e = OverflowError.
Proof.
  induction records as [|r rest IH]; intros st idx e F H;
    cbn [validate_records] in H; [discriminate|].
  apply Forall_cons_iff in F as [Fr F].
  destruct r; try contradiction.
  destruct (validate_record st idx (VDict d)) as [st1|e1] eqn:R;
    cbn [bind] in H.
  - eapply IH; eauto.
  - injection H as <-. eapply validate_record_raises; eauto.
Qed.

Lemma validate_records_is_str records : forall st idx st',
  validate_records st idx records = Ok st' ->
  Forall is_str (st_errors st) -> Forall is_str (st_errors st').
Proof.
  induction records as [|r rest IH]; intros st idx st' H F;
    cbn [validate_records] in H.
  - injection H as <-. exact F.
  - destruct (validate_record st idx r) as [st1|] eqn:R; cbn [bind] in H;
      [|discriminate].
    eapply IH; eauto. clear H IH.
    unfold validate_record in R.
    destruct (_convert_field_types r) as [c|]; cbn [bind] in R; [|discriminate].
    destruct (missing_fields c).
    + destruct (invalid_fields c field_validations) as [[|i0 i1]|];
        cbn [bind] in R; try discriminate; injection R as <-;
        cbn [fail_record st_errors]; auto.
      apply Forall_app. split; [exact F|]. repeat constructor.
    + injection R as <-. cbn [fail_record st_errors].
      apply Forall_app. split; [exact F|]. repeat constructor.
Qed.

(** On a non-empty batch of objects [validate_data] raises nothing but
    [OverflowError]. *)
Lemma validate_data_raises records e :
  records <> [] -> Forall is_dict records ->
  validate_data (VList records) = Raise e -> e = OverflowError.
Proof.
  intros N D H. unfold validate_data in H.
  destruct records as [|r0 rest]; [contradiction|].
  cbn [truthy negb py_len first_item iterate bind] in H.
  pose proof D as D0. apply Forall_cons_iff in D0 as [D0 _].
  destruct r0; try contradiction. cbn [py_len bind] in H.
  destruct (validate_records _ 0 (VDict d :: rest)) as [st|e1] eqn:L;
    cbn [bind] in H.
  - apply validate_records_is_str in L; [|constructor].
    destruct (build_report_total
                (Z.of_nat (List.length (VDict d :: rest)))
                (Z.of_nat (List.length d)) (st_valid st) (st_errors st) L)
      as [text T].
    rewrite T in H. discriminate.
  - injection H as <-. eapply validate_records_raises; eauto.
Qed.

(** ** The metrics engine on valid records *)

Lemma analyze_campaigns_total th l :
  Forall (fun c => exists a, analyze_campaign th c = Ok a) l ->
  exists r, analyze_campaigns th l = Ok r.
Proof.
  induction 1 as [|c l [a Ha] _ [r Hr]]; cbn [analyze_campaigns].
  - eauto.
  - rewrite Ha, Hr. cbn [bind]. eauto.
Qed.

Lemma in_domain_denominators r :
  in_domain r ->
  (Z2float (r_new_customers_acquired r) =? 0)%float = false
  /\ r_customers_start r <> 0
  /\ (r_advertising_spend r =? 0)%float = false
  /\ (r_budget_usd r =? 0)%float = false.
Proof.
  intros (_ & _ & _ & Db & _ & Dn & Ds & _ & _ & Da).
  repeat split.
  - apply float_of_int_count. exact Dn.
  - lia.
  - apply positive_float_nonzero. exact Da.
  - apply positive_float_nonzero. exact Db.
Qed.

(** C1: a record that passes the validator (a member of the valid records
    [validate_data] returns) is analysed without any exception: the four
    denominators (the customers acquired as a float, the customers at the
    start, the advertising spend and the budget) are not zero, and so the
    analysis of the whole list of valid records returns. *)
Theorem C1_valid_records_analyzed parsed vr :
  validate_data parsed = Ok vr ->
  (exists l, analyze_campaigns thresholds (data vr) = Ok l)
  /\ Forall (fun converted =>
               exists r a,
                 holds converted r
                 /\ analyze_campaign thresholds converted = Ok a
                 /\ (Z2float (r_new_customers_acquired r) =? 0)%float = false
                 /\ r_customers_start r <> 0
                 /\ (r_advertising_spend r =? 0)%float = false
                 /\ (r_budget_usd r =? 0)%float = false)
            (data vr).
Proof.
  intros H.
  assert (F : Forall (fun converted =>
               exists r a,
                 holds converted r
                 /\ analyze_campaign thresholds converted = Ok a
                 /\ (Z2float (r_new_customers_acquired r) =? 0)%float = false
                 /\ r_customers_start r <> 0
                 /\ (r_advertising_spend r =? 0)%float = false
                 /\ (r_budget_usd r =? 0)%float = false)
            (data vr)).
  { apply Forall_forall. intros c I.
    destruct (validated_passes _ _ _ H I) as (record & P).
    destruct (passes_typed _ _ P) as (r & Hr & D).
    exists r, (metrics r). split; [exact Hr|]. split.
    - apply analyze_metrics; assumption.
    - apply in_domain_denominators. exact D. }
  split; [|exact F].
  apply analyze_campaigns_total. eapply Forall_impl; [|exact F].
  intros c (r & a & _ & Ha & _). eauto.
Qed.

Lemma C1_witness :
  exists vr, validate_data (VList [scenario_A_row]) = Ok vr
             /\ data vr <> []
             /\ exists l, analyze_campaigns thresholds (data vr) = Ok l.
Proof.
  eexists. split; [vm_compute; reflexivity|]. split; [discriminate|].
  eapply (C1_valid_records_analyzed (VList [scenario_A_row])).
  vm_compute; reflexivity.
Defined.

Lemma status_texts_differ : "Optimal" <> "Needs Improvement".
Proof. discriminate. Qed.

Lemma budget_texts_differ : cost_effective_text <> reassess_text.
Proof. discriminate. Qed.

(** C4: for a valid record the decisions are taken on the metrics of that
    record.  The converted record is typed, the analysis returns, its
    metrics are the ones the formulas give on the values of the record
    ([cac], [retention_rate], [roas], the composite score of the six
    rounded terms, [cost_efficiency]), [meets_thresholds] is the
    conjunction [composite_score >= 50 and cac <= 50 and retention_rate >=
    90 and roas >= 3], the status is Optimal exactly when it holds and
    Needs Improvement otherwise, and the budget recommendation is the
    cost-effective one exactly when [cost_efficiency > 0.05]. *)
Theorem C4_decisions_of_valid_record parsed vr converted :
  validate_data parsed = Ok vr -> In converted (data vr) ->
  exists r a,
    holds converted r
    /\ analyze_campaign thresholds converted = Ok a
    /\ a = metrics r
    /\ cac a
       = round2 (r_total_campaign_spend r
                 / Z2float (r_new_customers_acquired r))%float
    /\ retention_rate a
       = round2 (Zdiv2float (r_customers_end r - r_new_customers_acquired r)
                            (r_customers_start r) * 100)%float
    /\ roas a = round2 (r_revenue_generated r / r_advertising_spend r)%float
    /\ composite_score a
       = round2 ((round2 (r_engagement_score r * 0.5)
                  + round2 ((r_conversion_rate r * 100) * 0.3)
                  + round2 (r_predictive_roi r * 10 * 0.2))
                 - round2 (cac a * 0.05) + round2 (retention_rate a * 0.1)
                 + round2 (roas a * 0.1))%float
    /\ cost_efficiency a = round2 (composite_score a / r_budget_usd r)%float
    /\ meets_thresholds a
       = ge_int (composite_score a) 50 && le_int (cac a) 50
         && ge_int (retention_rate a) 90 && ge_int (roas a) 3
    /\ (status a = "Optimal" <-> meets_thresholds a = true)
    /\ (status a = "Needs Improvement" <-> meets_thresholds a = false)
    /\ (budget_recommendation a = cost_effective_text
        <-> (0.05 <? cost_efficiency a)%float = true)
    /\ (budget_recommendation a = reassess_text
        <-> (0.05 <? cost_efficiency a)%float = false).
Proof.
  intros H I.
  destruct (validated_passes _ _ _ H I) as (record & P).
  destruct (passes_typed _ _ P) as (r & Hr & D).
  exists r, (metrics r). split; [exact Hr|].
  split; [apply analyze_metrics; assumption|].
  do 7 (split; [reflexivity|]).
  cbn [metrics status meets_thresholds budget_recommendation cost_efficiency].
  pose proof status_texts_differ. pose proof budget_texts_differ.
  destruct (ge_int _ 50 && le_int _ 50 && ge_int _ 90 && ge_int _ 3);
    destruct (0.05 <? _)%float;
    repeat split; intros; try reflexivity; try congruence.
Qed.

Lemma C4_witness :
  exists vr r a,
    validate_data (VList [scenario_A_row]) = Ok vr
    /\ holds scenario_A_converted r
    /\ analyze_campaign thresholds scenario_A_converted = Ok a
    /\ cac a = 46.67%float
    /\ retention_rate a = 100%float
    /\ roas a = 6%float
    /\ composite_score a = 69.77%float
    /\ cost_efficiency a = 0.05%float
    /\ meets_thresholds a = true
    /\ status a = "Optimal"
    /\ budget_recommendation a = reassess_text.
Proof.
  destruct (validate_data (VList [scenario_A_row])) as [vr|] eqn:V;
    [|vm_compute in V; discriminate].
  assert (I : In scenario_A_converted (data vr)).
  { vm_compute in V. injection V as <-. left. reflexivity. }
  destruct (C4_decisions_of_valid_record (VList [scenario_A_row]) vr
              scenario_A_converted V I) as (r & a & H & A & _).
  exists vr, r, a. split; [reflexivity|]. split; [exact H|].
  split; [exact A|].
  vm_compute in A. injection A as <-.
  repeat split; vm_compute; reflexivity.
Defined.

Lemma negative_or_signed_zero f :
  sign_is true (Prim2SF f) -> (f <? 0)%float = true \/ f = neg_zero.
Proof.
  intros H. destruct (Prim2SF f) as [s|s| |s m e] eqn:E; cbn [sign_is] in H;
    try contradiction; subst s.
  - right. rewrite <- (SF2Prim_Prim2SF f), E. reflexivity.
  - left. rewrite ltb_spec, E. reflexivity.
  - left. rewrite ltb_spec, E. reflexivity.
Qed.

Lemma retention_sign r :
  in_domain r -> r_customers_end r < r_new_customers_acquired r ->
  sign_is true (Prim2SF (retention_rate (metrics r))).
Proof.
  intros (_ & _ & _ & _ & _ & Dn & Ds & De & _) Hlt.
  cbn [metrics retention_rate].
  apply round2_sign. rewrite mul_spec.
  change (Prim2SF 100) with (S754_finite false 7036874417766400 (-46)).
  apply SFmul_sign. unfold Zdiv2float.
  assert (S : xorb (r_customers_end r - r_new_customers_acquired r <? 0)
                   (r_customers_start r <? 0) = true).
  { destruct (Z.ltb_spec (r_customers_end r - r_new_customers_acquired r) 0);
      destruct (Z.ltb_spec (r_customers_start r) 0); try lia; reflexivity. }
  rewrite S, Prim2SF_of_ratio by lia.
  apply rounded_sign. apply SF_of_ratio_rounded; lia.
Qed.

(** C9, as amended: a record that passes validation with more customers
    acquired than customers at the end is analysed without rejection or
    exception, and its retention rate is never positive: it is negative, or
    the signed zero [-0.0] when the percentage rounds to zero at two
    decimals. *)
Theorem C9_shrinking_record_analyzed parsed vr converted n e :
  validate_data parsed = Ok vr -> In converted (data vr) ->
  dict_get "new_customers_acquired" converted = Some (VInt n) ->
  dict_get "customers_end" converted = Some (VInt e) ->
  e < n ->
  exists a,
    analyze_campaign thresholds converted = Ok a
    /\ (retention_rate a <=? 0)%float = true
    /\ ((retention_rate a <? 0)%float = true \/ retention_rate a = neg_zero).
Proof.
  intros H I Gn Ge Hlt.
  destruct (validated_passes _ _ _ H I) as (record & P).
  destruct (passes_typed _ _ P) as (r & Hr & D).
  exists (metrics r). split; [apply analyze_metrics; assumption|].
  destruct Hr as (_ & _ & _ & _ & _ & _ & Hn & _ & He & _).
  rewrite Gn in Hn. rewrite Ge in He.
  injection Hn as Hn. injection He as He.
  assert (S : sign_is true (Prim2SF (retention_rate (metrics r))))
    by (apply retention_sign; [exact D | lia]).
  split; [apply leb_zero_of_negative | apply negative_or_signed_zero]; exact S.
Qed.

Lemma C9_witness :
  exists a,
    analyze_campaign thresholds shrinking_converted = Ok a
    /\ (retention_rate a <=? 0)%float = true
    /\ ((retention_rate a <? 0)%float = true \/ retention_rate a = neg_zero).
Proof.
  eapply (C9_shrinking_record_analyzed (VList [shrinking_row]) _ _ 2 1).
  - vm_compute; reflexivity.
  - left; reflexivity.
  - reflexivity.
  - reflexivity.
  - lia.
Defined.

(** The claim as stated fails: the percentage [-0.001] rounds to [-0.0],
    which is not negative. *)
Lemma C9_counterexample :
  exists vr a,
    validate_data (VList [shrinking_row]) = Ok vr
    /\ data vr = [shrinking_converted]
    /\ dict_get "new_customers_acquired" shrinking_converted = Some (VInt 2)
    /\ dict_get "customers_end" shrinking_converted = Some (VInt 1)
    /\ analyze_campaign thresholds shrinking_converted = Ok a
    /\ (retention_rate a <? 0)%float = false.
Proof.
  do 2 eexists. split; [vm_compute; reflexivity|].
  split; [reflexivity|]. split; [reflexivity|]. split; [reflexivity|].
  split; [vm_compute; reflexivity | reflexivity].
Qed.


Lemma process_data_invalid json csv th s parsed vr :
  parse_data json csv s = Ok parsed -> validate_data parsed = Ok vr ->
  is_valid vr = false ->
  process_data json csv th s = Ok (ReportOnly (report vr)).
Proof.
  intros P V I. unfold process_data. rewrite P. cbn [bind]. rewrite V.
  cbn [bind]. rewrite I. reflexivity.
Qed.

(** C2: the claim fails on the code.  The text of Scenario A followed by
    a row whose count [customers_start] is [inf] is parsed to a batch of
    two records; the coercer raises [OverflowError] on the second, which
    [except (ValueError, TypeError)] does not catch, and so [validate_data]
    and [process_data] raise: there is no flag, no valid record and no
    validation report, where the claim has the flag false, the first
    record collected and the report returned. *)
Theorem C2_overflow_batch :
  parse_data no_json plain_DictReader inf_count_text
  = Ok (VList [scenario_A_row; inf_count_row])
  /\ [scenario_A_row; inf_count_row] <> []
  /\ check_record scenario_A_row = Ok (Some scenario_A_converted)
  /\ check_record inf_count_row = Raise OverflowError
  /\ validate_data (VList [scenario_A_row; inf_count_row])
     = Raise OverflowError
  /\ process_data no_json plain_DictReader thresholds inf_count_text
     = Raise OverflowError.
Proof.
  split; [vm_compute; reflexivity|]. split; [discriminate|].
  repeat split; vm_compute; reflexivity.
Qed.

Lemma parse_scenario_A json csv :
  csv scenario_A_text = Ok [scenario_A_row] ->
  parse_data json csv scenario_A_text = Ok (VList [scenario_A_row]).
Proof.
  intros H. unfold parse_data.
  change (py_strip scenario_A_text) with scenario_A_text.
  change (startswith "{" scenario_A_text) with false.
  change (str_contains "," scenario_A_text) with true.
  cbv iota. rewrite H. reflexivity.
Qed.

(** C3: on the CSV text of scenario A the record is validated and the
    metrics engine computes [cac = 46.67], [retention_rate = 100.0],
    [roas = 6.0], the six weighted terms and the composite score by the
    formula with every intermediate rounded to two decimals (69.77), and
    the status Optimal, all four thresholds being met. *)
Theorem C3_scenario_A json csv :
  csv scenario_A_text = Ok [scenario_A_row] ->
  exists rep a,
    process_data json csv thresholds scenario_A_text
    = Ok (WithAnalysis rep [a])
    /\ campaign_id a = VStr "CAMP601"
    /\ cac a = 46.67%float
    /\ retention_rate a = 100%float
    /\ roas a = 6%float
    /\ term1 a = round2 (80 * 0.5)%float
    /\ term2 a = round2 ((0.25 * 100) * 0.3)%float
    /\ term3 a = round2 (7 * 10 * 0.2)%float
    /\ term4 a = round2 (cac a * 0.05)%float
    /\ term5 a = round2 (retention_rate a * 0.1)%float
    /\ term6 a = round2 (roas a * 0.1)%float
    /\ composite_score a
       = round2 ((term1 a + term2 a + term3 a) - term4 a + term5 a + term6 a)%float
    /\ composite_score a = 69.77%float
    /\ ge_int (composite_score a) 50 = true
    /\ le_int (cac a) 50 = true
    /\ ge_int (retention_rate a) 90 = true
    /\ ge_int (roas a) 3 = true
    /\ meets_thresholds a = true
    /\ status a = "Optimal".
Proof.
  intros H. unfold process_data. rewrite (parse_scenario_A json csv H).
  cbn [bind].
  assert (V : exists rep,
             validate_data (VList [scenario_A_row])
             = Ok (mk_validation_result true [] rep [scenario_A_converted]))
    by (eexists; vm_compute; reflexivity).
  destruct V as [rep ->]. cbn [bind is_valid negb data report].
  assert (A : exists a,
             analyze_campaigns thresholds [scenario_A_converted] = Ok [a]
             /\ a = metrics (mk_CampaignRecord (VStr "CAMP601") 80 0.25 7 1500
                               1400 30 300 330 2100 350))
    by (eexists; split; vm_compute; reflexivity).
  destruct A as (a & -> & ->). cbn [bind].
  exists rep. eexists. split; [reflexivity|].
  repeat split; vm_compute; reflexivity.
Qed.

Lemma C3_witness :
  exists rep a,
    process_data no_json plain_DictReader thresholds scenario_A_text
    = Ok (WithAnalysis rep [a])
    /\ cac a = 46.67%float /\ retention_rate a = 100%float
    /\ roas a = 6%float /\ composite_score a = 69.77%float
    /\ status a = "Optimal".
Proof.
  destruct (C3_scenario_A no_json plain_DictReader) as (rep & a & P & Q).
  - vm_compute; reflexivity.
  - exists rep, a. split; [exact P|]. tauto.
Defined.

(** ** The type coercer *)

(** C5: the coercer does not always leave an unparsable value unchanged.
    At a count field holding the text [inf], [float] succeeds, [int] raises
    [OverflowError], the handler catches only [ValueError] and [TypeError],
    and the exception leaves [_convert_field_types] and [validate_data]. *)
Theorem C5_overflow_escapes :
  py_float (VStr "inf") = Ok infinity
  /\ int_of_float infinity = Raise OverflowError
  /\ convert_value "customers_start" (VStr "inf") = Raise OverflowError
  /\ _convert_field_types inf_count_row = Raise OverflowError
  /\ validate_data (VList [inf_count_row]) = Raise OverflowError.
Proof. repeat split; vm_compute; reflexivity. Qed.

(** What the coercer does where the claim holds: counts are parsed as
    floats and truncated, the other schema fields are parsed as floats, a
    value [float] rejects stays as it is, and other keys pass through. *)
Lemma coercer_examples :
  convert_value "new_customers_acquired" (VStr "30.0") = Ok (VInt 30)
  /\ convert_value "new_customers_acquired" (VStr "30.7") = Ok (VInt 30)
  /\ convert_value "customers_end" (VStr "-2.9") = Ok (VInt (-2))
  /\ convert_value "conversion_rate" (VStr "0.25") = Ok (VFloat 0.25)
  /\ convert_value "budget_usd" (VInt 1500) = Ok (VFloat 1500)
  /\ convert_value "budget_usd" (VStr "abc") = Ok (VStr "abc")
  /\ convert_value "customers_start" (VStr "abc") = Ok (VStr "abc")
  /\ convert_value "customers_start" VNone = Ok VNone
  /\ convert_value "campaign_id" (VStr "12") = Ok (VStr "12")
  /\ convert_value "notes" (VStr "12") = Ok (VStr "12").
Proof. repeat split; vm_compute; reflexivity. Qed.

Lemma positive_int_of_int x :
  isinstance_int x = true -> positive_int x = positive x.
Proof.
  intros H. unfold positive_int, positive.
  destruct (compare_with x (NInt 0)) as [c|]; cbn [bind]; [|reflexivity].
  rewrite H. destruct (is_gt c); reflexivity.
Qed.

Lemma positive_int_not_number x :
  as_num x = None -> positive_int x = positive x.
Proof.
  intros H. unfold positive_int, positive, compare_with. rewrite H. reflexivity.
Qed.

Lemma positive_int_nan f :
  Prim2SF f = S754_nan -> positive_int (VFloat f) = positive (VFloat f).
Proof.
  intros H. unfold positive_int, positive, compare_with.
  cbn [as_num num_compare bind]. rewrite H. reflexivity.
Qed.

(** C10, as amended: a count-field value that parses as a finite number is
    coerced to an int, its truncation toward zero; one that parses as NaN
    is left as it is; and on whatever the coercer stores, the count
    predicate agrees with the bare test [x > 0]: the [isinstance] part never
    decides, a count is rejected only when [x > 0] is false or raises. *)
Theorem C10_count_coercion key v :
  mem_string key count_fields = true ->
  (forall f, py_float v = Ok f -> finite_float f = true ->
     exists z, int_of_float f = Ok z /\ convert_value key v = Ok (VInt z))
  /\ (forall f, py_float v = Ok f -> Prim2SF f = S754_nan ->
        convert_value key v = Ok v)
  /\ (forall x, convert_value key v = Ok x -> positive_int x = positive x).
Proof.
  intros K. unfold convert_value. rewrite K. split; [|split].
  - intros f F Fin. rewrite F. cbn [bind]. unfold finite_float in Fin.
    unfold int_of_float.
    destruct (Prim2SF f); try discriminate; eexists; split; reflexivity.
  - intros f F N. rewrite F. cbn [bind]. unfold int_of_float. rewrite N.
    reflexivity.
  - intros x C.
    destruct (py_float v) as [f|e] eqn:F; cbn [bind] in C.
    + destruct (int_of_float f) as [z|e] eqn:I; cbn [bind except_value_type] in C.
      * injection C as <-. apply positive_int_of_int. reflexivity.
      * destruct (int_of_float_raises _ _ I) as [-> | ->]; [|discriminate].
        apply int_of_float_raises_value in I. cbn in C. injection C as <-.
        destruct v as [|b|z|f'|s|l|d];
          try (apply positive_int_of_int; reflexivity);
          try (apply positive_int_not_number; reflexivity).
        cbn in F. injection F as ->. apply positive_int_nan. exact I.
    + destruct v as [|b|z|f'|s|l|d]; cbn in F; try discriminate;
        try (injection F as <-; cbn in C; injection C as <-;
             apply positive_int_not_number; reflexivity).
      * apply float_of_int_raises in F. subst e. discriminate.
      * destruct (FloatParse.float_of_string s); [discriminate|].
        injection F as <-. cbn in C. injection C as <-.
        apply positive_int_not_number. reflexivity.
Qed.

Lemma C10_witness :
  convert_value "new_customers_acquired" (VStr "30.7") = Ok (VInt 30)
  /\ positive_int (VInt 30) = positive (VInt 30)
  /\ positive_int (VInt 30) = Ok true.
Proof.
  destruct (C10_count_coercion "new_customers_acquired" (VStr "30.7") eq_refl)
    as (Hf & _ & Hp).
  destruct (Hf 30.7%float) as (z & Hz & Hc);
    [vm_compute; reflexivity | reflexivity |].
  assert (z = 30) as -> by (vm_compute in Hz; congruence).
  split; [exact Hc|]. split; [apply Hp; exact Hc | reflexivity].
Defined.

(** The claim as stated fails: the text [nan] parses as a number, and the
    coerced value is the text itself, not an int. *)
Lemma C10_counterexample :
  py_float (VStr "nan") = Ok nan
  /\ convert_value "customers_start" (VStr "nan") = Ok (VStr "nan")
  /\ isinstance_int (VStr "nan") = false.
Proof. repeat split; vm_compute; reflexivity. Qed.

(** ** Missing required fields *)

Lemma dict_mem_set k k' v d :
  dict_mem k (dict_set k' v d) = String.eqb k k' || dict_mem k d.
Proof.
  unfold dict_mem. rewrite dict_get_set. destruct (String.eqb k k'); reflexivity.
Qed.

Lemma convert_items_mem items : forall acc converted k,
  convert_items items acc = Ok converted ->
  dict_mem k converted = dict_mem k items || dict_mem k acc.
Proof.
  induction items as [|[key value] rest IH]; intros acc converted k H;
    cbn [convert_items] in H.
  - injection H as <-. reflexivity.
  - destruct (convert_value key value) as [v'|]; cbn [bind] in H; [|discriminate].
    rewrite (IH _ _ k H), dict_mem_set.
    assert (E : dict_mem k ((key, value) :: rest)
                = if String.eqb k key then true else dict_mem k rest).
    { unfold dict_mem. cbn [dict_get]. destruct (String.eqb k key); reflexivity. }
    rewrite E.
    destruct (String.eqb k key), (dict_mem k rest), (dict_mem k acc); reflexivity.
Qed.

Lemma missing_fields_absent items converted :
  convert_items items [] = Ok converted ->
  missing_fields converted = absent_fields items.
Proof.
  intros H. unfold missing_fields, absent_fields. apply filter_ext.
  intros k. rewrite (convert_items_mem _ _ _ k H). cbn. rewrite orb_false_r.
  reflexivity.
Qed.

Lemma validate_record_missing st idx items :
  absent_fields items <> [] ->
  forall st', validate_record st idx (VDict items) = Ok st' ->
  st' = mk_loop_state false
          (st_errors st ++ [VStr (missing_msg (absent_fields items) idx)])
          (st_validated st).
Proof.
  intros N st'. unfold validate_record. cbn [_convert_field_types].
  destruct (convert_items items []) as [c|] eqn:C; cbn [bind]; [|discriminate].
  rewrite (missing_fields_absent _ _ C).
  destruct (absent_fields items); [contradiction|].
  intros H. injection H as <-. reflexivity.
Qed.

Lemma validate_record_monotone st idx record st' :
  validate_record st idx record = Ok st' ->
  (forall e, In e (st_errors st) -> In e (st_errors st'))
  /\ (st_valid st = false -> st_valid st' = false).
Proof.
  unfold validate_record.
  destruct (_convert_field_types record) as [c|]; cbn [bind]; [|discriminate].
  destruct (missing_fields c).
  - destruct (invalid_fields c field_validations) as [[|i0 i1]|]; cbn [bind];
      try discriminate; intros H; injection H as <-;
      cbn [fail_record st_errors st_valid]; split; auto;
      intros e I; apply in_or_app; auto.
  - intros H; injection H as <-. cbn [fail_record st_errors st_valid].
    split; auto. intros e I; apply in_or_app; auto.
Qed.

Lemma validate_records_monotone records : forall st idx st',
  validate_records st idx records = Ok st' ->
  (forall e, In e (st_errors st) -> In e (st_errors st'))
  /\ (st_valid st = false -> st_valid st' = false).
Proof.
  induction records as [|r rest IH]; intros st idx st' H;
    cbn [validate_records] in H.
  - injection H as <-. auto.
  - destruct (validate_record st idx r) as [st1|] eqn:R; cbn [bind] in H;
      [|discriminate].
    apply validate_record_monotone in R as [E1 V1].
    apply IH in H as [E2 V2]. split; auto.
Qed.

(** The record at position [i] is validated with index [idx + i], and what
    its turn reports stays in the result. *)
Lemma validate_records_nth records : forall st idx st' i record,
  validate_records st idx records = Ok st' ->
  nth_error records i = Some record ->
  exists st1 st2,
    validate_record st1 (idx + Z.of_nat i) record = Ok st2
    /\ (forall e, In e (st_errors st2) -> In e (st_errors st'))
    /\ (st_valid st2 = false -> st_valid st' = false).
Proof.
  induction records as [|r rest IH]; intros st idx st' i record H N.
  - destruct i; discriminate.
  - cbn [validate_records] in H.
    destruct (validate_record st idx r) as [st1|] eqn:R; cbn [bind] in H;
      [|discriminate].
    destruct i as [|i]; cbn [nth_error] in N.
    + injection N as <-. exists st, st1.
      replace (idx + Z.of_nat 0) with idx by lia.
      split; [exact R|]. eapply validate_records_monotone; eauto.
    + destruct (IH _ _ _ _ _ H N) as (s1 & s2 & V & E & F).
      exists s1, s2. replace (idx + Z.of_nat (S i)) with (idx + 1 + Z.of_nat i) by lia.
      auto.
Qed.

Lemma validate_data_list_state records vr :
  records <> [] -> validate_data (VList records) = Ok vr ->
  exists st,
    validate_records (mk_loop_state true [] []) 0 records = Ok st
    /\ is_valid vr = st_valid st /\ errors vr = st_errors st
    /\ data vr = st_validated st.
Proof.
  intros N H. unfold validate_data in H.
  destruct records as [|r0 rest]; [contradiction|].
  cbn [truthy negb py_len first_item iterate bind] in H.
  destruct (py_len r0) as [nf|]; cbn [bind] in H; [|discriminate].
  destruct (validate_records _ 0 (r0 :: rest)) as [st|] eqn:L; cbn [bind] in H;
    [|discriminate].
  destruct (build_report _ _ _ _) as [text|]; cbn [bind] in H; [|discriminate].
  injection H as <-. exists st. auto.
Qed.

(** C7, as amended: in a batch on whose records the coercer returns, a
    record with a required field absent adds exactly one error, the text
    ["ERROR: Missing required field(s): <names joined by comma and space>
    in row <i>."] with the 1-based index of the record and the absent names
    in schema order; the batch is invalid, no predicate is checked for the
    record, and it does not join the valid records. *)
Theorem C7_missing_fields_reported records i items :
  Forall convertible records ->
  nth_error records i = Some (VDict items) ->
  absent_fields items <> [] ->
  let msg :=
    "ERROR: Missing required field(s): " ++ join ", " (absent_fields items)
    ++ " in row " ++ str_of_Z (Z.of_nat i + 1) ++ "." in
  exists vr,
    validate_data (VList records) = Ok vr
    /\ is_valid vr = false
    /\ In (VStr msg) (errors vr)
    /\ (forall st,
          validate_record st (Z.of_nat i) (VDict items)
          = Ok (mk_loop_state false (st_errors st ++ [VStr msg])
                              (st_validated st))).
Proof.
  intros Fc N A msg.
  assert (NE : records <> []) by (intros ->; destruct i; discriminate).
  destruct (validate_data_returns _ NE Fc) as [vr V]. exists vr.
  split; [exact V|].
  destruct (validate_data_list_state _ _ NE V) as (st & L & Iv & Ie & _).
  destruct (validate_records_nth _ _ _ _ _ _ L N) as (s1 & s2 & R & E & F).
  cbn [Z.add] in R.
  pose proof (validate_record_missing _ _ _ A _ R) as ->.
  cbn [st_valid st_errors] in E, F.
  split; [rewrite Iv; auto|]. split.
  - rewrite Ie. apply E. apply in_or_app. right. left. reflexivity.
  - intros st0. unfold validate_record in R |- *. cbn [_convert_field_types] in *.
    destruct (convert_items items []) as [c|] eqn:C; cbn [bind] in *;
      [|discriminate].
    rewrite (missing_fields_absent _ _ C).
    destruct (absent_fields items); [contradiction|]. reflexivity.
Qed.

Lemma C7_witness :
  exists vr,
    validate_data (VList [no_revenue_row]) = Ok vr
    /\ is_valid vr = false
    /\ In (VStr "ERROR: Missing required field(s): revenue_generated in row 1.")
          (errors vr).
Proof.
  destruct (C7_missing_fields_reported [no_revenue_row] 0 _
              ltac:(repeat constructor; eexists; vm_compute; reflexivity)
              eq_refl ltac:(vm_compute; discriminate))
    as (vr & V & H1 & H2 & _).
  exists vr. split; [exact V|]. split; [exact H1 | exact H2].
Defined.

(** The claim as stated fails: the error text carries the prefix
    [ERROR: ]. *)
Lemma C7_counterexample :
  exists vr,
    validate_data (VList [no_revenue_row]) = Ok vr
    /\ errors vr
       = [VStr "ERROR: Missing required field(s): revenue_generated in row 1."]
    /\ errors vr
       <> [VStr "Missing required field(s): revenue_generated in row 1."].
Proof.
  eexists. split; [vm_compute; reflexivity|]. split; [reflexivity|discriminate].
Qed.

(** ** The JSON branch of the parser *)

Lemma validate_format_error :
  validate_data format_error
  = Ok (mk_validation_result false [VStr format_error_text] "" []).
Proof. reflexivity. Qed.

(** C6, as amended: on a text whose trimmed form starts with a brace the
    parser decodes JSON; when the decoded object has a key [campaigns], the
    value under it is the parsed data whatever its type (the elements of an
    array are the records); when it has none, the object is the only
    record; and when the decoder reports malformed JSON with
    [JSONDecodeError], the result is the one parse-error outcome, which
    validates to exactly one batch-level message, no record-level error and
    no record. *)
Theorem C6_json_branch json csv s :
  startswith "{" (py_strip s) = true ->
  (forall d v, json (py_strip s) = Ok (VDict d) ->
               dict_get "campaigns" d = Some v -> parse_data json csv s = Ok v)
  /\ (forall d, json (py_strip s) = Ok (VDict d) ->
                dict_get "campaigns" d = None ->
                parse_data json csv s = Ok (VList [VDict d]))
  /\ (json (py_strip s) = Raise JSONDecodeError ->
      parse_data json csv s = Ok format_error
      /\ validate_data format_error
         = Ok (mk_validation_result false [VStr format_error_text] "" [])).
Proof.
  intros B. unfold parse_data. rewrite B. split; [|split].
  - intros d v J G. rewrite J. unfold contains_key, dict_mem, subscript, dict_item.
    rewrite G. reflexivity.
  - intros d J G. rewrite J. unfold contains_key, dict_mem. rewrite G. reflexivity.
  - intros J. rewrite J. split; [reflexivity | apply validate_format_error].
Qed.

Lemma C6_witness :
  parse_data example_json_loads no_csv json_batch_text
  = Ok (VList [VDict [("campaign_id", VStr "CAMP601")]])
  /\ parse_data example_json_loads no_csv json_single_text
     = Ok (VList [VDict [("campaign_id", VStr "CAMP601")]])
  /\ parse_data example_json_loads no_csv json_unbalanced_text = Ok format_error
  /\ validate_data format_error
     = Ok (mk_validation_result false [VStr format_error_text] "" []).
Proof.
  destruct (C6_json_branch example_json_loads no_csv
              json_batch_text eq_refl) as (H1 & _ & _).
  destruct (C6_json_branch example_json_loads no_csv
              json_single_text eq_refl) as (_ & H2 & _).
  destruct (C6_json_branch example_json_loads no_csv
              json_unbalanced_text eq_refl) as (_ & _ & H3).
  split; [eapply H1; reflexivity|].
  split; [eapply H2; reflexivity|].
  exact (H3 eq_refl).
Defined.

(** The claim as stated fails: with [campaigns] holding a number, not an
    array, the object is not made a one-record sequence; the number is
    returned. *)
Lemma C6_counterexample :
  example_json_loads json_number_text = Ok (VDict [("campaigns", VInt 5)])
  /\ parse_data example_json_loads no_csv json_number_text = Ok (VInt 5)
  /\ parse_data example_json_loads no_csv json_number_text
     <> Ok (VList [VDict [("campaigns", VInt 5)]]).
Proof.
  split; [reflexivity|]. split; [reflexivity|]. discriminate.
Qed.

(** ** Thresholds *)

Lemma eval_meets_true th c k r o :
  eval_meets_thresholds th c k r o = Ok true
  <-> entry_meets is_ge th "composite_score" c
      /\ entry_meets is_le th "cac" k
      /\ entry_meets is_ge th "retention_rate" r
      /\ entry_meets is_ge th "roas" o.
Proof.
  unfold eval_meets_thresholds, entry_meets, dict_item. split.
  - destruct (dict_get "composite_score" th) as [t1|]; cbn [bind]; [|discriminate].
    destruct (float_vs c t1) as [c1|] eqn:F1; cbn [bind]; [|discriminate].
    destruct (is_ge c1) eqn:B1; [|discriminate].
    destruct (dict_get "cac" th) as [t2|]; cbn [bind]; [|discriminate].
    destruct (float_vs k t2) as [c2|] eqn:F2; cbn [bind]; [|discriminate].
    destruct (is_le c2) eqn:B2; [|discriminate].
    destruct (dict_get "retention_rate" th) as [t3|]; cbn [bind]; [|discriminate].
    destruct (float_vs r t3) as [c3|] eqn:F3; cbn [bind]; [|discriminate].
    destruct (is_ge c3) eqn:B3; [|discriminate].
    destruct (dict_get "roas" th) as [t4|]; cbn [bind]; [|discriminate].
    destruct (float_vs o t4) as [c4|] eqn:F4; cbn [bind]; [|discriminate].
    intros H. injection H as B4.
    repeat split; do 2 eexists; repeat split;
      first [reflexivity | eassumption].
  - intros ((t1 & c1 & G1 & F1 & B1) & (t2 & c2 & G2 & F2 & B2)
            & (t3 & c3 & G3 & F3 & B3) & (t4 & c4 & G4 & F4 & B4)).
    rewrite G1. cbn [bind]. rewrite F1. cbn [bind]. rewrite B1.
    rewrite G2. cbn [bind]. rewrite F2. cbn [bind]. rewrite B2.
    rewrite G3. cbn [bind]. rewrite F3. cbn [bind]. rewrite B3.
    rewrite G4. cbn [bind]. rewrite F4. cbn [bind]. rewrite B4. reflexivity.
Qed.

Lemma dict_item_set_other k key v th :
  String.eqb k key = false -> dict_item k (dict_set key v th) = dict_item k th.
Proof. intros H. unfold dict_item. rewrite dict_get_set, H. reflexivity. Qed.

Lemma eval_meets_set_other key v th c k r o :
  mem_string key (map fst thresholds) = false ->
  eval_meets_thresholds (dict_set key v th) c k r o
  = eval_meets_thresholds th c k r o.
Proof.
  intros M. cbn in M.
  repeat (apply orb_false_elim in M as [? M]).
  unfold eval_meets_thresholds.
  rewrite !dict_item_set_other by (rewrite String.eqb_sym; assumption).
  reflexivity.
Qed.

Ltac bind_inv H :=
  repeat match type of H with
         | bind ?r _ = Ok _ =>
             let E := fresh "E" in
             destruct r eqn:E; cbn [bind] in H; [|discriminate H]
         end.

(** C8, as amended: four of the five thresholds are configuration, the
    entries [composite_score], [cac], [retention_rate] and [roas] of the
    table [self.thresholds]: whatever the table holds, [meets_thresholds]
    compares the four metrics with its entries.  The fifth is not: the
    budget recommendation compares [cost_efficiency] with the literal 0.05
    whatever the table holds, and no other entry of the table changes the
    analysis. *)
Theorem C8_thresholds_configuration th campaign a :
  analyze_campaign th campaign = Ok a ->
  (meets_thresholds a = true
   <-> entry_meets is_ge th "composite_score" (composite_score a)
       /\ entry_meets is_le th "cac" (cac a)
       /\ entry_meets is_ge th "retention_rate" (retention_rate a)
       /\ entry_meets is_ge th "roas" (roas a))
  /\ (budget_recommendation a = cost_effective_text
      <-> (0.05 <? cost_efficiency a)%float = true)
  /\ (forall key v,
        mem_string key (map fst thresholds) = false ->
        analyze_campaign (dict_set key v th) campaign = Ok a).
Proof.
  intros H. split; [|split].
  - unfold analyze_campaign in H. bind_inv H. injection H as <-.
    cbn [meets_thresholds composite_score cac retention_rate roas].
    rewrite <- eval_meets_true.
    match goal with E : eval_meets_thresholds _ _ _ _ _ = Ok ?b |- _ =>
      rewrite E; destruct b; split; congruence end.
  - unfold analyze_campaign in H. bind_inv H. injection H as <-.
    cbn [budget_recommendation cost_efficiency].
    pose proof budget_texts_differ.
    destruct (0.05 <? _)%float; split; congruence.
  - intros key v M. rewrite <- H. unfold analyze_campaign.
    assert (K : String.eqb "composite_score" key = false).
    { cbn in M. apply orb_false_elim in M as [M _].
      rewrite String.eqb_sym. exact M. }
    rewrite (dict_item_set_other _ _ v th K).
    repeat match goal with
           | |- bind ?r _ = bind ?r _ => destruct r; cbn [bind]; [|reflexivity]
           end.
    rewrite (eval_meets_set_other key v th) by exact M. reflexivity.
Qed.

Lemma C8_witness :
  exists a,
    analyze_campaign thresholds scenario_A_converted = Ok a
    /\ meets_thresholds a = true
    /\ budget_recommendation a = reassess_text
    /\ analyze_campaign (dict_set "cost_efficiency_min" (VFloat 0.01) thresholds)
                        scenario_A_converted = Ok a
    /\ analyze_campaign (dict_set "roas" (VInt 7) thresholds)
                        scenario_A_converted <> Ok a.
Proof.
  assert (A : exists a, analyze_campaign thresholds scenario_A_converted = Ok a)
    by (eexists; vm_compute; reflexivity).
  destruct A as [a A]. exists a.
  destruct (C8_thresholds_configuration thresholds scenario_A_converted a A)
    as (_ & _ & I).
  split; [exact A|].
  assert (E : a = metrics (mk_CampaignRecord (VStr "CAMP601") 80 0.25 7 1500
                             1400 30 300 330 2100 350)).
  { vm_compute in A. injection A as <-. vm_compute. reflexivity. }
  split; [rewrite E; vm_compute; reflexivity|].
  split; [rewrite E; vm_compute; reflexivity|].
  split; [apply I; reflexivity|].
  rewrite E. vm_compute. discriminate.
Defined.

(** The claim as stated fails: with [cost_efficiency_min] configured as
    0.01 and a cost efficiency of 0.05 above it, the recommendation is
    still the reassessment one, the engine comparing with 0.05. *)
Lemma C8_counterexample :
  exists a,
    analyze_campaign (dict_set "cost_efficiency_min" (VFloat 0.01) thresholds)
                     scenario_A_converted = Ok a
    /\ cost_efficiency a = 0.05%float
    /\ (0.01 <? cost_efficiency a)%float = true
    /\ budget_recommendation a = reassess_text.
Proof.
  eexists. split; [vm_compute; reflexivity|].
  repeat split; vm_compute; reflexivity.
Qed.

(** * Further properties *)

(** ** The parser and the early returns of the validator *)

Lemma rstrip_cons c t :
  rstrip (String c t)
  = match rstrip t with
    | EmptyString => if is_strip_space c then EmptyString else String c EmptyString
    | String a b => String c (String a b)
    end.
Proof. reflexivity. Qed.

Lemma rstrip_idempotent s : rstrip (rstrip s) = rstrip s.
Proof.
  induction s as [|c s IH]; [reflexivity|]. rewrite rstrip_cons.
  destruct (rstrip s) as [|c' r] eqn:R.
  - destruct (is_strip_space c) eqn:Sp; [reflexivity|].
    rewrite rstrip_cons. cbn [rstrip]. rewrite Sp. reflexivity.
  - rewrite rstrip_cons, IH. reflexivity.
Qed.

Lemma lstrip_trimmed s : left_trimmed (lstrip s).
Proof.
  induction s as [|c s IH]; cbn [lstrip]; [exact I|].
  destruct (is_strip_space c) eqn:Sp; [exact IH | exact Sp].
Qed.

Lemma lstrip_of_trimmed s : left_trimmed s -> lstrip s = s.
Proof.
  destruct s as [|c s]; cbn; [reflexivity|]. intros ->. reflexivity.
Qed.

Lemma rstrip_trimmed s : left_trimmed s -> left_trimmed (rstrip s).
Proof.
  destruct s as [|c s]; [trivial|]. cbn [left_trimmed]. rewrite rstrip_cons.
  intros Sp. destruct (rstrip s); [rewrite Sp|]; exact Sp.
Qed.

Lemma py_strip_idempotent s : py_strip (py_strip s) = py_strip s.
Proof.
  unfold py_strip.
  rewrite (lstrip_of_trimmed (rstrip (lstrip s)))
    by (apply rstrip_trimmed, lstrip_trimmed).
  apply rstrip_idempotent.
Qed.

Lemma lstrip_app_spaces w s :
  blank w = true ->
  lstrip (w ++ s) = lstrip s.
Proof.
  induction w as [|c w IH]; cbn; [reflexivity|].
  intros H. apply andb_prop in H as [Hc Hw]. rewrite Hc. auto.
Qed.

Lemma rstrip_spaces w :
  blank w = true -> rstrip w = "".
Proof.
  induction w as [|c w IH]; [reflexivity|]. cbn [list_ascii_of_string forallb].
  intros H. apply andb_prop in H as [Hc Hw]. rewrite rstrip_cons, (IH Hw), Hc.
  reflexivity.
Qed.

Lemma rstrip_app_spaces s w :
  blank w = true ->
  rstrip (s ++ w) = rstrip s.
Proof.
  intros H. induction s as [|c s IH]; cbn [append].
  - rewrite rstrip_spaces by exact H. reflexivity.
  - rewrite !rstrip_cons, IH. reflexivity.
Qed.

Lemma lstrip_app s w :
  lstrip s <> "" -> lstrip (s ++ w) = lstrip s ++ w.
Proof.
  induction s as [|c s IH]; cbn [lstrip append]; [congruence|].
  destruct (is_strip_space c); [exact IH | reflexivity].
Qed.

Lemma lstrip_all_spaces s :
  lstrip s = "" -> blank s = true.
Proof.
  induction s as [|c s IH]; cbn; [reflexivity|].
  destruct (is_strip_space c); [exact IH | discriminate].
Qed.

(** Whitespace around the text does not reach the parsers. *)
Lemma py_strip_surrounded l s r :
  blank l = true ->
  blank r = true ->
  py_strip (l ++ s ++ r) = py_strip s.
Proof.
  intros Hl Hr. unfold py_strip. rewrite (lstrip_app_spaces l _ Hl).
  destruct (lstrip s) as [|c t] eqn:E.
  - pose proof (lstrip_all_spaces s E) as Hs.
    assert (A : blank (s ++ r) = true).
    { clear E. induction s as [|a s IH]; cbn in *; [exact Hr|].
      apply andb_prop in Hs as [Ha Hs]. rewrite Ha. auto. }
    clear E. revert A. generalize (s ++ r). intros u A.
    assert (L : lstrip u = "").
    { induction u as [|a u IH]; cbn in *; [reflexivity|].
      apply andb_prop in A as [Ha A]. rewrite Ha. auto. }
    rewrite L. reflexivity.
  - rewrite lstrip_app by congruence. rewrite E. apply rstrip_app_spaces. exact Hr.
Qed.


(** X1: whitespace around the payload does not matter: [parse_data] and
    [process_data] give the same result on a text and on the text with
    whitespace before and after it. *)
Theorem X1_surrounding_whitespace json csv th l s r :
  blank l = true -> blank r = true ->
  parse_data json csv (l ++ s ++ r) = parse_data json csv s
  /\ process_data json csv th (l ++ s ++ r) = process_data json csv th s.
Proof.
  intros Hl Hr. unfold process_data, parse_data.
  rewrite (py_strip_surrounded l s r Hl Hr). split; reflexivity.
Qed.

Lemma X1_witness :
  process_data no_json plain_DictReader thresholds
    ("  " ++ scenario_A_text ++ nl ++ nl ++ "    ")
  = process_data no_json plain_DictReader thresholds scenario_A_text.
Proof.
  apply (X1_surrounding_whitespace no_json plain_DictReader thresholds
           "  " scenario_A_text (nl ++ nl ++ "    ")); reflexivity.
Defined.

(** X2: a text that is neither JSON nor CSV (its trimmed form does not
    start with a brace and holds no comma), or a CSV text on which the
    reader raises whatever exception, is the format error; [process_data]
    never raises on it and returns the empty report: the error message is
    in [validation_result["errors"]] only. *)
Theorem X2_unsupported_format json csv th s :
  startswith "{" (py_strip s) = false ->
  str_contains "," (py_strip s) = false
  \/ (exists e, csv (py_strip s) = Raise e) ->
  parse_data json csv s = Ok format_error
  /\ validate_data format_error
     = Ok (mk_validation_result false [VStr format_error_text] "" [])
  /\ process_data json csv th s = Ok (ReportOnly "").
Proof.
  intros B H.
  assert (P : parse_data json csv s = Ok format_error).
  { unfold parse_data. rewrite B. destruct H as [C | [e C]].
    - rewrite C. reflexivity.
    - destruct (str_contains "," (py_strip s)); [rewrite C|]; reflexivity. }
  split; [exact P|]. split; [reflexivity|].
  apply (process_data_invalid json csv th s format_error _ P eq_refl eq_refl).
Qed.

Lemma X2_witness :
  parse_data no_json plain_DictReader "hello world" = Ok format_error
  /\ process_data no_json no_csv thresholds scenario_A_text
     = Ok (ReportOnly "").
Proof.
  split.
  - apply (X2_unsupported_format no_json plain_DictReader thresholds
             "hello world" eq_refl (or_introl eq_refl)).
  - apply (X2_unsupported_format no_json no_csv thresholds scenario_A_text
             eq_refl (or_intror (ex_intro _ CsvError eq_refl))).
Defined.

(** X3: an empty batch (a CSV header with no row, a JSON [campaigns]
    array with no element, and any other falsy payload) gives the single
    error [ERROR: No data provided.], no record, and the empty report from
    [process_data]. *)
Theorem X3_empty_batch json csv th s parsed :
  parse_data json csv s = Ok parsed -> truthy parsed = false ->
  validate_data parsed
  = Ok (mk_validation_result false [VStr "ERROR: No data provided."] "" [])
  /\ process_data json csv th s = Ok (ReportOnly "").
Proof.
  intros P T.
  assert (V : validate_data parsed
              = Ok (mk_validation_result false
                      [VStr "ERROR: No data provided."] "" [])).
  { unfold validate_data. rewrite T. reflexivity. }
  split; [exact V|].
  apply (process_data_invalid json csv th s parsed _ P V eq_refl).
Qed.

Lemma X3_witness :
  parse_data no_json plain_DictReader header_only_text = Ok (VList [])
  /\ process_data no_json plain_DictReader thresholds header_only_text
     = Ok (ReportOnly "").
Proof.
  split; [vm_compute; reflexivity|].
  apply (X3_empty_batch no_json plain_DictReader thresholds header_only_text
           (VList [])); [vm_compute; reflexivity | reflexivity].
Defined.




(** X5: what [validate_data] does with a payload that is not a list (as
    [parse_data] returns for a JSON object whose [campaigns] value is not an
    array): a nonzero number raises [TypeError], a non-empty string raises
    [AttributeError], a non-empty object without the key [error] raises
    [KeyError], and an object with the key [error] is taken for a parse
    error, its value becoming the only error message. *)
Theorem X5_payload_not_a_list :
  (forall z, z <> 0 -> validate_data (VInt z) = Raise TypeError)
  /\ (forall s, s <> "" -> validate_data (VStr s) = Raise AttributeError)
  /\ (forall d, d <> [] -> dict_get "error" d = None ->
                validate_data (VDict d) = Raise KeyError)
  /\ (forall d err, dict_get "error" d = Some err ->
                    validate_data (VDict d)
                    = Ok (mk_validation_result false [err] "" [])).
Proof.
  repeat split.
  - intros z Hz. unfold validate_data. cbn [truthy].
    destruct (Z.eqb_spec z 0); [contradiction|]. reflexivity.
  - intros s Hs. unfold validate_data. destruct s as [|c s]; [contradiction|].
    reflexivity.
  - intros d Hd He. unfold validate_data. destruct d as [|kv d]; [contradiction|].
    cbn [truthy negb]. rewrite He. reflexivity.
  - intros d err He. unfold validate_data.
    destruct d as [|kv d]; [discriminate|]. cbn [truthy negb]. rewrite He.
    reflexivity.
Qed.

(** ** The record loop: invalid values and the list of errors *)

Lemma invalid_fields_filter converted fvs : forall l,
  invalid_fields converted fvs = Ok l ->
  l = map fst (filter (rejects converted) fvs).
Proof.
  induction fvs as [|fv rest IH]; intros l H; cbn [invalid_fields] in H.
  - injection H as <-. reflexivity.
  - destruct (field_invalid converted fv) as [b|] eqn:B; cbn [bind] in H;
      [|discriminate].
    destruct (invalid_fields converted rest) as [l'|]; cbn [bind] in H;
      [|discriminate].
    injection H as <-. rewrite (IH l' eq_refl). cbn [filter].
    unfold field_invalid, dict_item in B. unfold rejects.
    destruct (dict_get (fst fv) converted) as [v|]; cbn [bind] in B;
      [|discriminate].
    destruct (snd fv v) as [[|]|e]; cbn in B.
    + injection B as <-. reflexivity.
    + injection B as <-. reflexivity.
    + destruct e; try discriminate; injection B as <-; reflexivity.
Qed.

Lemma invalid_fields_failing converted :
  missing_fields converted = [] ->
  invalid_fields converted field_validations = Ok (failing_fields converted).
Proof.
  intros M. destruct (invalid_fields_total converted M) as [l H].
  rewrite H. f_equal. apply (invalid_fields_filter _ _ _ H).
Qed.

Lemma validate_record_invalid st idx record converted :
  _convert_field_types record = Ok converted ->
  missing_fields converted = [] ->
  failing_fields converted <> [] ->
  validate_record st idx record
  = Ok (fail_record st (invalid_msg (failing_fields converted) idx)).
Proof.
  intros C M N. unfold validate_record. rewrite C. cbn [bind]. rewrite M.
  rewrite (invalid_fields_failing _ M). cbn [bind].
  destruct (failing_fields converted); [contradiction|reflexivity].
Qed.

(** X6: in a batch on whose records the coercer returns, a record that has
    every required field and at least one validated field whose predicate
    does not hold (it returns [False], or the comparison raises on a value
    that is not a number) adds the error
    [ERROR: Invalid value for the field(s): <names> in row <i>. Please
    correct and resubmit.], with the names of all such fields in the order
    of the table, joined by comma and space, and the 1-based index; the
    batch is invalid and the record is not among the valid records. *)
Theorem X6_invalid_values_reported records i record converted :
  Forall convertible records ->
  nth_error records i = Some record ->
  _convert_field_types record = Ok converted ->
  missing_fields converted = [] ->
  failing_fields converted <> [] ->
  let msg :=
    "ERROR: Invalid value for the field(s): "
    ++ join ", " (failing_fields converted)
    ++ " in row " ++ str_of_Z (Z.of_nat i + 1)
    ++ ". Please correct and resubmit." in
  exists vr,
    validate_data (VList records) = Ok vr
    /\ is_valid vr = false
    /\ In (VStr msg) (errors vr)
    /\ ~ In converted (data vr).
Proof.
  intros Fc N C M A msg.
  assert (NE : records <> []) by (intros ->; destruct i; discriminate).
  destruct (validate_data_returns _ NE Fc) as [vr V]. exists vr.
  split; [exact V|].
  destruct (validate_data_list_state _ _ NE V) as (st & L & Iv & Ie & _).
  destruct (validate_records_nth _ _ _ _ _ _ L N) as (s1 & s2 & R & E & F).
  cbn [Z.add] in R.
  rewrite (validate_record_invalid s1 _ _ _ C M A) in R. injection R as <-.
  cbn [st_valid st_errors fail_record] in E, F.
  split; [rewrite Iv; auto|]. split.
  - rewrite Ie. apply E. apply in_or_app. right. left. reflexivity.
  - intros I. destruct (validated_passes _ _ _ V I) as (r' & _ & _ & P).
    rewrite (invalid_fields_failing _ M) in P. injection P as P. auto.
Qed.

Lemma X6_witness :
  exists vr,
    validate_data (VList [scenario_A_row; out_of_range_row]) = Ok vr
    /\ is_valid vr = false
    /\ In (VStr ("ERROR: Invalid value for the field(s): engagement_score"
                 ++ " in row 2. Please correct and resubmit."))
          (errors vr).
Proof.
  destruct (X6_invalid_values_reported [scenario_A_row; out_of_range_row] 1
              out_of_range_row
              (typed_row "CAMP602" 150 0.20 6 1400 1300 28 280 310 2000 340)
              ltac:(repeat constructor; eexists; vm_compute; reflexivity)
              eq_refl ltac:(vm_compute; reflexivity)
              ltac:(vm_compute; reflexivity)
              ltac:(vm_compute; discriminate))
    as (vr & V & H1 & H2 & _).
  exists vr. split; [exact V|]. split; [exact H1 | exact H2].
Defined.

(** What the loop body adds to [errors] does not depend on the state. *)
Lemma validate_record_errors st idx record st' :
  validate_record st idx record = Ok st' ->
  st_errors st' = (st_errors st ++ errors_of idx record)%list.
Proof.
  unfold errors_of, validate_record.
  destruct (_convert_field_types record) as [c|]; cbn [bind]; [|discriminate].
  destruct (missing_fields c).
  - destruct (invalid_fields c field_validations) as [[|i0 i1]|]; cbn [bind];
      try discriminate; intros H; injection H as <-;
      cbn [fail_record st_errors app]; [rewrite app_nil_r|]; reflexivity.
  - intros H; injection H as <-. reflexivity.
Qed.

Lemma validate_records_errors records : forall st s st',
  validate_records st (Z.of_nat s) records = Ok st' ->
  st_errors st'
  = (st_errors st
     ++ List.concat
          (map (fun p => errors_of (Z.of_nat (fst p)) (snd p))
               (combine (seq s (List.length records)) records)))%list.
Proof.
  induction records as [|r rest IH]; intros st s st' H;
    cbn [validate_records] in H.
  - injection H as <-. cbn. rewrite app_nil_r. reflexivity.
  - destruct (validate_record st (Z.of_nat s) r) as [st1|] eqn:R;
      cbn [bind] in H; [|discriminate].
    replace (Z.of_nat s + 1) with (Z.of_nat (S s)) in H by lia.
    rewrite (IH _ _ _ H), (validate_record_errors _ _ _ _ R).
    cbn [List.length seq combine map List.concat fst snd].
    rewrite app_assoc. reflexivity.
Qed.

(** X7: records are validated one by one: the [errors] of a batch are, in
    the order of the records, the errors each record gives when validated
    alone under its index - at most one message a record - and the valid
    records are the accepted ones in the same order. *)
Theorem X7_errors_in_record_order records vr :
  records <> [] -> validate_data (VList records) = Ok vr ->
  errors vr
  = List.concat
      (map (fun p => errors_of (Z.of_nat (fst p)) (snd p))
           (combine (seq 0 (List.length records)) records))
  /\ (forall idx record, (List.length (errors_of idx record) <= 1)%nat)
  /\ exists verdicts,
       check_records records = Ok verdicts /\ data vr = somes verdicts.
Proof.
  intros N V.
  destruct (validate_data_list_state _ _ N V) as (st & L & _ & Ie & _).
  split; [|split].
  - rewrite Ie. apply (validate_records_errors records _ 0%nat _ L).
  - intros idx record. unfold errors_of, validate_record.
    destruct (_convert_field_types record) as [c|]; cbn [bind]; [|cbn; lia].
    destruct (missing_fields c); [|cbn; lia].
    destruct (invalid_fields c field_validations) as [[|i0 i1]|]; cbn; lia.
  - destruct (validate_data_list _ _ N V) as (vs & C & _ & D). eauto.
Qed.

Lemma X7_witness :
  exists vr,
    validate_data (VList [out_of_range_row; scenario_A_row; no_revenue_row])
    = Ok vr
    /\ errors vr
       = [ VStr ("ERROR: Invalid value for the field(s): engagement_score"
                 ++ " in row 1. Please correct and resubmit.");
           VStr "ERROR: Missing required field(s): revenue_generated in row 3." ]
    /\ data vr = [scenario_A_converted].
Proof.
  eexists. split; [vm_compute; reflexivity|].
  destruct (X7_errors_in_record_order
              [out_of_range_row; scenario_A_row; no_revenue_row] _
              ltac:(discriminate) ltac:(vm_compute; reflexivity))
    as (E & _ & _).
  split; [exact E | reflexivity].
Defined.

Lemma validate_records_accounting records : forall st idx st',
  validate_records st idx records = Ok st' ->
  (List.length (st_errors st') + List.length (st_validated st')
   = List.length (st_errors st) + List.length (st_validated st)
     + List.length records)%nat
  /\ ((st_valid st = true <-> st_errors st = []) ->
      (st_valid st' = true <-> st_errors st' = [])).
Proof.
  induction records as [|r rest IH]; intros st idx st' H;
    cbn [validate_records] in H.
  - injection H as <-. cbn [List.length]. split; [lia | auto].
  - destruct (validate_record st idx r) as [st1|] eqn:R; cbn [bind] in H;
      [|discriminate].
    apply validate_record_check in R as (v & _ & V1 & D1 & E1).
    apply IH in H as [H1 H2]. split.
    + rewrite H1, E1, D1, length_app. cbn [List.length].
      destruct v; cbn [is_some List.length]; lia.
    + intros Inv. apply H2. rewrite V1. destruct v; cbn [is_some] in *.
      * rewrite andb_true_r, Inv.
        destruct (st_errors st), (st_errors st1); cbn in E1; try lia;
          split; intros; try reflexivity; discriminate.
      * rewrite andb_false_r. split; [discriminate|].
        intros Z. rewrite Z in E1. cbn in E1. lia.
Qed.

Lemma validate_record_error_text st idx record st' :
  validate_record st idx record = Ok st' ->
  Forall is_error_text (st_errors st) -> Forall is_error_text (st_errors st').
Proof.
  unfold validate_record.
  destruct (_convert_field_types record) as [c|]; cbn [bind]; [|discriminate].
  destruct (missing_fields c).
  - destruct (invalid_fields c field_validations) as [[|i0 i1]|]; cbn [bind];
      try discriminate; intros H; injection H as <-;
      cbn [fail_record st_errors]; auto.
    intros F. apply Forall_app. split; [exact F|]. constructor; [|constructor].
    eexists. split; reflexivity.
  - intros H; injection H as <-. cbn [fail_record st_errors].
    intros F. apply Forall_app. split; [exact F|]. constructor; [|constructor].
    eexists. split; reflexivity.
Qed.

Lemma validate_records_error_text records : forall st idx st',
  validate_records st idx records = Ok st' ->
  Forall is_error_text (st_errors st) -> Forall is_error_text (st_errors st').
Proof.
  induction records as [|r rest IH]; intros st idx st' H F;
    cbn [validate_records] in H.
  - injection H as <-. exact F.
  - destruct (validate_record st idx r) as [st1|] eqn:R; cbn [bind] in H;
      [|discriminate].
    eapply IH; eauto. eapply validate_record_error_text; eauto.
Qed.

(** What [validate_data] returns: an early rejection with one error, or the
    state the record loop ends in. *)
Lemma validate_data_state parsed vr :
  validate_data parsed = Ok vr ->
  (is_valid vr = false /\ errors vr <> [] /\ data vr = [])
  \/ exists records st,
       iterate parsed = Ok records
       /\ validate_records (mk_loop_state true [] []) 0 records = Ok st
       /\ is_valid vr = st_valid st /\ errors vr = st_errors st
       /\ data vr = st_validated st.
Proof.
  intros H. unfold validate_data in H.
  destruct (negb (truthy parsed));
    [injection H as <-; left; repeat split; discriminate|].
  destruct (match parsed with VDict d => dict_get "error" d | _ => None end);
    [injection H as <-; left; repeat split; discriminate|].
  destruct (py_len parsed) as [n|]; cbn [bind] in H; [|discriminate].
  destruct (first_item parsed) as [r0|]; cbn [bind] in H; [|discriminate].
  destruct (py_len r0) as [nf|]; cbn [bind] in H; [|discriminate].
  destruct (iterate parsed) as [records|]; cbn [bind] in H; [|discriminate].
  destruct (validate_records _ 0 records) as [st|] eqn:L; cbn [bind] in H;
    [|discriminate].
  destruct (build_report _ _ _ _) as [text|]; cbn [bind] in H; [|discriminate].
  injection H as <-. right. exists records, st. auto.
Qed.

(** X8: whatever the payload, when [validate_data] returns, [is_valid] is
    true exactly when [errors] is empty; on a non-empty list of records
    every record is either reported by one error or kept as valid - the
    errors and the valid records add up to the number of records - and
    every error text starts with [ERROR: ]. *)
Theorem X8_errors_accounting parsed vr :
  validate_data parsed = Ok vr ->
  (is_valid vr = true <-> errors vr = [])
  /\ (forall records, parsed = VList records -> records <> [] ->
        (List.length (errors vr) + List.length (data vr)
         = List.length records)%nat
        /\ Forall is_error_text (errors vr)).
Proof.
  intros V. split.
  - destruct (validate_data_state _ _ V)
      as [(I & E & _) | (records & st & _ & L & I & E & _)].
    + rewrite I. split; [discriminate | contradiction].
    + rewrite I, E.
      apply (validate_records_accounting _ _ _ _ L). cbn. tauto.
  - intros records -> N.
    destruct (validate_data_list_state _ _ N V) as (st & L & _ & E & D).
    rewrite E, D. split.
    + apply validate_records_accounting in L as [L _]. cbn in L. exact L.
    + apply (validate_records_error_text _ _ _ _ L). constructor.
Qed.

Lemma X8_witness :
  exists vr,
    validate_data (VList [out_of_range_row; scenario_A_row; no_revenue_row])
    = Ok vr
    /\ (is_valid vr = true <-> errors vr = [])
    /\ (List.length (errors vr) + List.length (data vr) = 3)%nat.
Proof.
  eexists. split; [vm_compute; reflexivity|].
  destruct (X8_errors_accounting
              (VList [out_of_range_row; scenario_A_row; no_revenue_row]) _
              ltac:(vm_compute; reflexivity)) as [A B].
  split; [exact A|].
  exact (proj1 (B _ eq_refl ltac:(discriminate))).
Defined.

(** ** The coercer: fields and exceptions *)

Lemma dict_get_app_fresh k v d :
  dict_get k d = None -> dict_set k v d = (d ++ [(k, v)])%list.
Proof.
  induction d as [|[k' v'] d IH]; cbn [dict_get dict_set app]; [reflexivity|].
  destruct (String.eqb k k'); [discriminate|]. intros H. rewrite IH; auto.
Qed.

Lemma dict_get_app k (d1 d2 : dict) :
  dict_get k (d1 ++ d2)%list
  = match dict_get k d1 with Some v => Some v | None => dict_get k d2 end.
Proof.
  induction d1 as [|[k' v'] d1 IH]; cbn [dict_get app]; [reflexivity|].
  destruct (String.eqb k k'); auto.
Qed.

Lemma dict_get_none_keys k d : dict_get k d = None <-> ~ In k (map fst d).
Proof.
  induction d as [|[k' v'] d IH]; cbn [dict_get map fst In]; [tauto|].
  destruct (String.eqb_spec k k') as [->|N]; split.
  - discriminate.
  - intros H. exfalso. apply H. auto.
  - intros H [E|I]; [congruence|]. apply IH in H. auto.
  - intros H. apply IH. intros I. apply H. auto.
Qed.

(** With distinct keys, none of them in use, the loop of the coercer
    appends the converted items one by one. *)
Lemma convert_items_app items : forall acc converted,
  NoDup (map fst items) ->
  (forall k, In k (map fst items) -> dict_get k acc = None) ->
  convert_items items acc = Ok converted ->
  exists items',
    converted = (acc ++ items')%list
    /\ Forall2 (fun kv kv' =>
                  fst kv' = fst kv
                  /\ convert_value (fst kv) (snd kv) = Ok (snd kv'))
               items items'.
Proof.
  induction items as [|[key value] rest IH]; intros acc converted N F H;
    cbn [convert_items] in H.
  - injection H as <-. exists []. rewrite app_nil_r. split; constructor.
  - destruct (convert_value key value) as [v'|] eqn:C; cbn [bind] in H;
      [|discriminate].
    cbn [map fst] in N. apply NoDup_cons_iff in N as [N1 N2].
    rewrite (dict_get_app_fresh key v' acc) in H
      by (apply F; left; reflexivity).
    assert (F' : forall k, In k (map fst rest) ->
                 dict_get k (acc ++ [(key, v')])%list = None).
    { intros k I. rewrite dict_get_app, (F k) by (right; exact I).
      cbn [dict_get]. destruct (String.eqb_spec k key) as [->|]; [|reflexivity].
      contradiction. }
    destruct (IH _ _ N2 F' H) as (items' & -> & F2).
    exists ((key, v') :: items'). rewrite <- app_assoc. split; [reflexivity|].
    constructor; [|exact F2]. cbn [fst snd]. auto.
Qed.

Lemma count_field_validated key :
  mem_string key count_fields = true -> validated_key key = true.
Proof.
  unfold mem_string, validated_key, mem_string. intros H.
  apply existsb_exists in H as (x & I & E). apply String.eqb_eq in E. subst x.
  cbn in I. destruct I as [<-|[<-|[<-|[]]]]; reflexivity.
Qed.

Lemma convert_value_other key v :
  validated_key key = false -> convert_value key v = Ok v.
Proof.
  intros H. unfold convert_value.
  destruct (mem_string key count_fields) eqn:C.
  - apply count_field_validated in C. congruence.
  - unfold validated_key in H. rewrite H. reflexivity.
Qed.

(** X9: the coercer neither adds, drops nor reorders fields: the converted
    record has the keys of the record in the same order, each value is the
    conversion of the value under the same key, and a value under a key
    that is not one of the ten validated fields ([campaign_id], or a field
    the schema does not know) is kept as it is. *)
Theorem X9_coercer_keeps_fields items converted :
  NoDup (map fst items) ->
  _convert_field_types (VDict items) = Ok converted ->
  map fst converted = map fst items
  /\ Forall2 (fun kv kv' => convert_value (fst kv) (snd kv) = Ok (snd kv'))
             items converted
  /\ (forall k v, In (k, v) items -> validated_key k = false ->
                  In (k, v) converted).
Proof.
  intros N H. cbn [_convert_field_types] in H.
  destruct (convert_items_app items [] converted N ltac:(reflexivity) H)
    as (items' & -> & F).
  cbn [app]. clear H N. induction F as [|[k v] [k' v'] l l' [E C] F IH].
  - repeat split; auto.
  - cbn [fst snd] in E, C. subst k'. destruct IH as (K & V & O).
    split; [cbn [map fst]; f_equal; exact K|].
    split; [constructor; [exact C | exact V]|].
    intros k0 v0 [I|I] U.
    + injection I as <- <-. rewrite (convert_value_other k v U) in C.
      injection C as <-. left. reflexivity.
    + right. apply O; assumption.
Qed.

Lemma X9_witness :
  exists converted,
    _convert_field_types
      (VDict [ ("campaign_id", VStr "007"); ("customers_end", VStr "330.9");
               ("notes", VStr "12"); ("budget_usd", VStr "1500") ])
    = Ok converted
    /\ map fst converted = ["campaign_id"; "customers_end"; "notes"; "budget_usd"]
    /\ In ("campaign_id", VStr "007") converted
    /\ In ("notes", VStr "12") converted.
Proof.
  eexists. split; [vm_compute; reflexivity|].
  destruct (X9_coercer_keeps_fields
              [ ("campaign_id", VStr "007"); ("customers_end", VStr "330.9");
                ("notes", VStr "12"); ("budget_usd", VStr "1500") ] _
              ltac:(repeat constructor; cbn; intuition discriminate)
              ltac:(vm_compute; reflexivity)) as (K & _ & O).
  split; [exact K|]. split.
  - apply O; [left; reflexivity | reflexivity].
  - apply O; [right; right; left; reflexivity | reflexivity].
Defined.

Lemma validated_key_not_id key :
  validated_key key = true -> String.eqb key "campaign_id" = false.
Proof.
  unfold validated_key, mem_string. intros H.
  apply existsb_exists in H as (x & I & E). apply String.eqb_eq in E. subst x.
  cbn in I.
  repeat (destruct I as [<-|I]; [reflexivity|]). contradiction.
Qed.

Lemma int_of_float_overflow f :
  int_of_float f = Raise OverflowError <-> is_infinite f = true.
Proof.
  unfold int_of_float, is_infinite.
  destruct (Prim2SF f); split; intros H; try discriminate; reflexivity.
Qed.

Lemma convert_value_overflows key v :
  (exists e, convert_value key v = Raise e) <-> overflows key v.
Proof.
  unfold overflows, convert_value. split.
  - intros [e H]. destruct (mem_string key count_fields) eqn:C.
    + split; [apply count_field_validated; exact C|].
      destruct (py_float v) as [f|e1] eqn:F; cbn [bind] in H.
      * right. split; [reflexivity|]. exists f. split; [reflexivity|].
        destruct (int_of_float f) as [z|e2] eqn:I; cbn in H; [discriminate|].
        apply int_of_float_overflow.
        destruct (int_of_float_raises _ _ I) as [-> | ->];
          [discriminate | exact I].
      * left. destruct (py_float_raises _ _ F) as [-> | [-> | ->]];
          try discriminate. reflexivity.
    + fold (validated_key key) in H.
      destruct (validated_key key) eqn:V; cbn [andb] in H; [|discriminate].
      split; [reflexivity|]. left.
      destruct (negb (key =? "campaign_id")%string); [|discriminate].
      destruct (py_float v) as [f|e1] eqn:F; cbn [bind] in H; [discriminate|].
      destruct (py_float_raises _ _ F) as [-> | [-> | ->]];
        try discriminate. reflexivity.
  - intros [V [F | (C & f & F & I)]].
    + exists OverflowError. rewrite F. fold (validated_key key).
      rewrite V, (validated_key_not_id _ V).
      destruct (mem_string key count_fields); reflexivity.
    + exists OverflowError. rewrite C, F. cbn [bind].
      apply int_of_float_overflow in I. rewrite I. reflexivity.
Qed.

Lemma convert_items_overflows items : forall acc,
  (exists e, convert_items items acc = Raise e)
  <-> Exists (fun kv => overflows (fst kv) (snd kv)) items.
Proof.
  induction items as [|[key value] rest IH]; intros acc; cbn [convert_items].
  - split; [intros [e H]; discriminate | intros H; inversion H].
  - rewrite Exists_cons. cbn [fst snd].
    rewrite <- convert_value_overflows.
    destruct (convert_value key value) as [v'|e1]; cbn [bind].
    + rewrite IH. split; [auto|]. intros [[e H]|H]; [discriminate | exact H].
    + split; eauto.
Qed.

Lemma py_float_overflow v :
  py_float v = Raise OverflowError ->
  exists z, v = VInt z /\ largest_int < Z.abs z.
Proof.
  destruct v as [|b|z|f|s|l|d]; cbn [py_float]; try discriminate.
  - intros H. exists z. split; [reflexivity|].
    destruct (Z_lt_le_dec largest_int (Z.abs z)) as [L|L]; [exact L|].
    rewrite (float_of_int_finite z L) in H. discriminate.
  - destruct (FloatParse.float_of_string s); discriminate.
Qed.

(** X10: the one way the coercer fails.  It raises exactly when some field
    overflows: a validated field whose value [float()] cannot hold - which
    only an [int] beyond the largest binary64 is - or a count field whose
    value is an infinity as a float, which [int()] refuses with
    [OverflowError]. *)
Theorem X10_coercer_overflow items :
  ((exists e, _convert_field_types (VDict items) = Raise e)
   <-> Exists (fun kv => overflows (fst kv) (snd kv)) items)
  /\ (forall v, py_float v = Raise OverflowError ->
        exists z, v = VInt z /\ largest_int < Z.abs z).
Proof.
  split; [apply convert_items_overflows | apply py_float_overflow].
Qed.

Lemma X10_witness :
  exists e, _convert_field_types inf_count_row = Raise e.
Proof.
  apply (proj1 (X10_coercer_overflow _)).
  do 7 apply Exists_cons_tl. apply Exists_cons_hd.
  split; [reflexivity|]. right. split; [reflexivity|].
  exists infinity. split; vm_compute; reflexivity.
Defined.

Lemma positive_int_pos z : 0 < z -> positive_int (VInt z) = Ok true.
Proof.
  intros H. unfold positive_int, compare_with. cbn [as_num num_compare bind].
  destruct (Z.compare_spec z 0); try lia. reflexivity.
Qed.

Lemma holds_passes converted r :
  holds converted r -> in_domain r ->
  missing_fields converted = []
  /\ invalid_fields converted field_validations = Ok [].
Proof.
  intros (G0 & G1 & G2 & G3 & G4 & G5 & G6 & G7 & G8 & G9 & G10)
         (D1 & D2 & D3 & D4 & D5 & D6 & D7 & D8 & D9 & D10).
  split.
  - unfold missing_fields.
    assert (A : forall l,
               Forall (fun f => negb (dict_mem f converted) = false) l ->
               filter (fun field => negb (dict_mem field converted)) l = []).
    { induction 1 as [|f l Hf _ IH]; cbn [filter]; [reflexivity|].
      rewrite Hf. exact IH. }
    apply A. unfold required_fields, dict_mem.
    repeat apply Forall_cons; try apply Forall_nil;
      rewrite ?G0, ?G1, ?G2, ?G3, ?G4, ?G5, ?G6, ?G7, ?G8, ?G9, ?G10;
      reflexivity.
  - unfold field_validations. cbn [invalid_fields].
    unfold field_invalid, dict_item. cbn [fst snd].
    rewrite G1, G2, G3, G4, G5, G6, G7, G8, G9, G10. cbn [bind].
    rewrite D1, D2, D3, D4, D5, D9, D10.
    rewrite !positive_int_pos by lia. reflexivity.
Qed.

(** X11: what it takes to be valid.  A record joins the valid records
    exactly when the coercer returns on it and the converted record is
    typed - a float under each of the seven measure fields, an [int] under
    each of the three count fields, any value under [campaign_id] - with
    every value in its range. *)
Theorem X11_valid_iff_typed_in_range record converted :
  passes record converted
  <-> _convert_field_types record = Ok converted
      /\ exists r, holds converted r /\ in_domain r.
Proof.
  split.
  - intros P. split; [exact (proj1 P) | apply (passes_typed record); exact P].
  - intros (C & r & H & D). destruct (holds_passes _ _ H D) as [M V].
    repeat split; assumption.
Qed.

Lemma X11_witness :
  passes scenario_A_row scenario_A_converted.
Proof.
  apply (proj2 (X11_valid_iff_typed_in_range scenario_A_row scenario_A_converted)).
  split; [vm_compute; reflexivity|].
  exists (mk_CampaignRecord (VStr "CAMP601") 80 0.25 7 1500 1400 30 300 330
                            2100 350).
  split; [repeat split|].
  unfold in_domain. cbn.
  repeat split; try (vm_compute; reflexivity); vm_compute; discriminate.
Defined.

(** ** Values and metrics of valid records *)

Lemma exact_negative m e : fst (exact true m e) < 0.
Proof.
  unfold exact, scale. destruct (Z.leb_spec 0 (- e)); cbn [fst]; [lia|].
  pose proof (Binary64Facts.pow2_pos (- - e) ltac:(lia)). nia.
Qed.

(** [x > 0] on a float: a positive number or the positive infinity. *)
Lemma positive_float_sign f :
  positive (VFloat f) = Ok true ->
  sign_is false (Prim2SF f) /\ (0 <? f)%float = true.
Proof.
  unfold positive, compare_with. cbn [as_num bind num_compare].
  rewrite ltb_spec, Prim2SF_zero.
  destruct (Prim2SF f) as [s|s| |s m e]; cbn [SF_compare_Z is_gt sign_is];
    intros H; try discriminate.
  - destruct s; [discriminate|]. split; reflexivity.
  - destruct s; [|split; reflexivity].
    pose proof (exact_negative m e) as N.
    destruct (exact true m e) as [n d]. cbn [fst] in N.
    destruct (Z.compare_spec n (0 * d)); try discriminate; lia.
Qed.

Lemma positive_float_iff f :
  positive (VFloat f) = Ok true <-> (0 <? f)%float = true.
Proof.
  split; [apply positive_float_sign|].
  unfold positive, compare_with. cbn [as_num bind num_compare].
  rewrite ltb_spec, Prim2SF_zero.
  destruct (Prim2SF f) as [s|s| |s m e]; cbn [SF_compare_Z is_gt];
    try (destruct s); cbn; try discriminate; try reflexivity.
  intros _. unfold exact, scale.
  destruct (Z.leb_spec 0 (- e)); cbn [fst snd is_gt].
  - reflexivity.
  - pose proof (Binary64Facts.pow2_pos (- - e) ltac:(lia)).
    pose proof (Pos2Z.is_pos m).
    destruct (Z.compare_spec (Zpos m * 2 ^ (- - e)) 0);
      try reflexivity; nia.
Qed.

(** A float that passes [lo <= x <= hi] is neither NaN nor an infinity. *)
Lemma between_float_finite lo hi f :
  between lo hi (VFloat f) = Ok true -> finite_float f = true.
Proof.
  unfold between, compare_with, finite_float.
  cbn [as_num bind num_compare].
  destruct (Prim2SF f) as [s|s| |s m e]; cbn [SF_compare_Z is_ge is_le];
    try reflexivity; try discriminate.
  destruct s; cbn; discriminate.
Qed.

(** X12: no NaN is ever validated.  In a valid record the engagement score
    and the conversion rate are finite floats, and the five positive
    measures are greater than zero as floats - positive numbers or the
    positive infinity, which [x > 0] accepts - and the three counts are
    positive integers. *)
Theorem X12_valid_values parsed vr converted :
  validate_data parsed = Ok vr -> In converted (data vr) ->
  exists r,
    holds converted r
    /\ finite_float (r_engagement_score r) = true
    /\ finite_float (r_conversion_rate r) = true
    /\ (0 <? r_predictive_roi r)%float = true
    /\ (0 <? r_budget_usd r)%float = true
    /\ (0 <? r_total_campaign_spend r)%float = true
    /\ 0 < r_new_customers_acquired r
    /\ 0 < r_customers_start r
    /\ 0 < r_customers_end r
    /\ (0 <? r_revenue_generated r)%float = true
    /\ (0 <? r_advertising_spend r)%float = true.
Proof.
  intros V I. destruct (validated_passes _ _ _ V I) as (record & P).
  destruct (passes_typed _ _ P) as (r & H & D). exists r.
  destruct D as (D1 & D2 & D3 & D4 & D5 & D6 & D7 & D8 & D9 & D10).
  split; [exact H|].
  repeat split; try lia;
    try (eapply between_float_finite; eassumption);
    apply positive_float_iff; assumption.
Qed.

Lemma X12_witness :
  exists vr r,
    validate_data (VList [scenario_A_row]) = Ok vr
    /\ holds scenario_A_converted r
    /\ finite_float (r_engagement_score r) = true
    /\ (0 <? r_budget_usd r)%float = true.
Proof.
  destruct (validate_data (VList [scenario_A_row])) as [vr|] eqn:V;
    [|vm_compute in V; discriminate].
  assert (I : In scenario_A_converted (data vr)).
  { vm_compute in V. injection V as <-. left. reflexivity. }
  destruct (X12_valid_values (VList [scenario_A_row]) vr scenario_A_converted
              V I) as (r & H & E & _ & _ & B & _).
  exists vr, r. auto.
Defined.

Lemma SFdiv_core_nonneg m1 e1 m2 e2 :
  0 <= fst (fst (SFdiv_core_binary prec emax (Zpos m1) e1 (Zpos m2) e2)).
Proof.
  unfold SFdiv_core_binary.
  match goal with
  | |- context [Z.div_eucl ?a ?b] =>
      assert (A : 0 <= a);
      [| pose proof (Z_div_mod a b ltac:(lia)) as D;
         destruct (Z.div_eucl a b) as [q r]; cbn [fst]; nia ]
  end.
  match goal with
  | |- 0 <= match ?s with _ => _ end => destruct s
  end; [lia | apply Z.shiftl_nonneg; lia | lia].
Qed.

Lemma sign_not_negative x : sign_is false x -> not_negative x.
Proof. destruct x; cbn; auto. Qed.

Lemma SFdiv_finite_sign x m e :
  sign_is false x -> sign_is false (SFdiv prec emax x (S754_finite false m e)).
Proof.
  destruct x as [s|s| |s m' e']; cbn [sign_is]; intros H; try contradiction;
    subst s; cbn [SFdiv xorb sign_is]; try reflexivity.
  pose proof (SFdiv_core_nonneg m' e' m e) as N.
  destruct (SFdiv_core_binary prec emax (Zpos m') e' (Zpos m) e) as [[mz ez] lz].
  cbn [fst] in N. apply binary_round_aux_sign. exact N.
Qed.

Lemma SFdiv_not_negative x y :
  sign_is false x -> sign_is false y -> not_negative (SFdiv prec emax x y).
Proof.
  destruct y as [s|s| |s m e]; cbn [sign_is]; intros Hx Hy; try contradiction;
    subst s.
  - destruct x as [s'|s'| |s' m' e']; cbn [sign_is] in Hx; try contradiction;
      subst s'; cbn; auto.
  - destruct x as [s'|s'| |s' m' e']; cbn [sign_is] in Hx; try contradiction;
      subst s'; cbn; auto.
  - apply sign_not_negative, SFdiv_finite_sign. exact Hx.
Qed.

Lemma round2_not_negative f :
  not_negative (Prim2SF f) -> not_negative (Prim2SF (round2 f)).
Proof.
  intros H. destruct (Prim2SF f) as [s|s| |s m e] eqn:E.
  - apply sign_not_negative, round2_sign. rewrite E. exact H.
  - apply sign_not_negative, round2_sign. rewrite E. exact H.
  - unfold round2. rewrite E, E. exact I.
  - apply sign_not_negative, round2_sign. rewrite E. exact H.
Qed.

(** The float of a count is a positive finite number. *)
Lemma Z2float_count z :
  0 < z <= largest_int ->
  exists m e, Prim2SF (Z2float z) = S754_finite false m e.
Proof.
  intros H. unfold Z2float.
  replace (z <? 0) with false by (symmetry; apply Z.ltb_ge; lia).
  rewrite Z.abs_eq by lia. rewrite Prim2SF_of_ratio by lia.
  pose proof (Binary64Facts.SF_of_ratio_rounded false z 1 ltac:(lia) ltac:(lia)) as R.
  pose proof (Binary64Facts.SF_of_ratio_finite false z 1) as Fi.
  pose proof (Binary64Facts.SF_of_ratio_nonzero false z 1) as Nz.
  destruct R as [| |m e B].
  - exfalso. eapply Nz; [lia | lia | eauto].
  - exfalso. eapply Fi; [lia | lia | lia | eauto].
  - eauto.
Qed.

Lemma leb_zero_of_sign f : sign_is false (Prim2SF f) -> (0 <=? f)%float = true.
Proof.
  rewrite leb_spec, Prim2SF_zero.
  destruct (Prim2SF f) as [s|s| |s m e]; cbn [sign_is]; intros H;
    try contradiction; subst s; reflexivity.
Qed.

Lemma ltb_zero_of_not_negative f :
  not_negative (Prim2SF f) -> (f <? 0)%float = false.
Proof.
  rewrite ltb_spec, Prim2SF_zero.
  destruct (Prim2SF f) as [s|s| |s m e]; cbn [not_negative sign_is]; intros H;
    try subst s; reflexivity.
Qed.

Lemma cac_sign r :
  in_domain r -> sign_is false (Prim2SF (cac (metrics r))).
Proof.
  intros (_ & _ & _ & _ & Ds & Dn & _).
  cbn [metrics cac]. apply round2_sign. rewrite div_spec.
  destruct (Z2float_count _ Dn) as (m & e & ->).
  apply SFdiv_finite_sign. apply positive_float_sign. exact Ds.
Qed.

Lemma roas_not_negative r :
  in_domain r -> not_negative (Prim2SF (roas (metrics r))).
Proof.
  intros (_ & _ & _ & _ & _ & _ & _ & _ & Dr & Da).
  cbn [metrics roas]. apply round2_not_negative. rewrite div_spec.
  apply SFdiv_not_negative; apply positive_float_sign; assumption.
Qed.

Lemma retention_not_shrinking r :
  in_domain r -> r_new_customers_acquired r <= r_customers_end r ->
  sign_is false (Prim2SF (retention_rate (metrics r))).
Proof.
  intros (_ & _ & _ & _ & _ & Dn & Ds & De & _) Hle.
  cbn [metrics retention_rate].
  apply round2_sign. rewrite mul_spec.
  change (Prim2SF 100) with (S754_finite false 7036874417766400 (-46)).
  apply SFmul_sign. unfold Zdiv2float.
  assert (S : xorb (r_customers_end r - r_new_customers_acquired r <? 0)
                   (r_customers_start r <? 0) = false).
  { destruct (Z.ltb_spec (r_customers_end r - r_new_customers_acquired r) 0);
      destruct (Z.ltb_spec (r_customers_start r) 0); try lia; reflexivity. }
  rewrite S, Prim2SF_of_ratio by lia.
  apply rounded_sign. apply Binary64Facts.SF_of_ratio_rounded; lia.
Qed.

(** X13: signs of the basic metrics of a valid record.  The customer
    acquisition cost is a float greater than or equal to zero (never NaN),
    the return on advertising spend is never negative (it is NaN when
    revenue and spend are both infinite), and the retention rate is
    greater than or equal to zero whenever the customers at the end are at
    least the customers acquired. *)
Theorem X13_metric_signs parsed vr converted :
  validate_data parsed = Ok vr -> In converted (data vr) ->
  exists r a,
    holds converted r
    /\ analyze_campaign thresholds converted = Ok a
    /\ (0 <=? cac a)%float = true
    /\ (roas a <? 0)%float = false
    /\ (r_new_customers_acquired r <= r_customers_end r ->
        (0 <=? retention_rate a)%float = true).
Proof.
  intros V I. destruct (validated_passes _ _ _ V I) as (record & P).
  destruct (passes_typed _ _ P) as (r & H & D).
  exists r, (metrics r). split; [exact H|].
  split; [apply analyze_metrics; assumption|].
  split; [apply leb_zero_of_sign, cac_sign; exact D|].
  split; [apply ltb_zero_of_not_negative, roas_not_negative; exact D|].
  intros L. apply leb_zero_of_sign, retention_not_shrinking; assumption.
Qed.

Lemma X13_witness :
  exists vr r a,
    validate_data (VList [scenario_A_row]) = Ok vr
    /\ holds scenario_A_converted r
    /\ analyze_campaign thresholds scenario_A_converted = Ok a
    /\ (0 <=? cac a)%float = true
    /\ (roas a <? 0)%float = false.
Proof.
  destruct (validate_data (VList [scenario_A_row])) as [vr|] eqn:V;
    [|vm_compute in V; discriminate].
  assert (I : In scenario_A_converted (data vr)).
  { vm_compute in V. injection V as <-. left. reflexivity. }
  destruct (X13_metric_signs (VList [scenario_A_row]) vr scenario_A_converted
              V I) as (r & a & H & A & C & R & _).
  exists vr, r, a. auto.
Defined.

(** ** The pipeline on valid batches *)

Lemma string_app_assoc (a b c : string) : ((a ++ b) ++ c = a ++ (b ++ c))%string.
Proof. induction a as [|x a IH]; cbn [append]; [|rewrite IH]; reflexivity. Qed.

Lemma check_records_passing records : forall verdicts,
  check_records records = Ok verdicts ->
  forallb is_some verdicts = true ->
  Forall2 passes records (somes verdicts).
Proof.
  induction records as [|record rest IH]; intros verdicts H A;
    cbn [check_records] in H.
  - injection H as <-. constructor.
  - destruct (check_record record) as [v|] eqn:Cv; cbn [bind] in H; [|discriminate].
    destruct (check_records rest) as [vs|] eqn:Cvs; cbn [bind] in H; [|discriminate].
    injection H as <-. cbn [forallb] in A. apply andb_prop in A as [A1 A2].
    destruct v as [c|]; [|discriminate]. cbn [somes]. constructor.
    + apply check_record_passes. exact Cv.
    + apply IH; auto.
Qed.

Lemma analyze_passing records convs :
  Forall2 passes records convs ->
  exists analyses,
    analyze_campaigns thresholds convs = Ok analyses
    /\ Forall2 (fun record a =>
                  exists converted r,
                    passes record converted /\ holds converted r
                    /\ in_domain r /\ a = metrics r)
               records analyses.
Proof.
  induction 1 as [|record conv records convs P _ (analyses & A & F)].
  - exists []. split; [reflexivity | constructor].
  - destruct (passes_typed _ _ P) as (r & H & D).
    exists (metrics r :: analyses). cbn [analyze_campaigns].
    rewrite (analyze_metrics _ _ H D), A. cbn [bind]. split; [reflexivity|].
    constructor; [|exact F]. exists conv, r. auto.
Qed.

Lemma build_report_valid n m errs :
  exists body,
    build_report n m true errs
    = Ok (body ++ "Validation Summary:" ++ nl ++ success_text).
Proof.
  unfold build_report. cbn [bind]. eexists. f_equal.
  rewrite <- !string_app_assoc. reflexivity.
Qed.

Lemma validate_data_valid_report records vr :
  records <> [] -> validate_data (VList records) = Ok vr ->
  is_valid vr = true ->
  exists body, report vr = body ++ "Validation Summary:" ++ nl ++ success_text.
Proof.
  intros N H T. unfold validate_data in H.
  destruct records as [|r0 rest]; [contradiction|].
  cbn [truthy negb py_len first_item iterate bind] in H.
  destruct (py_len r0) as [nf|]; cbn [bind] in H; [|discriminate].
  destruct (validate_records _ 0 (r0 :: rest)) as [st|] eqn:L; cbn [bind] in H;
    [|discriminate].
  destruct (build_report _ _ _ _) as [text|] eqn:B; cbn [bind] in H;
    [|discriminate].
  injection H as <-. cbn [is_valid report] in *. rewrite T in B.
  destruct (build_report_valid (Z.of_nat (List.length (r0 :: rest))) nf
              (st_errors st)) as [body B'].
  rewrite B' in B. injection B as <-. eauto.
Qed.

(** X14: a batch whose records are all valid is analysed in full:
    [process_data] returns the validation report, which ends with
    [Data validation is successful!], followed by the analysis, one
    campaign per record in the order of the records, each computed by the
    formulas of the metrics engine from the converted record. *)
Theorem X14_valid_batch_analyzed json csv s records :
  parse_data json csv s = Ok (VList records) -> records <> [] ->
  Forall (fun record => exists converted, passes record converted) records ->
  exists rep analyses,
    process_data json csv thresholds s = Ok (WithAnalysis rep analyses)
    /\ Forall2 (fun record a =>
                  exists converted r,
                    passes record converted /\ holds converted r
                    /\ in_domain r /\ a = metrics r)
               records analyses
    /\ exists body, rep = body ++ "Validation Summary:" ++ nl ++ success_text.
Proof.
  intros P N F.
  assert (Fc : Forall convertible records).
  { eapply Forall_impl; [|exact F]. intros record [c Pc]. exists c. apply Pc. }
  destruct (validate_data_returns _ N Fc) as [vr V].
  destruct (validate_data_list _ _ N V) as (vs & C & Iv & D).
  assert (A : forallb is_some vs = true)
    by (apply (check_records_all _ _ C); exact F).
  rewrite A in Iv.
  destruct (analyze_passing _ _ (check_records_passing _ _ C A))
    as (analyses & An & F2).
  exists (report vr), analyses. split; [|split].
  - unfold process_data. rewrite P. cbn [bind]. rewrite V. cbn [bind].
    rewrite Iv, D, An. reflexivity.
  - exact F2.
  - apply (validate_data_valid_report _ _ N V Iv).
Qed.

Lemma X14_witness :
  exists rep analyses,
    process_data no_json plain_DictReader thresholds main_example_input
    = Ok (WithAnalysis rep analyses)
    /\ List.length analyses = 7%nat.
Proof.
  destruct (plain_DictReader (py_strip main_example_input)) as [rows|] eqn:R;
    [|vm_compute in R; discriminate].
  destruct (X14_valid_batch_analyzed no_json plain_DictReader
              main_example_input rows) as (rep & analyses & P & F & _).
  - unfold parse_data. rewrite R. reflexivity.
  - vm_compute in R. injection R as <-. discriminate.
  - vm_compute in R. injection R as <-.
    repeat (apply Forall_cons;
            [eexists; split;
             [vm_compute; reflexivity | split; vm_compute; reflexivity]|]).
    apply Forall_nil.
  - exists rep, analyses. split; [exact P|].
    apply Forall2_length in F. rewrite <- F.
    vm_compute in R. injection R as <-. reflexivity.
Defined.

(** ** The metrics engine on records that were not validated *)

(** X15: the metrics engine reads all eleven fields of a campaign: when one
    of them is absent, [analyze_campaigns] raises [KeyError] whatever the
    other fields and the thresholds are. *)
Theorem X15_analysis_needs_every_field th campaign k :
  In k required_fields -> dict_get k campaign = None ->
  analyze_campaign th campaign = Raise KeyError.
Proof.
  intros I G. unfold analyze_campaign, dict_item.
  destruct (dict_get "campaign_id" campaign) eqn:G0; [|reflexivity].
  destruct (dict_get "engagement_score" campaign) eqn:G1; [|reflexivity].
  destruct (dict_get "conversion_rate" campaign) eqn:G2; [|reflexivity].
  destruct (dict_get "predictive_roi" campaign) eqn:G3; [|reflexivity].
  destruct (dict_get "budget_usd" campaign) eqn:G4; [|reflexivity].
  destruct (dict_get "total_campaign_spend" campaign) eqn:G5; [|reflexivity].
  destruct (dict_get "new_customers_acquired" campaign) eqn:G6; [|reflexivity].
  destruct (dict_get "customers_start" campaign) eqn:G7; [|reflexivity].
  destruct (dict_get "customers_end" campaign) eqn:G8; [|reflexivity].
  destruct (dict_get "revenue_generated" campaign) eqn:G9; [|reflexivity].
  destruct (dict_get "advertising_spend" campaign) eqn:G10; [|reflexivity].
  exfalso. unfold required_fields in I. cbn [In] in I.
  repeat (destruct I as [<-|I]; [congruence|]). contradiction.
Qed.

Lemma X15_witness :
  analyze_campaigns thresholds
    [[("campaign_id", VStr "CAMP601"); ("engagement_score", VFloat 80)]]
  = Raise KeyError.
Proof.
  cbn [analyze_campaigns].
  rewrite (X15_analysis_needs_every_field thresholds _ "conversion_rate");
    [reflexivity | cbn; tauto | reflexivity].
Defined.

Lemma typed_row_analysis th id e c roi b sp n s en rev adv :
  analyze_campaign th (typed_row id e c roi b sp n s en rev adv)
  = (q_cac <- py_truediv (VFloat sp) (VInt n) ;;
     q_ret <- int_truediv (en - n) s ;;
     q_roas <- py_truediv (VFloat rev) (VFloat adv) ;;
     _ <- dict_item "composite_score" th ;;
     let cac := round2 q_cac in
     let retention_rate := round2 (q_ret * 100)%float in
     let roas := round2 q_roas in
     let composite_score :=
       round2 ((round2 (e * 0.5) + round2 (c * 100 * 0.3)
                + round2 (roi * 10 * 0.2))
               - round2 (cac * 0.05) + round2 (retention_rate * 0.1)
               + round2 (roas * 0.1))%float in
     q_eff <- py_truediv (VFloat composite_score) (VFloat b) ;;
     meets <- eval_meets_thresholds th composite_score cac retention_rate roas ;;
     Ok (mk_campaign_analysis (VStr id) cac retention_rate roas
           (round2 (e * 0.5)%float) (round2 (c * 100 * 0.3)%float)
           (round2 (roi * 10 * 0.2)%float) (round2 (cac * 0.05)%float)
           (round2 (retention_rate * 0.1)%float) (round2 (roas * 0.1)%float)
           composite_score (round2 q_eff)
           (if (0.05 <? round2 q_eff)%float then cost_effective_text
            else reassess_text)
           meets
           (if meets then "Optimal" else "Needs Improvement")
           (if meets then scale_up_text else remediation_text))).
Proof.
  unfold analyze_campaign, typed_row, dict_item.
  cbn [dict_get String.eqb Ascii.eqb Bool.eqb bind].
  destruct (py_truediv (VFloat sp) (VInt n)) as [q_cac|]; cbn [bind];
    [|reflexivity].
  unfold py_sub. cbn [as_num num_sub bind num_truediv].
  destruct (int_truediv (en - n) s) as [q_ret|]; cbn [bind]; [|reflexivity].
  unfold float_mul_int. rewrite float_of_int_100. cbn [bind].
  destruct (py_truediv (VFloat rev) (VFloat adv)) as [q_roas|]; cbn [bind];
    [|reflexivity].
  unfold mul_int, mul_float. cbn [as_num to_double bind].
  rewrite float_of_int_100, float_of_int_10. cbn [bind as_num to_double].
  reflexivity.
Qed.

(** X16: the metrics engine does not guard its divisions: on a typed
    record, a zero count of new customers, a zero count of customers at the
    start, a zero advertising spend or a zero budget makes
    [analyze_campaigns] raise [ZeroDivisionError] (the earlier divisions
    being defined).  Only the validator keeps such records away. *)
Theorem X16_zero_denominators id e c roi b sp n s en rev adv :
  analyze_campaign thresholds (typed_row id e c roi b sp 0 s en rev adv)
  = Raise ZeroDivisionError
  /\ (0 < n <= largest_int ->
      analyze_campaign thresholds (typed_row id e c roi b sp n 0 en rev adv)
      = Raise ZeroDivisionError)
  /\ (0 < n <= largest_int -> 0 < s -> Z.abs (en - n) <= largest_int ->
      (adv =? 0)%float = true ->
      analyze_campaign thresholds (typed_row id e c roi b sp n s en rev adv)
      = Raise ZeroDivisionError)
  /\ (0 < n <= largest_int -> 0 < s -> Z.abs (en - n) <= largest_int ->
      (adv =? 0)%float = false -> (b =? 0)%float = true ->
      analyze_campaign thresholds (typed_row id e c roi b sp n s en rev adv)
      = Raise ZeroDivisionError).
Proof.
  split; [|split; [|split]].
  - rewrite typed_row_analysis. reflexivity.
  - intros Hn. rewrite typed_row_analysis.
    rewrite py_truediv_float_int by exact Hn. reflexivity.
  - intros Hn Hs Hk Ha. rewrite typed_row_analysis.
    rewrite py_truediv_float_int by exact Hn. cbn [bind].
    rewrite int_truediv_ok by nia. cbn [bind].
    unfold py_truediv, num_truediv, to_double. cbn [as_num bind].
    rewrite Ha. reflexivity.
  - intros Hn Hs Hk Ha Hb. rewrite typed_row_analysis.
    rewrite py_truediv_float_int by exact Hn. cbn [bind].
    rewrite int_truediv_ok by nia. cbn [bind].
    rewrite py_truediv_float_float by exact Ha. cbn [bind].
    change (dict_item "composite_score" thresholds) with (Ok (VInt 50)).
    cbn [bind].
    unfold py_truediv, num_truediv, to_double. cbn [as_num bind].
    rewrite Hb. reflexivity.
Qed.

Lemma X16_witness :
  analyze_campaign thresholds
    (typed_row "CAMP601" 80 0.25 7 1500 1400 30 0 330 2100 350)
  = Raise ZeroDivisionError
  /\ analyze_campaign thresholds
       (typed_row "CAMP601" 80 0.25 7 0 1400 30 300 330 2100 350)
     = Raise ZeroDivisionError.
Proof.
  assert (B : 0 < 30 <= largest_int) by (vm_compute; split; congruence).
  split.
  - destruct (X16_zero_denominators "CAMP601" 80 0.25 7 1500 1400 30 0 330
                2100 350) as (_ & H & _).
    apply H. exact B.
  - destruct (X16_zero_denominators "CAMP601" 80 0.25 7 0 1400 30 300 330
                2100 350) as (_ & _ & _ & H).
    apply H; [exact B | reflexivity | vm_compute; congruence
             | reflexivity | reflexivity].
Defined.

(** ** Fields outside the schema *)

Lemma dict_get_in k v (d : dict) : dict_get k d = Some v -> In (k, v) d.
Proof.
  induction d as [|[k' v'] d IH]; cbn [dict_get]; [discriminate|].
  destruct (String.eqb_spec k k') as [->|N].
  - intros H. injection H as <-. left. reflexivity.
  - intros H. right. auto.
Qed.

Lemma in_dict_get k v (d : dict) :
  NoDup (map fst d) -> In (k, v) d -> dict_get k d = Some v.
Proof.
  induction d as [|[k' v'] d IH]; cbn [dict_get map fst]; [contradiction|].
  intros N I. apply NoDup_cons_iff in N as [N1 N2].
  destruct I as [E|I].
  - injection E as -> ->. rewrite String.eqb_refl. reflexivity.
  - destruct (String.eqb_spec k k') as [->|_]; [|auto].
    exfalso. apply N1. apply (in_map fst) in I. exact I.
Qed.

(** Key by key, the converted record holds the conversion of what the
    record holds. *)
Lemma converted_get items items' k :
  Forall2 (fun kv kv' : string * pyval =>
             fst kv' = fst kv
             /\ convert_value (fst kv) (snd kv) = Ok (snd kv'))
          items items' ->
  match dict_get k items with
  | Some v => exists x, convert_value k v = Ok x /\ dict_get k items' = Some x
  | None => dict_get k items' = None
  end.
Proof.
  induction 1 as [|[k1 v1] [k2 v2] l l' [E C] F IH]; cbn [dict_get];
    [reflexivity|].
  cbn [fst snd] in E, C. subst k2.
  destruct (String.eqb_spec k k1) as [->|N]; [eauto | exact IH].
Qed.

Lemma convert_items_returns items : forall acc,
  Forall (fun kv => exists x, convert_value (fst kv) (snd kv) = Ok x) items ->
  exists converted, convert_items items acc = Ok converted.
Proof.
  induction items as [|[key value] rest IH]; intros acc F; cbn [convert_items];
    [eauto|].
  apply Forall_cons_iff in F as [[x C] F]. cbn [fst snd] in C.
  rewrite C. cbn [bind]. apply IH. exact F.
Qed.

Lemma validated_key_required k :
  validated_key k = true -> In k required_fields.
Proof.
  unfold validated_key, mem_string. intros H.
  apply existsb_exists in H as (x & I & E). apply String.eqb_eq in E. subst x.
  cbn in I. unfold required_fields. cbn [In].
  repeat (destruct I as [<-|I]; [tauto|]). contradiction.
Qed.

Lemma invalid_fields_ext c1 c2 fvs :
  (forall fv, In fv fvs -> dict_get (fst fv) c1 = dict_get (fst fv) c2) ->
  invalid_fields c1 fvs = invalid_fields c2 fvs.
Proof.
  induction fvs as [|fv rest IH]; intros H; cbn [invalid_fields]; [reflexivity|].
  unfold field_invalid, dict_item. rewrite (H fv) by (left; reflexivity).
  rewrite IH by (intros fv' I; apply H; right; exact I). reflexivity.
Qed.

Lemma analyze_campaign_ext th c1 c2 :
  (forall f, In f required_fields -> dict_get f c1 = dict_get f c2) ->
  analyze_campaign th c1 = analyze_campaign th c2.
Proof.
  intros H. unfold analyze_campaign, dict_item.
  rewrite !(H _) by (unfold required_fields; cbn [In]; tauto).
  reflexivity.
Qed.

(** X17: validation and analysis of a record depend on its eleven required
    fields only.  Two records that hold the same values under the required
    fields - whatever other fields they carry, in whatever order - are
    both valid or both rejected, and when valid they are converted to the
    same values and get the same analysis. *)
Theorem X17_only_required_fields_matter items1 items2 c1 :
  NoDup (map fst items1) -> NoDup (map fst items2) ->
  (forall f, In f required_fields -> dict_get f items1 = dict_get f items2) ->
  passes (VDict items1) c1 ->
  exists c2,
    passes (VDict items2) c2
    /\ (forall f, In f required_fields -> dict_get f c2 = dict_get f c1)
    /\ (forall th, analyze_campaign th c2 = analyze_campaign th c1).
Proof.
  intros N1 N2 A (C1 & M1 & V1). cbn [_convert_field_types] in C1.
  destruct (convert_items_app items1 [] c1 N1 ltac:(reflexivity) C1)
    as (c1' & E1 & F1). cbn [app] in E1. subst c1'.
  assert (R : Forall (fun kv => exists x,
                        convert_value (fst kv) (snd kv) = Ok x) items2).
  { apply Forall_forall. intros [k v] I. cbn [fst snd].
    destruct (validated_key k) eqn:K.
    - pose proof (in_dict_get _ _ _ N2 I) as G.
      rewrite <- (A k (validated_key_required _ K)) in G.
      pose proof (converted_get items1 c1 k F1) as Q. rewrite G in Q.
      destruct Q as (x & Cx & _). eauto.
    - exists v. apply convert_value_other. exact K. }
  destruct (convert_items_returns items2 [] R) as [c2 C2]. exists c2.
  destruct (convert_items_app items2 [] c2 N2 ltac:(reflexivity) C2)
    as (c2' & E2 & F2). cbn [app] in E2. subst c2'.
  assert (G : forall f, In f required_fields -> dict_get f c2 = dict_get f c1).
  { intros f I.
    pose proof (converted_get items1 c1 f F1) as Q1.
    pose proof (converted_get items2 c2 f F2) as Q2.
    rewrite <- (A f I) in Q2.
    destruct (dict_get f items1) as [v|].
    - destruct Q1 as (x1 & X1 & ->). destruct Q2 as (x2 & X2 & ->). congruence.
    - congruence. }
  split; [|split].
  - split; [exact C2|]. split.
    + rewrite <- M1. unfold missing_fields. apply filter_ext_in.
      intros f I. unfold dict_mem. rewrite (G f I). reflexivity.
    + rewrite <- V1. apply invalid_fields_ext. intros fv I. apply G.
      apply validated_key_required. unfold validated_key, mem_string.
      apply existsb_exists. exists (fst fv).
      split; [apply in_map; exact I | apply String.eqb_refl].
  - exact G.
  - intros th. apply analyze_campaign_ext. exact G.
Qed.

Lemma X17_witness :
  exists c2,
    passes annotated_row c2
    /\ analyze_campaign thresholds c2
       = analyze_campaign thresholds scenario_A_converted.
Proof.
  destruct (X17_only_required_fields_matter
              [ ("campaign_id", VStr "CAMP601"); ("engagement_score", VStr "80");
                ("conversion_rate", VStr "0.25"); ("predictive_roi", VStr "7");
                ("budget_usd", VStr "1500"); ("total_campaign_spend", VStr "1400");
                ("new_customers_acquired", VStr "30");
                ("customers_start", VStr "300"); ("customers_end", VStr "330");
                ("revenue_generated", VStr "2100");
                ("advertising_spend", VStr "350") ]
              [ ("notes", VStr "spring sale");
                ("campaign_id", VStr "CAMP601"); ("engagement_score", VStr "80");
                ("conversion_rate", VStr "0.25"); ("predictive_roi", VStr "7");
                ("budget_usd", VStr "1500"); ("total_campaign_spend", VStr "1400");
                ("new_customers_acquired", VStr "30");
                ("customers_start", VStr "300"); ("customers_end", VStr "330");
                ("revenue_generated", VStr "2100");
                ("advertising_spend", VStr "350") ]
              scenario_A_converted) as (c2 & P & _ & An).
  - repeat constructor; cbn; intuition discriminate.
  - repeat constructor; cbn; intuition discriminate.
  - intros f I. unfold required_fields in I. cbn [In] in I.
    repeat (destruct I as [<-|I]; [reflexivity|]). contradiction.
  - repeat split; vm_compute; reflexivity.
  - exists c2. split; [exact P | apply An].
Defined.

(** ** The validation report *)

Lemma prefix_app_l sub : forall a b,
  String.prefix sub a = true -> String.prefix sub (a ++ b) = true.
Proof.
  induction sub as [|c sub IH]; intros a b H.
  - destruct a; cbn [append]; [destruct b|]; reflexivity.
  - destruct a as [|c' a]; cbn [String.prefix append] in *; [discriminate|].
    destruct (ascii_dec c c'); [auto | discriminate].
Qed.

Lemma str_contains_app_l sub a b :
  str_contains sub a = true -> str_contains sub (a ++ b) = true.
Proof.
  induction a as [|c a IH]; intros H.
  - cbn [str_contains] in H. rewrite orb_false_r in H.
    destruct sub; [|discriminate]. destruct b; reflexivity.
  - cbn [str_contains] in H. apply orb_prop in H as [H|H].
    + pose proof (prefix_app_l sub (String c a) b H) as P.
      cbn [append] in P. cbn [append str_contains]. rewrite P. reflexivity.
    + cbn [append str_contains]. rewrite (IH H). apply orb_true_r.
Qed.

Lemma str_contains_app_r sub a b :
  str_contains sub b = true -> str_contains sub (a ++ b) = true.
Proof.
  intros H. induction a as [|c a IH]; cbn [append]; [exact H|].
  cbn [str_contains]. rewrite IH. apply orb_true_r.
Qed.

(** The report is made of a head, the two per-field blocks and the
    summary. *)
Lemma build_report_shape n m valid errs text :
  build_report n m valid errs = Ok text ->
  exists head summary,
    text = head ++ present_block valid ++ nl
           ++ "## Data Type and Value Validation:" ++ nl
           ++ checked_block valid ++ nl
           ++ "Validation Summary:" ++ nl ++ summary.
Proof.
  unfold build_report. intros H.
  destruct (if valid then Ok "Data validation is successful!"
            else l <- errors_text errs;; Ok (join nl l)) as [summary|];
    cbn [bind] in H; [|discriminate].
  exists ("# Data Validation Report" ++ nl ++
          "## Data Structure Check:" ++ nl ++
          " - Number of campaigns: " ++ str_of_Z n ++ nl ++
          " - Number of fields per record: " ++ str_of_Z m ++ nl ++ nl ++
          "## Required Fields Check:" ++ nl), summary.
  injection H as H. rewrite <- H. reflexivity.
Qed.

Lemma present_block_lines (valid : bool) field :
  In field required_fields ->
  str_contains (" - " ++ field ++ ": "
                ++ (if valid then "present" else "missing") ++ nl)
               (present_block valid) = true.
Proof.
  intros I. unfold required_fields in I. cbn [In] in I.
  destruct valid;
    repeat (destruct I as [<-|I]; [vm_compute; reflexivity|]);
    contradiction.
Qed.

Lemma checked_block_lines (valid : bool) field :
  In field (map fst field_validations) ->
  str_contains (" - " ++ field ++ " " ++ field_range field ++ ": "
                ++ (if valid then "validated" else "not valid") ++ nl)
               (checked_block valid) = true.
Proof.
  intros I. cbn [map fst field_validations In] in I.
  destruct valid;
    repeat (destruct I as [<-|I]; [vm_compute; reflexivity|]);
    contradiction.
Qed.

(** X18: the per-field lines of the validation report follow the verdict
    of the whole batch, not the field: when the batch is invalid the report
    lists every required field as [missing] and every validated field as
    [not valid], whichever field of whichever record failed; when it is
    valid it lists them all as [present] and [validated]. *)
Theorem X18_report_blames_every_field records vr :
  records <> [] -> validate_data (VList records) = Ok vr ->
  (forall field, In field required_fields ->
     str_contains (" - " ++ field ++ ": "
                   ++ (if is_valid vr then "present" else "missing") ++ nl)
                  (report vr) = true)
  /\ (forall field, In field (map fst field_validations) ->
        str_contains (" - " ++ field ++ " " ++ field_range field ++ ": "
                      ++ (if is_valid vr then "validated" else "not valid")
                      ++ nl)
                     (report vr) = true).
Proof.
  intros N H. unfold validate_data in H.
  destruct records as [|r0 rest]; [contradiction|].
  cbn [truthy negb py_len first_item iterate bind] in H.
  destruct (py_len r0) as [nf|]; cbn [bind] in H; [|discriminate].
  destruct (validate_records _ 0 (r0 :: rest)) as [st|] eqn:L; cbn [bind] in H;
    [|discriminate].
  destruct (build_report _ _ _ _) as [text|] eqn:B; cbn [bind] in H;
    [|discriminate].
  injection H as <-. cbn [is_valid report].
  destruct (build_report_shape _ _ _ _ _ B) as (head & summary & ->).
  split; intros field I.
  - apply str_contains_app_r, str_contains_app_l, present_block_lines.
    exact I.
  - do 5 apply str_contains_app_r.
    apply str_contains_app_l, checked_block_lines. exact I.
Qed.

Lemma X18_witness :
  exists vr,
    validate_data (VList [scenario_A_row; out_of_range_row]) = Ok vr
    /\ is_valid vr = false
    /\ str_contains (" - campaign_id: missing" ++ nl) (report vr) = true
    /\ str_contains (" - budget_usd (positive number): not valid" ++ nl)
                    (report vr) = true.
Proof.
  destruct (validate_data (VList [scenario_A_row; out_of_range_row]))
    as [vr|] eqn:V; [|vm_compute in V; discriminate].
  assert (F : is_valid vr = false).
  { vm_compute in V. injection V as <-. reflexivity. }
  destruct (X18_report_blames_every_field
              [scenario_A_row; out_of_range_row] vr ltac:(discriminate) V)
    as [P C].
  exists vr. split; [reflexivity|]. split; [exact F|]. split.
  - pose proof (P "campaign_id" ltac:(cbn; tauto)) as Q.
    rewrite F in Q. exact Q.
  - pose proof (C "budget_usd" ltac:(cbn; tauto)) as Q.
    rewrite F in Q. exact Q.
Defined.

(** ** The pipeline end to end *)

Lemma validated_analyzed parsed vr :
  validate_data parsed = Ok vr ->
  exists l, analyze_campaigns thresholds (data vr) = Ok l.
Proof.
  intros V. apply analyze_campaigns_total. apply Forall_forall.
  intros c I. destruct (validated_passes _ _ _ V I) as (record & P).
  destruct (passes_typed _ _ P) as (r & H & D).
  exists (metrics r). apply analyze_metrics; assumption.
Qed.

(** X19: the pipeline on a batch of objects, end to end.  When the parser
    yields a list whose elements are all objects - as the CSV reader does,
    and as a JSON [campaigns] array of objects is - [process_data] returns
    exactly when the coercer returns on every record, and the only
    exception that can leave it is [OverflowError]: validation reports
    every other defect, and the analysis of the valid records never
    fails. *)
Theorem X19_pipeline_on_objects json csv s records :
  parse_data json csv s = Ok (VList records) -> Forall is_dict records ->
  ((exists out, process_data json csv thresholds s = Ok out)
   <-> Forall convertible records)
  /\ (forall e, process_data json csv thresholds s = Raise e ->
                e = OverflowError).
Proof.
  intros P D. unfold process_data. rewrite P. cbn [bind].
  destruct records as [|r0 rest].
  - split; [split; [constructor | intros _; eexists; reflexivity]|].
    intros e H. discriminate.
  - assert (N : r0 :: rest <> []) by discriminate.
    destruct (validate_data (VList (r0 :: rest))) as [vr|e1] eqn:V;
      cbn [bind].
    + destruct (validated_analyzed _ _ V) as [l A]. rewrite A.
      split.
      * split; [intros _; eapply validate_data_convertible; eauto|].
        intros _. destruct (negb (is_valid vr)); eexists; reflexivity.
      * intros e. destruct (negb (is_valid vr)); discriminate.
    + split.
      * split; [intros [out H]; discriminate|].
        intros F. destruct (validate_data_returns _ N F) as [vr V'].
        congruence.
      * intros e H. injection H as <-. eapply validate_data_raises; eauto.
Qed.

Lemma X19_witness :
  exists out,
    process_data no_json plain_DictReader thresholds mixed_text = Ok out.
Proof.
  apply (X19_pipeline_on_objects no_json plain_DictReader mixed_text
           [scenario_A_row; out_of_range_row]).
  - vm_compute. reflexivity.
  - repeat constructor.
  - repeat constructor; eexists; vm_compute; reflexivity.
Defined.

(** ** Coercion as a round trip *)

Lemma round_half_even_exact k d : 0 < d -> round_half_even (k * d) d = k.
Proof.
  intros Hd. unfold round_half_even.
  rewrite Z.mod_mul by lia. rewrite Z.div_mul by lia.
  destruct (Z.compare_spec (2 * 0) d); lia.
Qed.

Lemma ratio_log2_int z : 0 < z -> ratio_log2 z 1 = Z.log2 z.
Proof.
  intros Hz. unfold ratio_log2. change (Z.log2 1) with 0. rewrite Z.sub_0_r.
  pose proof (Z.log2_nonneg z) as L. unfold scale.
  destruct (Z.leb_spec 0 (Z.log2 z)); [|lia].
  pose proof (Binary64Facts.log2_bounds z Hz) as [B _].
  destruct (Z.leb_spec (1 * 2 ^ Z.log2 z) z); [reflexivity | lia].
Qed.

(** An integer with at most 53 significant bits is a binary64: the
    conversion is exact. *)
Lemma SF_of_int_exact s M E :
  0 < M < 2 ^ 53 -> 0 <= E -> M * 2 ^ E <= largest_int ->
  exists m e,
    SF_of_ratio s (M * 2 ^ E) 1 = S754_finite s m e
    /\ trunc_finite s m e = if s then - (M * 2 ^ E) else M * 2 ^ E.
Proof.
  intros HM HE HL.
  set (z := M * 2 ^ E) in *.
  assert (P2 : 0 < 2 ^ E) by (apply Binary64Facts.pow2_pos; lia).
  assert (Hz : 0 < z) by (unfold z; nia).
  pose proof (Binary64Facts.log2_bounds z Hz) as [B1 B2].
  pose proof (Z.log2_nonneg z) as L0.
  set (L := Z.log2 z) in *.
  assert (LE : L <= 52 + E).
  { assert (z < 2 ^ (53 + E)).
    { rewrite Binary64Facts.pow2_split by lia. unfold z. nia. }
    apply Z.log2_lt_pow2 in H; [fold L in H; lia | exact Hz]. }
  assert (L1023 : L <= 1023).
  { assert (z < 2 ^ 1024).
    { eapply Z.le_lt_trans; [exact HL|]. vm_compute. reflexivity. }
    apply Z.log2_lt_pow2 in H; [fold L in H; lia | exact Hz]. }
  rewrite Binary64Facts.SF_of_ratio_unfold.
  unfold mantissa_of. unfold exponent_of. rewrite (ratio_log2_int z Hz). fold L.
  replace (Z.max (L - 52) min_exp) with (L - 52)
    by (unfold min_exp; lia).
  destruct (Z.eqb_spec z 0) as [|_]; [lia|].
  cbv zeta.
  assert (Hm : exists m, 2 ^ 52 <= m < 2 ^ 53
                /\ round_half_even (fst (scale z 1 (L - 52)))
                                   (snd (scale z 1 (L - 52))) = m
                /\ (if 0 <=? L - 52 then m * 2 ^ (L - 52)
                    else m / 2 ^ (- (L - 52))) = z).
  { unfold scale. destruct (Z.leb_spec 0 (L - 52)) as [Hp|Hn]; cbn [fst snd].
    - (* z is a multiple of 2^(L-52) *)
      assert (Pe : 0 < 2 ^ (L - 52)) by (apply Binary64Facts.pow2_pos; lia).
      assert (D : z = (M * 2 ^ (E - (L - 52))) * 2 ^ (L - 52)).
      { unfold z. rewrite <- Z.mul_assoc, <- Binary64Facts.pow2_split by lia.
        f_equal. f_equal. lia. }
      exists (M * 2 ^ (E - (L - 52))).
      rewrite Z.mul_1_l.
      split; [|split; [|symmetry; exact D]].
      + assert (S1 : 2 ^ L = 2 ^ 52 * 2 ^ (L - 52)).
        { rewrite <- Binary64Facts.pow2_split by lia. f_equal. lia. }
        set (m := M * 2 ^ (E - (L - 52))) in *.
        rewrite S1 in B1, B2. nia.
      + rewrite D. apply round_half_even_exact. exact Pe.
    - assert (Pe : 0 < 2 ^ (- (L - 52))) by (apply Binary64Facts.pow2_pos; lia).
      exists (z * 2 ^ (- (L - 52))).
      split; [|split; [|apply Z.div_mul; lia]].
      + assert (S1 : 2 ^ 52 = 2 ^ L * 2 ^ (- (L - 52))).
        { rewrite <- Binary64Facts.pow2_split by lia. f_equal. lia. }
        replace (2 ^ 53) with (2 * 2 ^ 52) by reflexivity. rewrite S1. nia.
      + rewrite <- (Z.mul_1_r (z * 2 ^ (- (L - 52)))) at 1.
        apply round_half_even_exact. lia. }
  destruct Hm as (m & [M1 M2] & -> & T).
  assert (P52 : 0 < 2 ^ 52) by (vm_compute; reflexivity).
  destruct (Z.eqb_spec m 0) as [|_]; [lia|].
  destruct (Z.eqb_spec m (2 ^ 53)) as [|_]; [lia|].
  destruct (Z.leb_spec (L - 52) max_exp) as [_|X]; [|unfold max_exp in X; lia].
  exists (Z.to_pos m), (L - 52). split; [reflexivity|].
  unfold trunc_finite. rewrite Z2Pos.id by lia. rewrite T. reflexivity.
Qed.

Lemma zero_roundtrip :
  exists g, float_of_int 0 = Ok g /\ int_of_float g = Ok 0.
Proof. exists 0%float. split; reflexivity. Qed.

(** [int(float(z)) = z] for every [z] that is itself the integer part of a
    float. *)
Lemma int_float_roundtrip f z :
  int_of_float f = Ok z ->
  exists g, float_of_int z = Ok g /\ int_of_float g = Ok z.
Proof.
  unfold int_of_float. pose proof (Prim2SF_valid f) as V.
  destruct (Prim2SF f) as [s0|s0| |s m e] eqn:E; intros H; try discriminate.
  - injection H as <-. apply zero_roundtrip.
  - injection H as H. cbn [valid_binary] in V.
    pose proof (Binary64Facts.trunc_finite_bound s m e V) as B.
    destruct (Binary64Facts.bounded_elim m e V) as [Hm _].
    rewrite H in B. unfold trunc_finite in H.
    set (v := if 0 <=? e then Zpos m * 2 ^ e else Zpos m / 2 ^ (- e)) in *.
    assert (V0 : 0 <= v).
    { unfold v. destruct (Z.leb_spec 0 e).
      - pose proof (Binary64Facts.pow2_pos e ltac:(lia)). nia.
      - apply Z.div_pos; [lia | apply Binary64Facts.pow2_pos; lia]. }
    destruct (Z.eq_dec v 0) as [Z0|NZ].
    { rewrite Z0 in H. subst z. destruct s; apply zero_roundtrip. }
    assert (R : exists M E', 0 < M < 2 ^ 53 /\ 0 <= E' /\ v = M * 2 ^ E').
    { unfold v in *. destruct (Z.leb_spec 0 e).
      - exists (Zpos m), e. repeat split; lia.
      - exists (Zpos m / 2 ^ (- e)), 0. rewrite Z.mul_1_r.
        repeat split; try lia.
        pose proof (Binary64Facts.pow2_pos (- e) ltac:(lia)).
        eapply Z.le_lt_trans; [|exact Hm].
        apply Z.div_le_upper_bound; [lia|]. nia. }
    destruct R as (M & E' & HM & HE & Hv).
    assert (Az : Z.abs z = v) by (destruct s; lia).
    assert (Sz : (z <? 0) = s).
    { destruct s; [apply Z.ltb_lt | apply Z.ltb_ge]; lia. }
    destruct (SF_of_int_exact s M E' HM HE ltac:(rewrite <- Hv; lia))
      as (m' & e' & S & T).
    rewrite <- Hv in S, T.
    exists (SF2Prim (S754_finite s m' e')). unfold float_of_int.
    rewrite Sz, Az, S. split; [reflexivity|].
    unfold int_of_float.
    rewrite (Prim2SF_of_rounded s).
    + rewrite T. f_equal. destruct s; lia.
    + rewrite <- S. apply Binary64Facts.SF_of_ratio_rounded; lia.
Qed.

(** Converting a converted value changes nothing. *)
Lemma convert_value_idempotent key v x :
  convert_value key v = Ok x -> convert_value key x = Ok x.
Proof.
  unfold convert_value.
  destruct (mem_string key count_fields).
  - destruct (py_float v) as [f|e1] eqn:F; cbn [bind].
    + destruct (int_of_float f) as [z|e2] eqn:I; cbn [except_value_type].
      * intros H. injection H as <-. cbn [py_float].
        destruct (int_float_roundtrip f z I) as (g & -> & G). cbn [bind].
        rewrite G. reflexivity.
      * destruct e2; intros H; try discriminate; injection H as <-;
          rewrite F; cbn [bind]; rewrite I; reflexivity.
    + destruct e1; intros H; try discriminate; injection H as <-;
        rewrite F; reflexivity.
  - destruct (_ && _); [|intros H; injection H as <-; reflexivity].
    destruct (py_float v) as [f|e1] eqn:F; cbn [bind except_value_type].
    + intros H. injection H as <-. reflexivity.
    + destruct e1; intros H; try discriminate; injection H as <-;
        rewrite F; reflexivity.
Qed.

Lemma dict_set_keys k v (d : dict) :
  map fst (dict_set k v d)
  = if dict_mem k d then map fst d else (map fst d ++ [k])%list.
Proof.
  unfold dict_mem.
  induction d as [|[k' v'] d IH]; cbn [dict_set dict_get map fst app];
    [reflexivity|].
  destruct (String.eqb_spec k k') as [->|N]; [reflexivity|].
  cbn [map fst]. rewrite IH. destruct (dict_get k d); reflexivity.
Qed.

Lemma dict_set_nodup k v (d : dict) :
  NoDup (map fst d) -> NoDup (map fst (dict_set k v d)).
Proof.
  intros N. rewrite dict_set_keys. unfold dict_mem.
  destruct (dict_get k d) eqn:G; [exact N|].
  apply dict_get_none_keys in G.
  apply NoDup_app; [exact N | repeat constructor; intros [] | ].
  intros x I [<-|[]]. contradiction.
Qed.

Lemma convert_items_nodup items : forall acc converted,
  convert_items items acc = Ok converted ->
  NoDup (map fst acc) -> NoDup (map fst converted).
Proof.
  induction items as [|[key value] rest IH]; intros acc converted H N;
    cbn [convert_items] in H.
  - injection H as <-. exact N.
  - destruct (convert_value key value) as [v'|]; cbn [bind] in H;
      [|discriminate].
    eapply IH; [exact H|]. apply dict_set_nodup. exact N.
Qed.

Lemma convert_items_fixed items : forall acc,
  NoDup (map fst items) ->
  (forall k, In k (map fst items) -> dict_get k acc = None) ->
  Forall (fun kv => convert_value (fst kv) (snd kv) = Ok (snd kv)) items ->
  convert_items items acc = Ok (acc ++ items)%list.
Proof.
  induction items as [|[key value] rest IH]; intros acc N F C;
    cbn [convert_items].
  - rewrite app_nil_r. reflexivity.
  - apply Forall_cons_iff in C as [C1 C2]. cbn [fst snd] in C1. rewrite C1.
    cbn [bind]. cbn [map fst] in N. apply NoDup_cons_iff in N as [N1 N2].
    rewrite (dict_get_app_fresh key value acc) by (apply F; left; reflexivity).
    rewrite IH; [rewrite <- app_assoc; reflexivity | exact N2 | | exact C2].
    intros k I. rewrite dict_get_app, (F k) by (right; exact I).
    cbn [dict_get]. destruct (String.eqb_spec k key) as [->|]; [|reflexivity].
    contradiction.
Qed.

Lemma coercer_idempotent record converted :
  _convert_field_types record = Ok converted ->
  _convert_field_types (VDict converted) = Ok converted.
Proof.
  intros H. destruct record as [| | | | | |items]; try discriminate.
  cbn [_convert_field_types] in *.
  pose proof (convert_items_nodup _ _ _ H ltac:(constructor)) as N.
  rewrite (convert_items_fixed converted [] N); [reflexivity | reflexivity|].
  apply Forall_forall. intros [k x] I. cbn [fst snd].
  pose proof (in_dict_get _ _ _ N I) as G.
  destruct (convert_items_get _ _ _ _ _ H G) as [(v & _ & C)|D];
    [|discriminate].
  eapply convert_value_idempotent; eauto.
Qed.

Lemma passes_again record converted :
  passes record converted -> passes (VDict converted) converted.
Proof.
  intros (C & M & V). split; [|split; assumption].
  eapply coercer_idempotent; eauto.
Qed.

Lemma check_records_validated l :
  Forall (fun c => passes (VDict c) c) l ->
  check_records (map VDict l) = Ok (map Some l).
Proof.
  induction 1 as [|c l P _ IH]; cbn [map check_records]; [reflexivity|].
  apply check_record_passes in P. rewrite P, IH. reflexivity.
Qed.

Lemma somes_map_some {A} (l : list A) : somes (map Some l) = l.
Proof. induction l as [|a l IH]; cbn; [|rewrite IH]; reflexivity. Qed.

Lemma forallb_map_some {A} (l : list A) : forallb is_some (map Some l) = true.
Proof. induction l as [|a l IH]; cbn; auto. Qed.

(** X20: coercion is a round trip.  Converting a converted record changes
    nothing - [int(float(z))] is [z] for a count that is already the
    integer part of a float - so a valid record is still valid when read
    again, and validating the valid records of a batch accepts them all,
    unchanged and in the same order. *)
Theorem X20_coercion_round_trip parsed vr :
  validate_data parsed = Ok vr ->
  Forall (fun converted =>
            _convert_field_types (VDict converted) = Ok converted
            /\ passes (VDict converted) converted)
         (data vr)
  /\ (data vr <> [] ->
      exists vr',
        validate_data (VList (map VDict (data vr))) = Ok vr'
        /\ is_valid vr' = true /\ errors vr' = [] /\ data vr' = data vr).
Proof.
  intros V.
  assert (F : Forall (fun c => passes (VDict c) c) (data vr)).
  { apply Forall_forall. intros c I.
    destruct (validated_passes _ _ _ V I) as (record & P).
    eapply passes_again; eauto. }
  split.
  - eapply Forall_impl; [|exact F]. intros c P. split; [apply P | exact P].
  - intros N.
    assert (N' : map VDict (data vr) <> [])
      by (destruct (data vr); [contradiction | discriminate]).
    assert (Fc : Forall convertible (map VDict (data vr))).
    { apply Forall_map. eapply Forall_impl; [|exact F].
      intros c P. exists c. apply P. }
    destruct (validate_data_returns _ N' Fc) as [vr' V'].
    destruct (validate_data_list _ _ N' V') as (vs & C & Iv & D).
    rewrite (check_records_validated _ F) in C. injection C as <-.
    rewrite forallb_map_some in Iv. rewrite somes_map_some in D.
    exists vr'. split; [exact V'|]. split; [exact Iv|]. split; [|exact D].
    destruct (validate_data_state _ _ V')
      as [(I & _) | (records & st & _ & L & I & E & _)]; [congruence|].
    rewrite E. apply (validate_records_accounting _ _ _ _ L); [cbn; tauto|].
    rewrite <- I. exact Iv.
Qed.

Lemma X20_witness :
  exists vr vr',
    validate_data (VList [scenario_A_row; out_of_range_row]) = Ok vr
    /\ data vr = [scenario_A_converted]
    /\ validate_data (VList (map VDict (data vr))) = Ok vr'
    /\ is_valid vr' = true /\ data vr' = [scenario_A_converted].
Proof.
  destruct (validate_data (VList [scenario_A_row; out_of_range_row]))
    as [vr|] eqn:V; [|vm_compute in V; discriminate].
  assert (D : data vr = [scenario_A_converted]).
  { vm_compute in V. injection V as <-. reflexivity. }
  destruct (X20_coercion_round_trip _ vr V) as [_ R].
  destruct R as (vr' & V' & I & _ & D').
  - rewrite D. discriminate.
  - exists vr, vr'. rewrite D in D'. auto.
Defined.

(** ** Batches the coercer returns on, and exceptions of the decoder *)

(** X21: on a non-empty parsed batch on each record of which the coercer
    returns, [validate_data] returns and [is_valid] is true exactly when
    every record passes the missing-field check and all the predicates;
    the records that pass are collected in [data] whatever the others do;
    and when the flag is false [process_data] returns the validation report
    alone, with no analysis. *)
Theorem X21_batch_validity json csv th s records :
  parse_data json csv s = Ok (VList records) -> records <> [] ->
  Forall convertible records ->
  exists vr verdicts,
    validate_data (VList records) = Ok vr
    /\ check_records records = Ok verdicts
    /\ (is_valid vr = true
        <-> Forall (fun record => exists converted, passes record converted)
                   records)
    /\ data vr = somes verdicts
    /\ (is_valid vr = false ->
        process_data json csv th s = Ok (ReportOnly (report vr))).
Proof.
  intros P N F.
  destruct (validate_data_returns _ N F) as [vr V].
  destruct (validate_data_list _ _ N V) as (vs & C & Iv & D).
  exists vr, vs. split; [exact V|]. split; [exact C|]. split; [|split].
  - rewrite Iv. apply check_records_all. exact C.
  - exact D.
  - intros I. eapply process_data_invalid; eauto.
Qed.

Lemma X21_witness :
  exists vr,
    validate_data (VList [scenario_A_row; out_of_range_row]) = Ok vr
    /\ is_valid vr = false
    /\ data vr = [scenario_A_converted]
    /\ process_data no_json plain_DictReader thresholds mixed_text
       = Ok (ReportOnly (report vr)).
Proof.
  destruct (X21_batch_validity no_json plain_DictReader thresholds mixed_text
              [scenario_A_row; out_of_range_row])
    as (vr & vs & V & C & _ & D & R).
  - vm_compute; reflexivity.
  - discriminate.
  - repeat constructor; eexists; vm_compute; reflexivity.
  - exists vr. split; [exact V|].
    assert (E : vr = mk_validation_result false (errors vr) (report vr)
                       [scenario_A_converted]).
    { vm_compute in V. injection V as <-. reflexivity. }
    assert (I : is_valid vr = false) by (rewrite E; reflexivity).
    split; [exact I|]. split; [rewrite E; reflexivity | exact (R I)].
Defined.

(** X22: the JSON branch catches [JSONDecodeError] only.  Any other
    exception of the decoder - [RecursionError] on text nested too deep -
    leaves [parse_data] and [process_data], where every exception of the
    CSV reader is turned into the format error. *)
Theorem X22_decoder_exceptions_escape json csv th s e :
  startswith "{" (py_strip s) = true ->
  json (py_strip s) = Raise e -> e <> JSONDecodeError ->
  parse_data json csv s = Raise e
  /\ process_data json csv th s = Raise e.
Proof.
  intros B J N.
  assert (P : parse_data json csv s = Raise e).
  { unfold parse_data. rewrite B, J. destruct e; try reflexivity.
    contradiction. }
  split; [exact P|]. unfold process_data. rewrite P. reflexivity.
Qed.

Lemma X22_witness :
  parse_data deep_json_loads no_csv json_nested_text = Raise RecursionError
  /\ process_data deep_json_loads no_csv thresholds json_nested_text
     = Raise RecursionError.
Proof.
  apply (X22_decoder_exceptions_escape deep_json_loads no_csv thresholds
           json_nested_text RecursionError).
  - vm_compute. reflexivity.
  - vm_compute. reflexivity.
  - discriminate.
Defined.
